(** * OpenAPI generation from captured network exchanges

    A shallow embedding of [openapi-from-chrome/scripts/generate_openapi.py]:
    [infer_schema_from_value], [normalize_path], [parse_network_request],
    [generate_openapi_spec] and [main], together with the properties of the
    specification that concern them.

    Conventions of the embedding.
    - A Python [str] is the [string] of its UTF-8 bytes.  Search, splitting,
      joining and comparison are those of Python on such strings (the order
      of the bytes is the order of the code points), and [len] counts code
      points.  The methods whose result depends on the Unicode character
      database ([isdigit], [lower], [upper]) and the conversion [int] belong
      to the interpreter: they are fields of the class [PyLib], and only
      what they do on ASCII text is fixed.
    - A Python [dict] is an association list in insertion order ([dict]);
      assignment to an existing key keeps the key's position.
    - A Python [set] of strings is a [gset string]; [sorted] is a stable
      merge sort.
    - Python's [int] is [Z]; a [float] is an IEEE-754 binary64 value
      ([spec_float]).
    - A call that may raise returns a [result]: [Return] with the value, or
      [Raise] with the text [str(e)] of the exception.  [json.loads] has a
      result type of its own, [decoded], which tells the [JSONDecodeError]
      that the script catches from every other exception.
    - What a function prints is given beside the value it returns:
      [parse_network_request] is the value, [parse_network_request_stderr]
      the lines printed on the standard error.
    - The functions of the interpreter and of its standard library that the
      script calls ([str.isdigit], [str.lower], [str.upper], [int], [str],
      [urlparse], [parse_qsl] underneath [parse_qs], [json.loads]) are the
      fields of the class [PyLib]; [cpython] is a reference instance, CPython
      3.11 on ASCII text, used to run the script on concrete captures.
    - A capture record is a JSON object whose keys, when present, hold
      values of the types a capture has: strings for the URL, the method,
      the bodies and the headers, an integer for the status. *)

From Stdlib Require Import ZArith List Bool Ascii String Lia.
From Stdlib Require Import Sorting.Sorted Permutation SpecFloat.
From Stdlib Require OrderedTypeEx.
From stdpp Require Import base option list sorting gmap strings.

Import ListNotations.
Set Warnings "-register-all".
Local Open Scope string_scope.
Local Open Scope list_scope.

(* ===================================================================== *)
(** * Python strings *)
(* ===================================================================== *)

Module PyStr.

Definition is_ascii_digit (c : ascii) : bool :=
  let n := nat_of_ascii c in (48 <=? n)%nat && (n <=? 57)%nat.

Definition is_ascii_upper (c : ascii) : bool :=
  let n := nat_of_ascii c in (65 <=? n)%nat && (n <=? 90)%nat.

Definition is_ascii_lower (c : ascii) : bool :=
  let n := nat_of_ascii c in (97 <=? n)%nat && (n <=? 122)%nat.

Definition is_ascii_alpha (c : ascii) : bool :=
  is_ascii_upper c || is_ascii_lower c.

Definition lower_char (c : ascii) : ascii :=
  if is_ascii_upper c then ascii_of_nat (nat_of_ascii c + 32) else c.

Definition upper_char (c : ascii) : ascii :=
  if is_ascii_lower c then ascii_of_nat (nat_of_ascii c - 32) else c.

Fixpoint map_chars (f : ascii -> ascii) (s : string) : string :=
  match s with
  | EmptyString => EmptyString
  | String c s' => String (f c) (map_chars f s')
  end.

Fixpoint all_chars (p : ascii -> bool) (s : string) : bool :=
  match s with
  | EmptyString => true
  | String c s' => p c && all_chars p s'
  end.

(** [s.isascii()] *)
Definition isascii (s : string) : bool :=
  all_chars (fun c => (nat_of_ascii c <? 128)%nat) s.

(** A byte that continues the encoding of a code point. *)
Definition is_continuation (c : ascii) : bool :=
  let n := nat_of_ascii c in (128 <=? n)%nat && (n <? 192)%nat.

(** [len(s)]: the number of code points *)
Fixpoint len (s : string) : nat :=
  match s with
  | EmptyString => 0
  | String c s' => if is_continuation c then len s' else S (len s')
  end.

(** [s.lower()], [s.upper()] and [s.isdigit()] on ASCII text; [isdigit] is
    false on the empty string. *)
Definition ascii_lower (s : string) : string := map_chars lower_char s.
Definition ascii_upper (s : string) : string := map_chars upper_char s.

Definition ascii_isdigit (s : string) : bool :=
  match s with
  | EmptyString => false
  | _ => all_chars is_ascii_digit s
  end.

Definition digit_value (c : ascii) : Z := Z.of_nat (nat_of_ascii c - 48).

Fixpoint decimal_acc (acc : Z) (s : string) : Z :=
  match s with
  | EmptyString => acc
  | String c s' => decimal_acc (10 * acc + digit_value c) s'
  end.

(** The number written by a string of ASCII decimal digits. *)
Definition decimal (s : string) : Z := decimal_acc 0 s.

(** [sub in s] *)
Fixpoint contains (sub s : string) : bool :=
  String.prefix sub s ||
  match s with
  | EmptyString => false
  | String _ s' => contains sub s'
  end.

(** [s.split(sep)] for a one-character separator *)
Fixpoint split (sep : ascii) (s : string) : list string :=
  match s with
  | EmptyString => [EmptyString]
  | String c s' =>
      if Ascii.eqb c sep then EmptyString :: split sep s'
      else match split sep s' with
           | h :: t => String c h :: t
           | [] => [String c EmptyString]
           end
  end.

(** [sep.join(parts)] *)
Definition join (sep : string) (parts : list string) : string :=
  String.concat sep parts.

(** The decimal numeral of an integer: what [str(n)] returns. *)
Definition digit_char (d : Z) : ascii := ascii_of_nat (48 + Z.to_nat d).

Fixpoint digits_fuel (fuel : nat) (n : Z) (acc : string) : string :=
  match fuel with
  | O => acc
  | S fuel' =>
      let acc' := String (digit_char (n mod 10)) acc in
      if n <? 10 then acc' else digits_fuel fuel' (n / 10) acc'
  end%Z.

Definition str_of_int (n : Z) : string :=
  let m := Z.abs n in
  let ds := digits_fuel (S (Z.to_nat (Z.log2 m))) m EmptyString in
  if (n <? 0)%Z then String "-" ds else ds.

(** truth value of a string: non-empty *)
Definition truthy (s : string) : bool :=
  match s with EmptyString => false | _ => true end.

End PyStr.

(** No upper-case ASCII letter occurs in the string. *)
Definition is_lowercase (s : string) : bool :=
  PyStr.all_chars (fun c => negb (PyStr.is_ascii_upper c)) s.

(* ===================================================================== *)
(** * Python dictionaries with string keys *)
(* ===================================================================== *)

Module PyDict.
Section Dict.
Context {V : Type}.

Definition dict := list (string * V).

Definition empty : dict := [].

(** [d.get(k)] *)
Fixpoint get (k : string) (d : dict) : option V :=
  match d with
  | [] => None
  | (k', v) :: d' => if String.eqb k k' then Some v else get k d'
  end.

(** [k in d] *)
Definition mem (k : string) (d : dict) : bool :=
  match get k d with Some _ => true | None => false end.

(** [d[k] = v]: overwrite in place, or append a new key *)
Fixpoint set (k : string) (v : V) (d : dict) : dict :=
  match d with
  | [] => [(k, v)]
  | (k', v') :: d' =>
      if String.eqb k k' then (k', v) :: d' else (k', v') :: set k v d'
  end.

Definition keys (d : dict) : list string := map fst d.
Definition values (d : dict) : list V := map snd d.
Definition items (d : dict) : list (string * V) := d.

(** truth value of a dictionary: non-empty *)
Definition truthy (d : dict) : bool :=
  match d with [] => false | _ => true end.

End Dict.
Arguments dict : clear implicits.
End PyDict.

Abbreviation dict := PyDict.dict.

(* ===================================================================== *)
(** * JSON values and inferred schemas *)
(* ===================================================================== *)

(** The values [json.loads] produces. *)
Inductive json : Type :=
| JNull
| JBool (b : bool)
| JInt (n : Z)
| JFloat (f : spec_float)
| JStr (s : string)
| JList (l : list json)
| JDict (d : list (string * json)).

(** The classes the script tests with [isinstance]. *)
Inductive pytype : Type :=
| NoneType | PyBool | PyInt | PyFloat | PyStr | PyList | PyDictT.

Definition type_of (v : json) : pytype :=
  match v with
  | JNull => NoneType
  | JBool _ => PyBool
  | JInt _ => PyInt
  | JFloat _ => PyFloat
  | JStr _ => PyStr
  | JList _ => PyList
  | JDict _ => PyDictT
  end.

Definition pytype_eqb (a b : pytype) : bool :=
  match a, b with
  | NoneType, NoneType | PyBool, PyBool | PyInt, PyInt | PyFloat, PyFloat
  | PyStr, PyStr | PyList, PyList | PyDictT, PyDictT => true
  | _, _ => false
  end.

(** [bool] is a subclass of [int]; there is no other subclassing among
    these classes. *)
Definition issubclass (a b : pytype) : bool :=
  match a, b with
  | PyBool, PyInt => true
  | _, _ => pytype_eqb a b
  end.

Definition isinstance (v : json) (c : pytype) : bool :=
  issubclass (type_of v) c.

Definition is_None (v : json) : bool :=
  match v with JNull => true | _ => false end.

(** A schema is the Python dictionary the script builds; each field is a
    key that may be absent.  The dictionary [{}] is [empty_schema]. *)
Inductive schema : Type :=
  Schema {
    s_type : option string;
    s_format : option string;
    s_items : option schema;
    s_properties : option (dict schema);
    s_required : option (list string);
    s_example : option json
  }.

Definition empty_schema : schema := Schema None None None None None None.

Definition typed (t : string) : schema :=
  Schema (Some t) None None None None None.

Definition set_example (v : json) (s : schema) : schema :=
  Schema (s_type s) (s_format s) (s_items s) (s_properties s) (s_required s)
         (Some v).

Definition set_items (i : schema) (s : schema) : schema :=
  Schema (s_type s) (s_format s) (Some i) (s_properties s) (s_required s)
         (s_example s).

Definition set_format (f : string) (s : schema) : schema :=
  Schema (s_type s) (Some f) (s_items s) (s_properties s) (s_required s)
         (s_example s).

Definition set_properties (p : dict schema) (s : schema) : schema :=
  Schema (s_type s) (s_format s) (s_items s) (Some p) (s_required s)
         (s_example s).

Definition set_required (r : list string) (s : schema) : schema :=
  Schema (s_type s) (s_format s) (s_items s) (s_properties s) (Some r)
         (s_example s).

(** [infer_schema_from_value(value, example)].  The recursion follows the
    nesting of the value; on a value decoded by [json.loads] it stays within
    the recursion limit, which the decoder reaches first. *)
Fixpoint infer_schema_from_value (value : json) (example : bool) : schema :=
  if is_None value then
    if example then set_example JNull (typed "null") else typed "null"
  else if isinstance value PyBool then
    let schema := typed "boolean" in
    if example then set_example value schema else schema
  else if isinstance value PyInt then
    let schema := typed "integer" in
    if example then set_example value schema else schema
  else if isinstance value PyFloat then
    let schema := typed "number" in
    if example then set_example value schema else schema
  else if isinstance value PyStr then
    let schema := typed "string" in
    if example then set_example value schema else schema
  else if isinstance value PyList then
    match value with
    | JList (first :: _) =>
        let item_schema := infer_schema_from_value first example in
        let schema := set_items item_schema (typed "array") in
        if example then set_example value schema else schema
    | _ => set_items empty_schema (typed "array")
    end
  else if isinstance value PyDictT then
    match value with
    | JDict kvs =>
        let '(properties, required) :=
          fold_left
            (fun (acc : dict schema * list string) (kv : string * json) =>
               let '(properties, required) := acc in
               let '(key, val) := kv in
               (PyDict.set key (infer_schema_from_value val example) properties,
                if is_None val then required else required ++ [key]))
            kvs (PyDict.empty, []) in
        let schema := set_properties properties (typed "object") in
        let schema :=
          match required with [] => schema | _ => set_required required schema end in
        if example then set_example value schema else schema
    | _ => typed "string"
    end
  else typed "string".

(* ===================================================================== *)
(** * The interpreter and the standard-library functions the script calls *)
(* ===================================================================== *)

(** A call returns a value or raises an exception, which is given by its
    text [str(e)]. *)
Inductive result (A : Type) : Type :=
| Return (a : A)
| Raise (message : string).

Arguments Return {A} a.
Arguments Raise {A} message.

Definition bind {A B : Type} (r : result A) (k : A -> result B) : result B :=
  match r with
  | Return a => k a
  | Raise message => Raise message
  end.

Notation "x <- r ;; k" := (bind r (fun x => k))
  (at level 62, r at next level, right associativity).

(** A [for] loop over [items] whose body may raise: the first exception
    ends the loop. *)
Fixpoint for_each {A S : Type} (body : S -> A -> result S)
    (items : list A) (state : S) : result S :=
  match items with
  | [] => Return state
  | item :: items' =>
      match body state item with
      | Return state' => for_each body items' state'
      | Raise message => Raise message
      end
  end.

(** The six components of [urllib.parse.urlparse(url)]. *)
Record ParseResult : Type := {
  url_scheme : string;
  url_netloc : string;
  url_path : string;
  url_params : string;
  url_query : string;
  url_fragment : string
}.

(** The outcome of [json.loads]: a value, the [JSONDecodeError] of a
    malformed text, or an exception of another class ([RecursionError] on a
    text nested too deeply, [ValueError] on an integer literal with more
    digits than the interpreter converts). *)
Inductive decoded : Type :=
| Decoded (value : json)
| JSONDecodeError
| OtherError (message : string).

(** [isdigit], [lower] and [upper] are the methods of [str]; [int] is
    [int(s)] on a string, [str] is [str(n)] on an integer and [urlparse] is
    [urllib.parse.urlparse], all three of which raise [ValueError] on some
    inputs ([int] and [str] beyond the number of digits the interpreter
    converts); [parse_qsl] is [urllib.parse.parse_qsl] with its default
    arguments.  Three facts about them are used: on ASCII text [isdigit]
    holds of the non-empty strings of decimal digits, the result of [lower]
    has no upper-case ASCII letter, and what [str] returns is the decimal
    numeral of the integer. *)
Class PyLib : Type := {
  isdigit : string -> bool;
  lower : string -> string;
  upper : string -> string;
  int : string -> result Z;
  str : Z -> result string;
  urlparse : string -> result ParseResult;
  parse_qsl : string -> list (string * string);
  json_loads : string -> decoded;
  isdigit_ascii :
    forall s, PyStr.isascii s = true -> isdigit s = PyStr.ascii_isdigit s;
  lower_is_lowercase : forall s, is_lowercase (lower s) = true;
  str_is_decimal : forall n s, str n = Return s -> s = PyStr.str_of_int n
}.

(** [urllib.parse.parse_qs], as the library defines it on top of
    [parse_qsl]. *)
Definition parse_qs `{PyLib} (qs : string) : dict (list string) :=
  fold_left
    (fun (parsed_result : dict (list string)) (pair : string * string) =>
       let '(name, value) := pair in
       match PyDict.get name parsed_result with
       | Some vs => PyDict.set name (vs ++ [value]) parsed_result
       | None => PyDict.set name [value] parsed_result
       end)
    (parse_qsl qs) PyDict.empty.

(* ===================================================================== *)
(** * Path normalisation *)
(* ===================================================================== *)

(** A parameter object of an operation: the dictionary with the keys
    [name], [in], [required], [schema] and [example]; [required] is absent
    from query parameters. *)
Record Param : Type := {
  p_name : string;
  p_in : string;
  p_required : option bool;
  p_schema : schema;
  p_example : json
}.

(** The third test of the loop in [normalize_path]. *)
Definition uuid_like (part : string) : bool :=
  (20 <? PyStr.len part)%nat &&
  (PyStr.contains "-" part || (PyStr.len part =? 32)%nat).

(** The two parameter objects the loop records under [param_name];
    [example] is the value of [int(part)]. *)
Definition integer_path_param (param_name : string) (example : Z) : Param :=
  {| p_name := param_name;
     p_in := "path";
     p_required := Some true;
     p_schema := typed "integer";
     p_example := JInt example |}.

Definition uuid_path_param (param_name part : string) : Param :=
  {| p_name := param_name;
     p_in := "path";
     p_required := Some true;
     p_schema := set_format "uuid" (typed "string");
     p_example := JStr part |}.

(** The body of the loop over [path_parts]; it raises when [int(part)]
    does. *)
Definition normalize_part `{PyLib}
    (acc : list string * dict Param) (part : string)
    : result (list string * dict Param) :=
  let '(normalized_parts, path_params) := acc in
  if negb (PyStr.truthy part) then
    Return (normalized_parts ++ [part], path_params)
  else if isdigit part then
    let param_name := "id" in
    example <- int part ;;
    Return (normalized_parts ++ ["{" +:+ param_name +:+ "}"],
            PyDict.set param_name (integer_path_param param_name example)
                       path_params)
  else if uuid_like part then
    let param_name := "id" in
    Return (normalized_parts ++ ["{" +:+ param_name +:+ "}"],
            PyDict.set param_name (uuid_path_param param_name part) path_params)
  else
    Return (normalized_parts ++ [part], path_params).

(** [normalize_path(url)]; it raises when [urlparse] or [int] does. *)
Definition normalize_path `{PyLib} (url : string)
    : result (string * string * dict Param) :=
  parsed <- urlparse url ;;
  let base_url := url_scheme parsed +:+ "://" +:+ url_netloc parsed in
  let path := url_path parsed in
  let path_parts := PyStr.split "/" path in
  state <- for_each normalize_part path_parts ([], PyDict.empty) ;;
  let '(normalized_parts, path_params) := state in
  let normalized_path := PyStr.join "/" normalized_parts in
  Return (base_url, normalized_path, path_params).

(* ===================================================================== *)
(** * Parsing one captured exchange *)
(* ===================================================================== *)

(** The [response] object of a capture record; an absent key is [None]. *)
Record Response : Type := {
  resp_status : option Z;
  resp_headers : option (dict string);
  resp_body : option string
}.

(** A capture record; an absent key is [None]. *)
Record Request : Type := {
  r_url : option string;
  r_method : option string;
  r_requestHeaders : option (dict string);
  r_postData : option string;
  r_response : option Response
}.

Record MediaType : Type := { mt_schema : schema }.

Record RequestBody : Type := { rb_content : dict MediaType }.

Record ResponseObject : Type := {
  ro_description : string;
  ro_content : option (dict MediaType)
}.

(** The dictionary [parse_network_request] returns. *)
Record Parsed : Type := {
  base_url : string;
  path : string;
  method : string;
  path_params : list Param;
  query_params : list Param;
  request_body : option RequestBody;
  responses : dict ResponseObject
}.

Definition static_extensions : list string :=
  [".css"; ".js"; ".png"; ".jpg"; ".gif"; ".svg"; ".woff"; ".ttf"].

(** [any(ext in url for ext in [...])] *)
Definition is_static_asset (url : string) : bool :=
  existsb (fun ext => PyStr.contains ext url) static_extensions.

Definition json_content (s : schema) : dict MediaType :=
  [("application/json", {| mt_schema := s |})].

Definition generic_responses : dict ResponseObject :=
  [("200", {| ro_description := "Successful response"; ro_content := None |})].

Definition query_param_spec (item : string * list string) : Param :=
  let '(param_name, values) := item in
  {| p_name := param_name;
     p_in := "query";
     p_required := None;
     p_schema := typed "string";
     p_example := JStr (match values with v :: _ => v | [] => "" end) |}.

(** The request-body part of [parse_network_request]: a [JSONDecodeError]
    is caught and leaves the body out, any other exception of [json.loads]
    goes on to the handler of the function. *)
Definition parse_request_body `{PyLib} (request : Request)
    : result (option RequestBody) :=
  let request_headers := default PyDict.empty (r_requestHeaders request) in
  let content_type := default "" (PyDict.get "content-type" request_headers) in
  match r_postData request with
  | Some post_data =>
      if PyStr.truthy post_data then
        if PyStr.contains "application/json" content_type then
          match json_loads post_data with
          | Decoded body_json =>
              Return
                (Some {| rb_content :=
                           json_content
                             (infer_schema_from_value body_json false) |})
          | JSONDecodeError => Return None
          | OtherError message => Raise message
          end
        else Return None
      else Return None
  | None => Return None
  end.

Definition empty_response : Response :=
  {| resp_status := None; resp_headers := None; resp_body := None |}.

(** The response part of [parse_network_request], with the same treatment
    of the exceptions of [json.loads]; the key of the entry is evaluated
    after the body has been decoded. *)
Definition parse_response `{PyLib} (request : Request)
    : result (dict ResponseObject) :=
  let response := default empty_response (r_response request) in
  let response_status := default 200%Z (resp_status response) in
  response_spec <-
    match resp_body response with
    | Some response_body =>
        if PyStr.truthy response_body then
          let response_content_type :=
            default ""
              (PyDict.get "content-type"
                 (default PyDict.empty (resp_headers response))) in
          if PyStr.contains "application/json" response_content_type then
            match json_loads response_body with
            | Decoded response_json =>
                status <- str response_status ;;
                Return
                  (Some [(status,
                          {| ro_description := "Successful response";
                             ro_content :=
                               Some (json_content
                                       (infer_schema_from_value
                                          response_json false)) |})])
            | JSONDecodeError => Return None
            | OtherError message => Raise message
            end
          else Return None
        else Return None
    | None => Return None
    end ;;
  Return match response_spec with
         | Some spec => if PyDict.truthy spec then spec else generic_responses
         | None => generic_responses
         end.

(** The body of the [try] statement of [parse_network_request]: the value
    it returns, [None] for a static asset, or the exception that reaches
    the handler. *)
Definition try_parse_network_request `{PyLib} (request : Request)
    : result (option Parsed) :=
  let url := default "" (r_url request) in
  let method := lower (default "GET" (r_method request)) in
  if is_static_asset url then Return None
  else
    normalized <- normalize_path url ;;
    let '(base_url, path, path_params) := normalized in
    parsed_url <- urlparse url ;;
    let query_params := parse_qs (url_query parsed_url) in
    let query_param_specs :=
      map query_param_spec (PyDict.items query_params) in
    request_body <- parse_request_body request ;;
    response_spec <- parse_response request ;;
    Return (Some {| base_url := base_url;
                    path := path;
                    method := method;
                    path_params := PyDict.values path_params;
                    query_params := query_param_specs;
                    request_body := request_body;
                    responses := response_spec |}).

(** [parse_network_request(request)], the value returned: that of the
    [try] statement, or the [None] of the handler. *)
Definition parse_network_request `{PyLib} (request : Request)
    : option Parsed :=
  match try_parse_network_request request with
  | Return parsed => parsed
  | Raise _ => None
  end.

(** [parse_network_request(request)], the lines printed on the standard
    error: the line of the handler, when an exception reaches it. *)
Definition parse_network_request_stderr `{PyLib} (request : Request)
    : list string :=
  match try_parse_network_request request with
  | Return _ => []
  | Raise message => ["Error parsing request: " +:+ message]
  end.

(* ===================================================================== *)
(** * Aggregation *)
(* ===================================================================== *)

(** An operation object: [parameters] and [requestBody] are keys that may be
    absent. *)
Record Operation : Type := {
  op_summary : string;
  op_responses : dict ResponseObject;
  op_parameters : option (list Param);
  op_requestBody : option RequestBody
}.

Definition set_parameters (ps : list Param) (op : Operation) : Operation :=
  {| op_summary := op_summary op;
     op_responses := op_responses op;
     op_parameters := Some ps;
     op_requestBody := op_requestBody op |}.

Definition set_requestBody (rb : RequestBody) (op : Operation) : Operation :=
  {| op_summary := op_summary op;
     op_responses := op_responses op;
     op_parameters := op_parameters op;
     op_requestBody := Some rb |}.

(** [paths[path]] on a [defaultdict]: a missing key is first bound to the
    value of the factory. *)
Definition defaultdict_get {V : Type} (factory : V) (k : string) (d : dict V)
    : V * dict V :=
  match PyDict.get k d with
  | Some v => (v, d)
  | None => (factory, PyDict.set k factory d)
  end.

(** The operation built from one parsed exchange. *)
Definition build_parameters (parsed : Parsed) : list Param :=
  let parameters := [] in
  let parameters :=
    match path_params parsed with
    | [] => parameters
    | _ => parameters ++ path_params parsed
    end in
  match query_params parsed with
  | [] => parameters
  | _ => parameters ++ query_params parsed
  end.

Definition build_operation `{PyLib} (parsed : Parsed) : Operation :=
  let operation :=
    {| op_summary := upper (method parsed) +:+ " " +:+ path parsed;
       op_responses := responses parsed;
       op_parameters := None;
       op_requestBody := None |} in
  let parameters := build_parameters parsed in
  let operation :=
    match parameters with
    | [] => operation
    | _ => set_parameters parameters operation
    end in
  match request_body parsed with
  | Some rb => set_requestBody rb operation
  | None => operation
  end.

(** [{p["name"]: p for p in stored}] followed by the loop that adds the
    parameters whose name is not a key yet. *)
Definition index_by_name (stored : list Param) : dict Param :=
  fold_left (fun d p => PyDict.set (p_name p) p d) stored PyDict.empty.

Definition add_missing (existing_params : dict Param)
    (parameters : list Param) : dict Param :=
  fold_left
    (fun d param =>
       if PyDict.mem (p_name param) d then d
       else PyDict.set (p_name param) param d)
    parameters existing_params.

Definition merge_parameters (stored : Operation) (parameters : list Param)
    : Operation :=
  let existing_params :=
    index_by_name (default [] (op_parameters stored)) in
  let existing_params := add_missing existing_params parameters in
  if PyDict.truthy existing_params
  then set_parameters (PyDict.values existing_params) stored
  else stored.

Abbreviation PathMap := (dict (dict Operation)).

(** The body of the loop over [requests]. *)
Definition aggregate_step `{PyLib}
    (st : PathMap * gset string) (request : Request)
    : PathMap * gset string :=
  let '(paths, servers) := st in
  match parse_network_request request with
  | None => (paths, servers)
  | Some parsed =>
      let servers := {[ base_url parsed ]} ∪ servers in
      let path := path parsed in
      let method := method parsed in
      let operation := build_operation parsed in
      let parameters := build_parameters parsed in
      let '(methods, paths) := defaultdict_get PyDict.empty path paths in
      match PyDict.get method methods with
      | Some stored =>
          let methods :=
            PyDict.set method (merge_parameters stored parameters) methods in
          (PyDict.set path methods paths, servers)
      | None =>
          (PyDict.set path (PyDict.set method operation methods) paths, servers)
      end
  end.

(** Lexicographic order on strings, as [<=] on Python strings. *)
Definition str_le : relation string := fun a b => String.leb a b = true.

#[global] Instance str_le_dec : RelDecision str_le.
Proof. intros a b. unfold str_le. apply _. Defined.

(** Order on the items of a dictionary.  Python compares the pairs
    component by component; the keys of a dictionary are pairwise distinct,
    so the comparison of two items is always decided by the keys. *)
Definition key_le {V : Type} : relation (string * V) :=
  fun a b => str_le (fst a) (fst b).

#[global] Instance key_le_dec {V : Type} : RelDecision (@key_le V).
Proof. intros a b. unfold key_le. apply _. Defined.

(** [sorted(servers)] and [sorted(paths.items())] *)
Definition sorted_strings (l : list string) : list string :=
  merge_sort str_le l.

Definition sorted_items {V : Type} (d : dict V) : list (string * V) :=
  merge_sort key_le (PyDict.items d).

Record Info : Type := {
  info_title : string;
  info_version : string;
  info_description : string
}.

Record Server : Type := { server_url : string }.

Record OpenAPI : Type := {
  openapi : string;
  info : Info;
  servers : list Server;
  paths : PathMap
}.

Definition aggregate `{PyLib} (requests : list Request)
    : PathMap * gset string :=
  fold_left aggregate_step requests (PyDict.empty, ∅).

(** [generate_openapi_spec(requests, title, version)] *)
Definition generate_openapi_spec `{PyLib}
    (requests : list Request) (title version : string) : OpenAPI :=
  let '(paths, servers) := aggregate requests in
  {| openapi := "3.0.0";
     info := {| info_title := title;
                info_version := version;
                info_description :=
                  "API specification generated from Chrome DevTools network requests" |};
     servers := map (fun server => {| server_url := server |})
                    (sorted_strings (elements servers));
     paths := fold_left
                (fun d (item : string * dict Operation) =>
                   PyDict.set (fst item) (snd item) d)
                (sorted_items paths) PyDict.empty |}.

(** [generate_openapi_spec(requests, ...)], the lines printed on the standard
    error: those of the parser, in the order of the requests. *)
Definition generate_openapi_spec_stderr `{PyLib} (requests : list Request)
    : list string :=
  flat_map parse_network_request_stderr requests.

(* ===================================================================== *)
(** * A reference instance of the library: CPython 3.11 on ASCII text *)
(* ===================================================================== *)

(** The methods of [str] are those of ASCII text: a character above 127 is
    neither a digit nor a letter.  [int] follows [PyLong_FromString] in base
    10, with the default limit of 4300 digits, which [str] has too.  [urlsplit] and [urlparse]
    follow [urllib/parse.py]; bracketed hosts are checked for balanced
    brackets only (their content is not validated as an IP literal) and the
    NFKC check of non-ASCII hosts does not apply to ASCII text.  [parse_qsl]
    decodes [%XX] escapes to the bytes they denote.  [json_loads] follows
    [json/decoder.py] and the scanner of the [_json] extension module, with
    the digit limit of [int] and with the recursion limit as it stands where
    the script calls [json.loads]; a [\uXXXX] escape above 127 is stored as
    its UTF-8 bytes. *)
Module CPython.

Definition isdigit : string -> bool := PyStr.ascii_isdigit.
Definition lower : string -> string := PyStr.ascii_lower.
Definition upper : string -> string := PyStr.ascii_upper.

(** The double quote character. *)
Definition dquote : ascii := "034"%char.

Definition one_of (cs : string) (c : ascii) : bool :=
  PyStr.contains (String c EmptyString) cs.

(** [(s[:i], s[i:])] for the first index [i] whose character satisfies
    [p], or [(s, "")] when there is none. *)
Fixpoint break (p : ascii -> bool) (s : string) : string * string :=
  match s with
  | EmptyString => (EmptyString, EmptyString)
  | String c s' =>
      if p c then (EmptyString, s)
      else let '(h, t) := break p s' in (String c h, t)
  end.

(** [(s[:i], s[i:])] for [i = s.rfind(c)], when [c] occurs in [s]. *)
Fixpoint rbreak (c : ascii) (s : string) : option (string * string) :=
  match s with
  | EmptyString => None
  | String a s' =>
      match rbreak c s' with
      | Some (h, t) => Some (String a h, t)
      | None => if Ascii.eqb a c then Some (EmptyString, s) else None
      end
  end.

Fixpoint lstrip (p : ascii -> bool) (s : string) : string :=
  match s with
  | String c s' => if p c then lstrip p s' else s
  | EmptyString => EmptyString
  end.

Fixpoint remove_chars (p : ascii -> bool) (s : string) : string :=
  match s with
  | String c s' =>
      if p c then remove_chars p s' else String c (remove_chars p s')
  | EmptyString => EmptyString
  end.

Definition tail (s : string) : string :=
  match s with String _ s' => s' | EmptyString => EmptyString end.

Definition c0_control_or_space (c : ascii) : bool :=
  (nat_of_ascii c <=? 32)%nat.

Definition unsafe_url_byte (c : ascii) : bool := one_of (String "009" (String "010" (String "013" EmptyString))) c.

Definition scheme_char (c : ascii) : bool :=
  PyStr.is_ascii_alpha c || PyStr.is_ascii_digit c || one_of "+-." c.

Definition uses_params : list string :=
  [""; "ftp"; "hdl"; "prospero"; "http"; "imap"; "https"; "shttp"; "rtsp";
   "rtspu"; "sip"; "sips"; "mms"; "sftp"; "tel"].

Definition first_is_alpha (s : string) : bool :=
  match s with String c _ => PyStr.is_ascii_alpha c | EmptyString => false end.

(** [urlsplit(url)]: scheme, netloc, path, query, fragment *)
Definition urlsplit (url : string)
    : result (string * string * string * string * string) :=
  let url := lstrip c0_control_or_space url in
  let url := remove_chars unsafe_url_byte url in
  let '(scheme, url) :=
    let '(pre, rest) := break (Ascii.eqb ":") url in
    match rest with
    | String _ rest' =>
        if first_is_alpha pre && PyStr.all_chars scheme_char pre
        then (lower pre, rest')
        else (EmptyString, url)
    | EmptyString => (EmptyString, url)
    end in
  let '(netloc, url) :=
    if String.prefix "//" url
    then break (one_of "/?#") (tail (tail url))
    else (EmptyString, url) in
  let lb := PyStr.contains "[" netloc in
  let rb := PyStr.contains "]" netloc in
  if (lb && negb rb) || (rb && negb lb) then Raise "Invalid IPv6 URL"
  else
    let '(url, fragment) :=
      let '(h, t) := break (Ascii.eqb "#") url in (h, tail t) in
    let '(url, query) :=
      let '(h, t) := break (Ascii.eqb "?") url in (h, tail t) in
    Return (scheme, netloc, url, query, fragment).

Definition splitparams (url : string) : string * string :=
  match rbreak "/" url with
  | Some (h, t) =>
      let '(pre, post) := break (Ascii.eqb ";") t in
      match post with
      | EmptyString => (url, EmptyString)
      | String _ post' => (h +:+ pre, post')
      end
  | None =>
      let '(pre, post) := break (Ascii.eqb ";") url in (pre, tail post)
  end.

Definition urlparse (url : string) : result ParseResult :=
  parts <- urlsplit url ;;
  let '(scheme, netloc, url, query, fragment) := parts in
  let '(url, params) :=
    if existsb (String.eqb scheme) uses_params && PyStr.contains ";" url
    then splitparams url
    else (url, EmptyString) in
  Return {| url_scheme := scheme; url_netloc := netloc; url_path := url;
            url_params := params; url_query := query;
            url_fragment := fragment |}.

(** ** [int] *)

(** The white space [int] strips from both ends. *)
Definition is_space (c : ascii) : bool :=
  let n := nat_of_ascii c in
  ((9 <=? n) && (n <=? 13) || (n =? 32))%nat.

(** [sys.get_int_max_str_digits()] *)
Definition max_str_digits : nat := 4300.

Definition digit_limit_message (digits : nat) : string :=
  "Exceeds the limit (4300 digits) for integer string conversion: value has "
  +:+ PyStr.str_of_int (Z.of_nat digits)
  +:+ " digits; use sys.set_int_max_str_digits() to increase the limit".

(** The run of digits and underscores at the start of [s], without its
    underscores, and what follows the run; [None] when an underscore
    follows another one or ends the run.  [prev] is the character before
    [s]. *)
Fixpoint digit_run (prev : ascii) (s : string) : option (string * string) :=
  match s with
  | String c s' =>
      if PyStr.is_ascii_digit c then
        match digit_run c s' with
        | Some (digits, rest) => Some (String c digits, rest)
        | None => None
        end
      else if Ascii.eqb c "_" then
        if Ascii.eqb prev "_" then None else digit_run c s'
      else if Ascii.eqb prev "_" then None
      else Some (EmptyString, s)
  | EmptyString =>
      if Ascii.eqb prev "_" then None else Some (EmptyString, s)
  end.

Definition hex_char (n : nat) : ascii :=
  if (n <? 10)%nat then ascii_of_nat (48 + n) else ascii_of_nat (87 + n).

(** [repr(s)] *)
Definition repr_char (quote c : ascii) : string :=
  let n := nat_of_ascii c in
  if Ascii.eqb c quote || Ascii.eqb c "\" then String "\" (String c EmptyString)
  else if (n =? 9)%nat then "\t"
  else if (n =? 10)%nat then "\n"
  else if (n =? 13)%nat then "\r"
  else if ((n <? 32) || (n =? 127))%nat then
    String "\" (String "x" (String (hex_char (n / 16))
                               (String (hex_char (n mod 16)) EmptyString)))
  else String c EmptyString.

Fixpoint repr_chars (quote : ascii) (s : string) : string :=
  match s with
  | EmptyString => EmptyString
  | String c s' => repr_char quote c +:+ repr_chars quote s'
  end.

Definition repr (s : string) : string :=
  let quote :=
    if PyStr.contains "'" s && negb (PyStr.contains (String dquote EmptyString) s)
    then dquote else "'"%char in
  String quote (repr_chars quote s +:+ String quote EmptyString).

(** [int(s)]: optional white space, an optional sign, decimal digits with
    single underscores between them, optional white space. *)
Definition int (s : string) : result Z :=
  let invalid : result Z :=
    Raise ("invalid literal for int() with base 10: "
           +:+ String.substring 0 200 (repr s)) in
  let s1 := lstrip is_space s in
  let '(negative, s2) :=
    match s1 with
    | String c s' =>
        if Ascii.eqb c "-" then (true, s')
        else if Ascii.eqb c "+" then (false, s')
        else (false, s1)
    | EmptyString => (false, s1)
    end in
  if String.prefix "_" s2 then invalid
  else
    match digit_run "000" s2 with
    | None => invalid
    | Some (digits, rest) =>
        if (max_str_digits <? String.length digits)%nat
        then Raise (digit_limit_message (String.length digits))
        else
          match digits, lstrip is_space rest with
          | String _ _, EmptyString =>
              Return (if negative then - PyStr.decimal digits
                      else PyStr.decimal digits)%Z
          | _, _ => invalid
          end
    end.

Definition hex_value (c : ascii) : option nat :=
  let n := nat_of_ascii c in
  if PyStr.is_ascii_digit c then Some (n - 48)
  else if (97 <=? n)%nat && (n <=? 102)%nat then Some (n - 87)
  else if (65 <=? n)%nat && (n <=? 70)%nat then Some (n - 55)
  else None.

(** [unquote]: a malformed escape is kept as it is *)
Fixpoint unquote (s : string) : string :=
  match s with
  | EmptyString => EmptyString
  | String c s' =>
      let keep := String c (unquote s') in
      if Ascii.eqb c "%" then
        match s' with
        | String h1 (String h2 rest) =>
            match hex_value h1, hex_value h2 with
            | Some a, Some b => String (ascii_of_nat (16 * a + b)) (unquote rest)
            | _, _ => keep
            end
        | _ => keep
        end
      else keep
  end.

Definition plus_to_space (s : string) : string :=
  PyStr.map_chars (fun c => if Ascii.eqb c "+" then " "%char else c) s.

Definition parse_qsl (qs : string) : list (string * string) :=
  fold_left
    (fun r name_value =>
       if negb (PyStr.truthy name_value) then r
       else
         let '(n, rest) := break (Ascii.eqb "=") name_value in
         match rest with
         | EmptyString => r
         | String _ v =>
             if PyStr.truthy v
             then r ++ [(unquote (plus_to_space n), unquote (plus_to_space v))]
             else r
         end)
    (PyStr.split "&" qs) [].

(** [str(n)] *)
Definition str (n : Z) : result string :=
  if (max_str_digits <? String.length (PyStr.str_of_int (Z.abs n)))%nat
  then Raise "Exceeds the limit (4300 digits) for integer string conversion; use sys.set_int_max_str_digits() to increase the limit"
  else Return (PyStr.str_of_int n).

(** ** [json.loads] *)

Definition is_ws (c : ascii) : bool :=
  one_of (String " " (String "009" (String "010" (String "013" EmptyString)))) c.

Definition skip_ws (s : string) : string := lstrip is_ws s.

Definition hex_digit (c : ascii) : option N :=
  option_map N.of_nat (hex_value c).

(** UTF-8 bytes of a code point *)
Definition utf8 (u : N) : string :=
  let b (n : N) := ascii_of_N n in
  (if u <? 128 then String (b u) EmptyString
   else if u <? 2048 then
     String (b (192 + u / 64)) (String (b (128 + u mod 64)) EmptyString)
   else if u <? 65536 then
     String (b (224 + u / 4096))
       (String (b (128 + (u / 64) mod 64))
          (String (b (128 + u mod 64)) EmptyString))
   else
     String (b (240 + u / 262144))
       (String (b (128 + (u / 4096) mod 64))
          (String (b (128 + (u / 64) mod 64))
             (String (b (128 + u mod 64)) EmptyString))))%N.

Definition hex4 (s : string) : option (N * string) :=
  match s with
  | String a (String b (String c (String d rest))) =>
      match hex_digit a, hex_digit b, hex_digit c, hex_digit d with
      | Some a, Some b, Some c, Some d =>
          Some (((a * 16 + b) * 16 + c) * 16 + d, rest)%N
      | _, _, _, _ => None
      end
  | _ => None
  end.

Definition simple_escape (c : ascii) : option ascii :=
  if Ascii.eqb c dquote then Some dquote
  else if Ascii.eqb c "\" then Some "\"%char
  else if Ascii.eqb c "/" then Some "/"%char
  else if Ascii.eqb c "b" then Some "008"%char
  else if Ascii.eqb c "f" then Some "012"%char
  else if Ascii.eqb c "n" then Some "010"%char
  else if Ascii.eqb c "r" then Some "013"%char
  else if Ascii.eqb c "t" then Some "009"%char
  else None.

(** The code point of a [\uXXXX] escape whose four digits were read as
    [uni], joined with a following low surrogate when there is one. *)
Definition join_surrogates (uni : N) (rest : string) : N * string :=
  if ((55296 <=? uni) && (uni <=? 56319))%N && String.prefix "\u" rest
  then match hex4 (tail (tail rest)) with
       | Some (uni2, rest2) =>
           if ((56320 <=? uni2) && (uni2 <=? 57343))%N
           then (65536 + ((uni - 55296) * 1024 + (uni2 - 56320)), rest2)%N
           else (uni, rest)
       | None => (uni, rest)
       end
  else (uni, rest).

(** [scanstring], entered after the opening quote, in strict mode *)
Fixpoint scanstring (fuel : nat) (s : string) : option (string * string) :=
  match fuel with
  | O => None
  | S fuel' =>
      match s with
      | EmptyString => None
      | String c s' =>
          if Ascii.eqb c dquote then Some (EmptyString, s')
          else if Ascii.eqb c "\" then
            match s' with
            | EmptyString => None
            | String esc s'' =>
                if Ascii.eqb esc "u" then
                  match hex4 s'' with
                  | None => None
                  | Some (uni, rest) =>
                      let '(uni, rest) := join_surrogates uni rest in
                      match scanstring fuel' rest with
                      | Some (str, rest') => Some (utf8 uni +:+ str, rest')
                      | None => None
                      end
                  end
                else
                  match simple_escape esc with
                  | None => None
                  | Some ch =>
                      match scanstring fuel' s'' with
                      | Some (str, rest') => Some (String ch str, rest')
                      | None => None
                      end
                  end
            end
          else if (nat_of_ascii c <? 32)%nat then None
          else
            match scanstring fuel' s' with
            | Some (str, rest') => Some (String c str, rest')
            | None => None
            end
      end
  end.

(** The number pattern of the scanner: an optional minus sign and an
    integer part, then optionally a fraction (a dot and digits) and
    optionally an exponent (e or E, an optional sign, digits). *)

Definition span_digits (s : string) : string * string :=
  break (fun c => negb (PyStr.is_ascii_digit c)) s.

(** The integer part: a single [0], or a non-empty run of digits that
    does not start with [0]. *)
Definition match_integer (s : string) : option (string * string) :=
  match s with
  | String c s' =>
      if Ascii.eqb c "0" then Some ("0", s')
      else if PyStr.is_ascii_digit c then Some (span_digits s)
      else None
  | EmptyString => None
  end.

Definition match_frac (s : string) : option (string * string) :=
  match s with
  | String c s' =>
      if Ascii.eqb c "." then
        match span_digits s' with
        | (EmptyString, _) => None
        | (ds, rest) => Some (ds, rest)
        end
      else None
  | EmptyString => None
  end.

Definition match_exp (s : string) : option (Z * string) :=
  match s with
  | String c s' =>
      if one_of "eE" c then
        let '(neg, s'') :=
          match s' with
          | String sg t =>
              if Ascii.eqb sg "-" then (true, t)
              else if Ascii.eqb sg "+" then (false, t)
              else (false, s')
          | EmptyString => (false, s')
          end in
        match span_digits s'' with
        | (EmptyString, _) => None
        | (ds, rest) =>
            Some (if neg then (- PyStr.decimal ds)%Z else PyStr.decimal ds, rest)
        end
      else None
  | EmptyString => None
  end.

(** [float] of the decimal [m * 10^e10] with [0 <= m], rounded to the
    nearest binary64 value, ties to even. *)
Definition float_of_decimal (neg : bool) (m e10 : Z) : spec_float :=
  (if m =? 0 then S754_zero neg
   else if 0 <=? e10 then
     binary_normalize 53 1024 (cond_Zopp neg (m * 10 ^ e10)) 0 neg
   else
     let d := 10 ^ (- e10) in
     let k := Z.max 0 (Z.log2 d - Z.log2 m + 56) in
     let q := (m * 2 ^ k) / d in
     let sticky := if (m * 2 ^ k) mod d =? 0 then 0 else 1 in
     binary_normalize 53 1024 (cond_Zopp neg (2 * q + sticky)) (- k - 1) neg)%Z.

(** A number; an integer literal with more digits than [int] converts makes
    the conversion raise. *)
Definition match_number (s : string) : option (result json * string) :=
  let '(neg, s1) :=
    match s with
    | String c s' => if Ascii.eqb c "-" then (true, s') else (false, s)
    | EmptyString => (false, s)
    end in
  match match_integer s1 with
  | None => None
  | Some (ip, s2) =>
      let '(frac, s3) :=
        match match_frac s2 with
        | Some (ds, rest) => (Some ds, rest)
        | None => (None, s2)
        end in
      let '(ex, s4) :=
        match match_exp s3 with
        | Some (e, rest) => (Some e, rest)
        | None => (None, s3)
        end in
      match frac, ex with
      | None, None =>
          Some (if (max_str_digits <? String.length ip)%nat
                then Raise (digit_limit_message (String.length ip))
                else Return (JInt (if neg then - PyStr.decimal ip
                                   else PyStr.decimal ip)%Z),
                s4)
      | _, _ =>
          let fd := default EmptyString frac in
          let m := PyStr.decimal (ip +:+ fd) in
          let e10 := (default 0 ex - Z.of_nat (String.length fd))%Z in
          Some (Return (JFloat (float_of_decimal neg m e10)), s4)
      end
  end.

Definition strip_prefix (p s : string) : option string :=
  if String.prefix p s
  then Some (String.substring (String.length p)
               (String.length s - String.length p) s)
  else None.

Definition match_literal (s : string) : option (result json * string) :=
  match strip_prefix "null" s with
  | Some r => Some (Return JNull, r)
  | None =>
  match strip_prefix "true" s with
  | Some r => Some (Return (JBool true), r)
  | None =>
  match strip_prefix "false" s with
  | Some r => Some (Return (JBool false), r)
  | None =>
  match match_number s with
  | Some res => Some res
  | None =>
  match strip_prefix "NaN" s with
  | Some r => Some (Return (JFloat S754_nan), r)
  | None =>
  match strip_prefix "Infinity" s with
  | Some r => Some (Return (JFloat (S754_infinity false)), r)
  | None =>
  match strip_prefix "-Infinity" s with
  | Some r => Some (Return (JFloat (S754_infinity true)), r)
  | None => None
  end end end end end end end.

(** [dict(pairs)] *)
Definition dict_of_pairs (pairs : list (string * json)) : dict json :=
  fold_left (fun d kv => PyDict.set (fst kv) (snd kv) d) pairs PyDict.empty.

(** What the scanner makes of the start of a text: a value and the rest of
    the text, a [JSONDecodeError], or another exception. *)
Inductive scanned : Type :=
| Scanned (value : json) (rest : string)
| Malformed
| Failed (message : string).

(** The number of arrays and objects that can be open at once: the
    recursion limit of the interpreter, 1000, less the calls that are
    active when the script calls [json.loads] from [parse_network_request]. *)
Definition nesting_limit : nat := 992.

(** [scan_once], with the array and object loops entered after the value
    that starts an element.  [fuel] bounds the number of nested calls, of
    which every second one consumes a character of the text; [depth] is the
    number of arrays and objects that can still be opened. *)
Fixpoint scan_once (fuel depth : nat) (s : string) : scanned :=
  match fuel with
  | O => Malformed
  | S fuel' =>
      match s with
      | String c s' =>
          if Ascii.eqb c dquote then
            match scanstring (S (String.length s')) s' with
            | Some (str, rest) => Scanned (JStr str) rest
            | None => Malformed
            end
          else if Ascii.eqb c "{" then
            match depth with
            | O =>
                Failed "maximum recursion depth exceeded while decoding a JSON object from a unicode string"
            | S depth' =>
                let s1 := skip_ws s' in
                match s1 with
                | String c1 s1' =>
                    if Ascii.eqb c1 "}" then Scanned (JDict []) s1'
                    else if Ascii.eqb c1 dquote
                    then scan_members fuel' depth' s1' []
                    else Malformed
                | EmptyString => Malformed
                end
            end
          else if Ascii.eqb c "[" then
            match depth with
            | O =>
                Failed "maximum recursion depth exceeded while decoding a JSON array from a unicode string"
            | S depth' =>
                let s1 := skip_ws s' in
                match s1 with
                | String c1 s1' =>
                    if Ascii.eqb c1 "]" then Scanned (JList []) s1'
                    else scan_elements fuel' depth' s1 []
                | EmptyString => Malformed
                end
            end
          else
            match match_literal s with
            | Some (Return value, rest) => Scanned value rest
            | Some (Raise message, _) => Failed message
            | None => Malformed
            end
      | EmptyString => Malformed
      end
  end

(** the loop of [JSONArray], at the start of an element *)
with scan_elements (fuel depth : nat) (s : string) (values : list json)
    : scanned :=
  match fuel with
  | O => Malformed
  | S fuel' =>
      match scan_once fuel' depth s with
      | Scanned value rest =>
          let values := values ++ [value] in
          match skip_ws rest with
          | String c rest' =>
              if Ascii.eqb c "]" then Scanned (JList values) rest'
              else if Ascii.eqb c "," then
                scan_elements fuel' depth (skip_ws rest') values
              else Malformed
          | EmptyString => Malformed
          end
      | Malformed => Malformed
      | Failed message => Failed message
      end
  end

(** the loop of [JSONObject], after the opening quote of a key *)
with scan_members (fuel depth : nat) (s : string)
    (pairs : list (string * json)) : scanned :=
  match fuel with
  | O => Malformed
  | S fuel' =>
      match scanstring (S (String.length s)) s with
      | None => Malformed
      | Some (key, rest) =>
          match skip_ws rest with
          | String c rest' =>
              if Ascii.eqb c ":" then
                match scan_once fuel' depth (skip_ws rest') with
                | Scanned value rest2 =>
                    let pairs := pairs ++ [(key, value)] in
                    match skip_ws rest2 with
                    | String c2 rest3 =>
                        if Ascii.eqb c2 "}"
                        then Scanned (JDict (dict_of_pairs pairs)) rest3
                        else if Ascii.eqb c2 "," then
                          match skip_ws rest3 with
                          | String c3 rest4 =>
                              if Ascii.eqb c3 dquote
                              then scan_members fuel' depth rest4 pairs
                              else Malformed
                          | EmptyString => Malformed
                          end
                        else Malformed
                    | EmptyString => Malformed
                    end
                | Malformed => Malformed
                | Failed message => Failed message
                end
              else Malformed
          | EmptyString => Malformed
          end
      end
  end.

(** [json.loads(s)]: one value between optional white space *)
Definition json_loads (s : string) : decoded :=
  match scan_once (S (2 * String.length s)) nesting_limit (skip_ws s) with
  | Scanned value rest =>
      match skip_ws rest with
      | EmptyString => Decoded value
      | _ => JSONDecodeError
      end
  | Malformed => JSONDecodeError
  | Failed message => OtherError message
  end.

Lemma ascii_lower_is_lowercase s : is_lowercase (lower s) = true.
Proof.
  unfold is_lowercase, lower, PyStr.ascii_lower.
  induction s as [| c s IH]; [reflexivity |].
  cbn [PyStr.map_chars PyStr.all_chars]. rewrite IH, andb_true_r.
  unfold PyStr.lower_char.
  destruct (PyStr.is_ascii_upper c) eqn:E; [| now rewrite E].
  unfold PyStr.is_ascii_upper in *.
  apply andb_true_iff in E as [Hlo Hhi].
  apply Nat.leb_le in Hlo, Hhi.
  rewrite nat_ascii_embedding by lia.
  apply negb_true_iff, andb_false_iff. right. apply Nat.leb_gt. lia.
Qed.

Lemma str_is_decimal n s : str n = Return s -> s = PyStr.str_of_int n.
Proof. unfold str. destruct (_ <? _)%nat; congruence. Qed.

End CPython.

Definition cpython : PyLib :=
  {| isdigit := CPython.isdigit;
     lower := CPython.lower;
     upper := CPython.upper;
     int := CPython.int;
     str := CPython.str;
     urlparse := CPython.urlparse;
     parse_qsl := CPython.parse_qsl;
     json_loads := CPython.json_loads;
     isdigit_ascii := fun s _ => eq_refl;
     lower_is_lowercase := CPython.ascii_lower_is_lowercase;
     str_is_decimal := CPython.str_is_decimal |}.

(* ===================================================================== *)
(** * Vocabulary of the statements *)
(* ===================================================================== *)

(** A segment is rewritten to the placeholder when one of the two tests of
    the loop accepts it. *)
Definition qualifies `{PyLib} (part : string) : bool :=
  isdigit part || uuid_like part.

(** [int] returns on the segment if the loop converts it, that is if the
    segment is all digits. *)
Definition converts `{PyLib} (part : string) : Prop :=
  isdigit part = true -> exists example, int part = Return example.

(** The text of the exception that ends the loop over the segments, if
    any: that of [int] on the first all-digit segment it does not
    convert. *)
Fixpoint first_failure `{PyLib} (parts : list string) : option string :=
  match parts with
  | [] => None
  | part :: parts' =>
      if isdigit part then
        match int part with
        | Return _ => first_failure parts'
        | Raise message => Some message
        end
      else first_failure parts'
  end.

(** The parameter a qualifying segment records, when [int] returns on
    it. *)
Definition segment_param `{PyLib} (part : string) : option Param :=
  if isdigit part then
    match int part with
    | Return example => Some (integer_path_param "id" example)
    | Raise _ => None
    end
  else if uuid_like part then Some (uuid_path_param "id" part)
  else None.

Definition placeholder `{PyLib} (part : string) : string :=
  if qualifies part then "{id}" else part.

(** The path parameters after the loop has seen [parts], starting from
    [params]: the last qualifying segment decides. *)
Fixpoint last_param `{PyLib} (params : dict Param) (parts : list string)
    : dict Param :=
  match parts with
  | [] => params
  | part :: parts' =>
      last_param
        (match segment_param part with
         | Some p => PyDict.set "id" p params
         | None => params
         end) parts'
  end.

(** The dictionary of path parameters holds at most the key ["id"]. *)
Definition id_only `{PyLib} (params : dict Param) : Prop :=
  params = [] \/
  exists part p, segment_param part = Some p /\ params = [("id", p)].

(** A parameter is identified by its name and its location. *)
Definition param_key (p : Param) : string * string := (p_name p, p_in p).

(** The URL and the headers the parser reads from a capture record, with
    the defaults of [dict.get]. *)
Definition request_url (request : Request) : string :=
  default "" (r_url request).

Definition request_content_type (request : Request) : string :=
  default "" (PyDict.get "content-type"
                (default PyDict.empty (r_requestHeaders request))).

Definition response_content_type (response : Response) : string :=
  default "" (PyDict.get "content-type"
                (default PyDict.empty (resp_headers response))).

(** [paths[p][m]], when both keys are bound. *)
Definition lookup_op (p m : string) (paths : PathMap) : option Operation :=
  match PyDict.get p paths with
  | Some methods => PyDict.get m methods
  | None => None
  end.

(** [op.get("parameters", [])] *)
Definition stored_parameters (op : Operation) : list Param :=
  default [] (op_parameters op).

(** The exchange is parsed to an operation on path [p] with method [m]. *)
Definition produces `{PyLib} (p m : string) (request : Request) : Prop :=
  exists parsed,
    parse_network_request request = Some parsed
    /\ path parsed = p /\ method parsed = m.

(** A dictionary of parameters in which every parameter sits under its own
    name and no key is repeated. *)
Definition keyed_by_name (d : dict Param) : Prop :=
  List.NoDup (PyDict.keys d) /\ Forall (fun kv => fst kv = p_name (snd kv)) d.

(** The parameters of [params] whose name is not in [seen], each new name
    once, in order. *)
Fixpoint fresh_params (seen : list string) (params : list Param) : list Param :=
  match params with
  | [] => []
  | p :: params' =>
      if existsb (String.eqb (p_name p)) seen then fresh_params seen params'
      else p :: fresh_params (seen ++ [p_name p]) params'
  end.

(** No key of the path map, and no method of a path, is repeated. *)
Definition paths_wf (paths : PathMap) : Prop :=
  List.NoDup (PyDict.keys paths)
  /\ Forall (fun item => List.NoDup (PyDict.keys (snd item))) paths.

(** The operation a step leaves at the pair of a parsed exchange: the
    merge when the pair is stored already, the new operation otherwise. *)
Definition written `{PyLib} (paths : PathMap) (parsed : Parsed) : Operation :=
  match lookup_op (path parsed) (method parsed) paths with
  | Some stored => merge_parameters stored (build_parameters parsed)
  | None => build_operation parsed
  end.

(** Strict lexicographic order on strings. *)
Definition str_lt : relation string := fun a b => String.ltb a b = true.

(** [s * n] *)
Fixpoint repeat_string (n : nat) (s : string) : string :=
  match n with
  | O => EmptyString
  | S n' => s +:+ repeat_string n' s
  end.

(** Capture records used to run the script. *)
Definition capture (method url : string) : Request :=
  {| r_url := Some url;
     r_method := Some method;
     r_requestHeaders := None;
     r_postData := None;
     r_response := None |}.

Definition capture_with_response
    (method url : string) (status : Z) (headers : dict string) (body : string)
    : Request :=
  {| r_url := Some url;
     r_method := Some method;
     r_requestHeaders := None;
     r_postData := None;
     r_response := Some {| resp_status := Some status;
                           resp_headers := Some headers;
                           resp_body := Some body |} |}.

Definition capture_with_body
    (method url : string) (headers : dict string) (post_data : string)
    : Request :=
  {| r_url := Some url;
     r_method := Some method;
     r_requestHeaders := Some headers;
     r_postData := Some post_data;
     r_response := None |}.

(** The capture record without its [postData], and without the body of
    its response. *)
Definition without_postData (request : Request) : Request :=
  {| r_url := r_url request;
     r_method := r_method request;
     r_requestHeaders := r_requestHeaders request;
     r_postData := None;
     r_response := r_response request |}.

Definition without_response_body (request : Request) : Request :=
  {| r_url := r_url request;
     r_method := r_method request;
     r_requestHeaders := r_requestHeaders request;
     r_postData := r_postData request;
     r_response :=
       option_map
         (fun response =>
            {| resp_status := resp_status response;
               resp_headers := resp_headers response;
               resp_body := None |})
         (r_response request) |}.

(* ===================================================================== *)
(** * The command line *)
(* ===================================================================== *)

(** [s.endswith(suffix)] *)
Fixpoint endswith (suffix s : string) : bool :=
  String.eqb s suffix ||
  match s with
  | EmptyString => false
  | String _ s' => endswith suffix s'
  end.

(** [s.replace(old, new)]: the occurrences of [old] are found from left to
    right and do not overlap; [skip] counts the characters of a match that
    are still to be passed over. *)
Fixpoint replace_from (old new : string) (skip : nat) (s : string) : string :=
  match s with
  | EmptyString =>
      match skip, old with
      | O, EmptyString => new
      | _, _ => EmptyString
      end
  | String c s' =>
      match skip with
      | S k => replace_from old new k s'
      | O =>
          if String.prefix old s then
            match String.length old with
            | O => new +:+ String c (replace_from old new 0 s')
            | S k => new +:+ replace_from old new k s'
            end
          else String c (replace_from old new 0 s')
      end
  end.

Definition replace (old new s : string) : string := replace_from old new 0 s.

(** What [main] does to the outside: a line printed on the standard output
    or on the standard error, a file opened and written, [sys.exit], and an
    exception that nothing catches, which ends the run. *)
Inductive Effect : Type :=
| Stdout (text : string)
| Stderr (text : string)
| WriteFile (name content : string)
| Exit (status : Z)
| Uncaught.

(** What [open] and [json.load] give for the input file: an exception, a
    value that is not a list, or the list of capture records. *)
Inductive InputFile : Type :=
| Unreadable
| NotAList
| Captures (requests : list Request).

(** What a call that renders the document into a file does: it writes the
    whole text, or it writes a part of the text and raises ([RecursionError]
    on a document nested too deeply for the encoder). *)
Inductive Dumped : Type :=
| Complete (text : string)
| Interrupted (text : string).

(** The surroundings of [main]: reading the input file; [json.dumps] with
    [indent=2], [None] when it raises; [json.dump] with [indent=2];
    [yaml.dump] when PyYAML is installed ([None] when [import yaml] raises
    [ImportError]); and whether [open] returns on a file to write. *)
Class Runtime : Type := {
  read_input : string -> InputFile;
  json_dumps : OpenAPI -> option string;
  json_dump : OpenAPI -> Dumped;
  yaml_dump : option (OpenAPI -> Dumped);
  writable : string -> bool
}.

Definition usage_lines : list Effect :=
  [Stderr "Usage: generate_openapi.py <network_requests.json> [output.yaml]";
   Stderr (String "010"
             "Input JSON should be an array of network request objects.")].

(** The name of the file written when YAML was asked for and PyYAML is
    missing. *)
Definition fallback_name (output_file : string) : string :=
  replace ".yml" ".json" (replace ".yaml" ".json" output_file).

(** [with open(name, 'w') as f:] around a rendering into [f], followed by
    [after].  Nothing catches the exception of [open] or of the rendering;
    an interrupted rendering leaves the file with what was written. *)
Definition write_file `{Runtime} (name : string) (dumped : Dumped)
    (after : list Effect) : list Effect :=
  if writable name then
    match dumped with
    | Complete text => WriteFile name text :: after
    | Interrupted text => [WriteFile name text; Uncaught]
    end
  else [Uncaught].

(** [print(json.dumps(spec, indent=2))] *)
Definition print_document `{Runtime} (spec : OpenAPI) : list Effect :=
  match json_dumps spec with
  | Some text => [Stdout text]
  | None => [Uncaught]
  end.

(** [main()], on [sys.argv]. *)
Definition main `{PyLib} `{Runtime} (argv : list string) : list Effect :=
  match argv with
  | [] | [_] => usage_lines ++ [Exit 1]
  | _ :: input_file :: rest =>
      let output_file :=
        match rest with
        | output_file :: _ => Some output_file
        | [] => None
        end in
      match read_input input_file with
      | Unreadable => [Uncaught]
      | NotAList =>
          [Stderr "Error: Input must be a JSON array of requests"; Exit 1]
      | Captures requests =>
          let spec := generate_openapi_spec requests "Generated API" "1.0.0" in
          map Stderr (generate_openapi_spec_stderr requests)
          ++ match output_file with
             | Some output_file =>
                 if PyStr.truthy output_file then
                   if endswith ".yaml" output_file
                      || endswith ".yml" output_file
                   then
                     match yaml_dump with
                     | Some dump =>
                         write_file output_file (dump spec)
                           [Stdout ("OpenAPI spec written to " +:+ output_file)]
                     | None =>
                         Stderr "Warning: PyYAML not installed, outputting JSON instead"
                         :: write_file (fallback_name output_file)
                                       (json_dump spec) []
                     end
                   else
                     write_file output_file (json_dump spec)
                       [Stdout ("OpenAPI spec written to " +:+ output_file)]
                 else print_document spec
             | None => print_document spec
             end
      end
  end.

Definition written_files (effects : list Effect) : list string :=
  flat_map (fun e => match e with WriteFile name _ => [name] | _ => [] end)
           effects.

Definition printed (effects : list Effect) : list string :=
  flat_map (fun e => match e with Stdout text => [text] | _ => [] end) effects.

(** The status given to [sys.exit], when the run ends so. *)
Definition exit_status (effects : list Effect) : option Z :=
  match List.last effects Uncaught with
  | Exit status => Some status
  | _ => None
  end.

(* ===================================================================== *)
(** * Vocabulary of the further properties *)
(* ===================================================================== *)

(** Some node of the schema carries the key [example]. *)
Fixpoint has_example (s : schema) : bool :=
  match s with
  | Schema _ _ items properties _ example =>
      match example with Some _ => true | None => false end
      || match items with Some i => has_example i | None => false end
      || match properties with
         | Some d => existsb (fun kv => has_example (snd kv)) d
         | None => false
         end
  end.

Definition content_has_example (content : dict MediaType) : bool :=
  existsb (fun kv => has_example (mt_schema (snd kv))) content.

(** The keys of a list of pairs, each once, in the order of their first
    appearance. *)
Definition distinct_keys (keys : list string) : list string :=
  fold_left
    (fun seen k => if existsb (String.eqb k) seen then seen else seen ++ [k])
    keys [].

(** The values paired with [name], in order. *)
Definition values_for (name : string) (pairs : list (string * string))
    : list string :=
  map snd (filter (fun kv => String.eqb name (fst kv)) pairs).

(** A segment without the separator of paths. *)
Definition no_slash (part : string) : bool :=
  negb (PyStr.contains "/" part).

(** [s[n:]] *)
Fixpoint string_drop (n : nat) (s : string) : string :=
  match n, s with
  | S n', String _ s' => string_drop n' s'
  | _, _ => s
  end.

(** No occurrence of [old] can start before a final [suffix] and reach into
    it: no proper, non-empty end of [old] starts [suffix]. *)
Definition no_overlap (old suffix : string) : bool :=
  forallb (fun k => negb (String.prefix (string_drop k old) suffix))
          (seq 1 (String.length old - 1)).

(** A run-time environment without PyYAML whose input file holds two
    capture records, the first with a URL that [urlparse] rejects, used to
    run [main]. *)
Definition runtime_without_yaml : Runtime :=
  {| read_input :=
       fun _ => Captures [capture "GET" "http://[::1/x";
                          capture "GET" "https://api.example.com/users/3"];
     json_dumps := fun doc => Some ("openapi " +:+ openapi doc);
     json_dump := fun doc => Complete ("openapi " +:+ openapi doc);
     yaml_dump := None;
     writable := fun _ => true |}.

(** Two captures of the same operation with different bodies, used to run
    the aggregation. *)
Definition json_headers : dict string :=
  [("content-type", "application/json")].

Definition first_post : Request :=
  {| r_url := Some "https://api.example.com/users/3/notes?lang=en";
     r_method := Some "POST";
     r_requestHeaders := Some json_headers;
     r_postData := Some "[1, 2]";
     r_response := Some {| resp_status := Some 201%Z;
                           resp_headers := Some json_headers;
                           resp_body := Some "[1]" |} |}.

Definition second_post : Request :=
  {| r_url := Some "https://api.example.com/users/4/notes?page=2";
     r_method := Some "post";
     r_requestHeaders := Some json_headers;
     r_postData := Some "[true]";
     r_response := Some {| resp_status := Some 200%Z;
                           resp_headers := Some json_headers;
                           resp_body := Some "[null]" |} |}.

(** The exchange is skipped by the parser. *)
Definition skipped `{PyLib} (request : Request) : Prop :=
  parse_network_request request = None.

(* ===================================================================== *)
(** * Schema inference *)
(* ===================================================================== *)

Section Inference.

(** C4. On a JSON scalar, the inferred schema carries the kind of the
    value's type tag, whatever the example flag: [null] for [None],
    [boolean] for a boolean, [integer] for an integer, [number] for a
    float and [string] for a string.  A boolean is also an instance of
    [int], so it is the order of the tests that makes [True] a
    [boolean] and not an [integer]. *)
Theorem infer_scalar_kind :
  forall example : bool,
    s_type (infer_schema_from_value JNull example) = Some "null"
    /\ (forall b, s_type (infer_schema_from_value (JBool b) example)
                  = Some "boolean")
    /\ (forall n, s_type (infer_schema_from_value (JInt n) example)
                  = Some "integer")
    /\ (forall f, s_type (infer_schema_from_value (JFloat f) example)
                  = Some "number")
    /\ (forall s, s_type (infer_schema_from_value (JStr s) example)
                  = Some "string")
    /\ (forall b, isinstance (JBool b) PyInt = true)
    /\ s_type (infer_schema_from_value (JBool true) example)
       <> Some "integer".
Proof.
  intros example.
  repeat split; intros; destruct example; cbn; congruence.
Qed.

(** C5. For a non-empty array the item schema is the schema inferred from
    its first element with the same example flag, so it does not depend on
    the other elements. *)
Theorem infer_array_items_first :
  forall (first : json) (rest : list json) (example : bool),
    s_items (infer_schema_from_value (JList (first :: rest)) example)
    = Some (infer_schema_from_value first example)
    /\ (forall rest' : list json,
          s_items (infer_schema_from_value (JList (first :: rest')) example)
          = s_items (infer_schema_from_value (JList (first :: rest)) example)).
Proof.
  intros first rest example.
  assert (H : forall r,
             s_items (infer_schema_from_value (JList (first :: r)) example)
             = Some (infer_schema_from_value first example)).
  { intros r. cbn. destruct example; reflexivity. }
  split; [apply H | intros rest'; now rewrite !H].
Qed.

End Inference.

(* ===================================================================== *)
(** * Path normalisation *)
(* ===================================================================== *)

Section Normalisation.

Context `{lib : PyLib}.

Lemma isdigit_empty : isdigit "" = false.
Proof. now rewrite isdigit_ascii. Qed.

Lemma qualifies_empty : qualifies "" = false.
Proof. unfold qualifies. now rewrite isdigit_empty. Qed.

Lemma qualifies_placeholder : qualifies "{id}" = false.
Proof. unfold qualifies. now rewrite isdigit_ascii. Qed.

Lemma segment_param_qualifies part :
  qualifies part = false -> segment_param part = None.
Proof.
  unfold qualifies, segment_param.
  destruct (isdigit part), (uuid_like part); cbn; congruence.
Qed.

Lemma segment_param_kind part p :
  segment_param part = Some p -> p_name p = "id" /\ p_in p = "path".
Proof.
  unfold segment_param. destruct (isdigit part).
  - destruct (int part); [| discriminate]. now intros [= <-].
  - destruct (uuid_like part); [| discriminate]. now intros [= <-].
Qed.

Lemma set_id_only p params :
  id_only params -> PyDict.set "id" p params = [("id", p)].
Proof.
  intros [-> | (part & q & _ & ->)]; reflexivity.
Qed.

Lemma id_only_step part params :
  id_only params ->
  id_only (match segment_param part with
           | Some p => PyDict.set "id" p params
           | None => params
           end).
Proof.
  intros Hp. destruct (segment_param part) as [p |] eqn:Hs; [| exact Hp].
  right. exists part, p. split; [exact Hs | now apply set_id_only].
Qed.

Lemma last_param_id_only parts :
  forall params, id_only params -> id_only (last_param params parts).
Proof.
  induction parts as [| part parts IH]; intros params Hp; cbn; [exact Hp |].
  apply IH. now apply id_only_step.
Qed.


Lemma last_param_unqualified post :
  Forall (fun q => qualifies q = false) post ->
  forall params, last_param params post = params.
Proof.
  induction 1 as [| q post Hq _ IH]; intros params; cbn; [reflexivity |].
  apply segment_param_qualifies in Hq. rewrite Hq. apply IH.
Qed.

(** The loop ends without an exception exactly when [int] returns on every
    segment it converts; otherwise the exception is that of [int] on one of
    the all-digit segments. *)
Lemma first_failure_None parts :
  first_failure parts = None <-> Forall converts parts.
Proof.
  induction parts as [| part parts IH]; cbn [first_failure].
  - split; [constructor | reflexivity].
  - unfold converts at 1. destruct (isdigit part) eqn:Hd.
    + destruct (int part) as [example | message] eqn:Hi.
      * rewrite IH. split.
        -- intros H. constructor; [intros _; now exists example | exact H].
        -- intros H. now inversion H.
      * split; [discriminate |]. intros H. inversion H as [| ? ? Hc _]; subst.
        destruct (Hc Hd) as (example & He). congruence.
    + rewrite IH. split.
      * intros H. constructor; [intros Hd'; congruence | exact H].
      * intros H. now inversion H.
Qed.


(** The loop, one segment at a time, against its closed form. *)
Lemma normalize_part_closed_form normalized_parts path_params part :
  normalize_part (normalized_parts, path_params) part
  = match first_failure [part] with
    | Some message => Raise message
    | None =>
        Return (normalized_parts ++ [placeholder part],
                match segment_param part with
                | Some p => PyDict.set "id" p path_params
                | None => path_params
                end)
    end.
Proof.
  unfold normalize_part, placeholder, qualifies, segment_param.
  cbn [first_failure].
  destruct part as [| c part].
  - cbn [PyStr.truthy negb]. now rewrite isdigit_empty.
  - cbn [PyStr.truthy negb].
    destruct (isdigit (String c part)).
    + now destruct (int (String c part)).
    + now destruct (uuid_like (String c part)).
Qed.

Lemma for_each_normalize_part parts :
  forall normalized_parts path_params,
    for_each normalize_part parts (normalized_parts, path_params)
    = match first_failure parts with
      | Some message => Raise message
      | None =>
          Return (normalized_parts ++ map placeholder parts,
                  last_param path_params parts)
      end.
Proof.
  induction parts as [| part parts IH]; intros np pp; cbn [for_each map].
  - cbn. now rewrite app_nil_r.
  - rewrite normalize_part_closed_form. cbn [first_failure last_param].
    destruct (isdigit part); [destruct (int part) |];
      rewrite ?IH; try reflexivity;
      destruct (first_failure parts); try reflexivity;
      now rewrite <- app_assoc.
Qed.

Lemma normalize_path_closed_form url :
  normalize_path url
  = match urlparse url with
    | Raise message => Raise message
    | Return parsed =>
        let parts := PyStr.split "/" (url_path parsed) in
        match first_failure parts with
        | Some message => Raise message
        | None =>
            Return (url_scheme parsed +:+ "://" +:+ url_netloc parsed,
                    PyStr.join "/" (map placeholder parts),
                    last_param [] parts)
        end
    end.
Proof.
  unfold normalize_path.
  destruct (urlparse url) as [parsed | message]; [| reflexivity].
  cbn [bind]. unfold PyDict.empty. rewrite for_each_normalize_part.
  now destruct (first_failure _).
Qed.


End Normalisation.

(* ===================================================================== *)
(** * Dictionaries *)
(* ===================================================================== *)

Section DictFacts.

Context {V : Type}.
Implicit Types (d : dict V) (k : string) (v : V).

Lemma get_set_eq k v d : PyDict.get k (PyDict.set k v d) = Some v.
Proof.
  induction d as [| [k' v'] d IH]; cbn.
  - now rewrite String.eqb_refl.
  - destruct (String.eqb k k') eqn:E; cbn; rewrite E; [reflexivity | exact IH].
Qed.

Lemma get_set_ne k k' v d :
  k <> k' -> PyDict.get k' (PyDict.set k v d) = PyDict.get k' d.
Proof.
  intros Hne. induction d as [| [k0 v0] d IH]; cbn.
  - apply not_eq_sym, String.eqb_neq in Hne. now rewrite Hne.
  - destruct (String.eqb k k0) eqn:E; cbn.
    + apply String.eqb_eq in E. subst k0.
      apply not_eq_sym, String.eqb_neq in Hne. now rewrite Hne.
    + destruct (String.eqb k' k0); [reflexivity | exact IH].
Qed.

Lemma get_None_keys k d :
  PyDict.get k d = None <-> ~ In k (PyDict.keys d).
Proof.
  induction d as [| [k' v'] d IH]; cbn; [tauto |].
  destruct (String.eqb k k') eqn:E.
  - apply String.eqb_eq in E. split; [discriminate | intros H; destruct H; auto].
  - apply String.eqb_neq in E. rewrite IH. split; [| tauto].
    intros H [Heq | Hin]; [now apply E | now apply H].
Qed.

Lemma get_Some_In k v d : PyDict.get k d = Some v -> In (k, v) d.
Proof.
  induction d as [| [k' v'] d IH]; cbn; [discriminate |].
  destruct (String.eqb k k') eqn:E.
  - apply String.eqb_eq in E. intros [= ->]. left. now subst.
  - intros H. right. now apply IH.
Qed.

Lemma In_get_Some k v d :
  List.NoDup (PyDict.keys d) -> In (k, v) d -> PyDict.get k d = Some v.
Proof.
  induction d as [| [k' v'] d IH]; cbn; [tauto |].
  intros Hnd [[= -> ->] | Hin].
  - now rewrite String.eqb_refl.
  - apply List.NoDup_cons_iff in Hnd as [Hk Hnd].
    destruct (String.eqb k k') eqn:E; [| now apply IH].
    apply String.eqb_eq in E. subst k'. exfalso. apply Hk.
    change k with (fst (k, v)). now apply in_map.
Qed.

Lemma mem_true_iff k d :
  PyDict.mem k d = true <-> In k (PyDict.keys d).
Proof.
  unfold PyDict.mem. destruct (PyDict.get k d) eqn:E.
  - split; [intros _ | reflexivity].
    apply get_Some_In in E. change k with (fst (k, v)). now apply in_map.
  - apply get_None_keys in E. split; [discriminate | tauto].
Qed.

(** Assignment keeps the keys when the key is bound, and appends the key
    otherwise. *)
Lemma keys_set k v d :
  PyDict.keys (PyDict.set k v d)
  = if PyDict.mem k d then PyDict.keys d else PyDict.keys d ++ [k].
Proof.
  unfold PyDict.mem, PyDict.keys.
  induction d as [| [k' v'] d IH]; cbn; [reflexivity |].
  destruct (String.eqb k k') eqn:E; cbn; [reflexivity |].
  rewrite IH. now destruct (PyDict.get k d).
Qed.

Lemma set_fresh k v d :
  PyDict.get k d = None -> PyDict.set k v d = d ++ [(k, v)].
Proof.
  induction d as [| [k' v'] d IH]; cbn; [reflexivity |].
  destruct (String.eqb k k'); [discriminate |].
  intros H. now rewrite IH.
Qed.

Lemma In_keys_set k k' v d :
  In k' (PyDict.keys (PyDict.set k v d)) <-> k' = k \/ In k' (PyDict.keys d).
Proof.
  rewrite keys_set. destruct (PyDict.mem k d) eqn:E.
  - apply mem_true_iff in E. split; [tauto | intros [-> | H]; assumption].
  - rewrite in_app_iff. cbn. split; [intros [H | [H | []]]; auto | ].
    intros [-> | H]; auto.
Qed.

Lemma NoDup_keys_set k v d :
  List.NoDup (PyDict.keys d) -> List.NoDup (PyDict.keys (PyDict.set k v d)).
Proof.
  intros Hnd. rewrite keys_set. destruct (PyDict.mem k d) eqn:E; [exact Hnd |].
  assert (Hk : ~ In k (PyDict.keys d)).
  { intros H. apply mem_true_iff in H. congruence. }
  apply List.NoDup_app; [exact Hnd | repeat constructor; intros [] |].
  intros x Hx [<- | []]. now apply Hk.
Qed.

Lemma In_set k v k' v' d :
  In (k', v') (PyDict.set k v d) -> (k' = k /\ v' = v) \/ In (k', v') d.
Proof.
  induction d as [| [k0 v0] d IH]; cbn.
  - intros [[= -> ->] | []]. now left.
  - destruct (String.eqb k k0) eqn:E; cbn.
    + apply String.eqb_eq in E. subst k0.
      intros [[= -> ->] | H]; [now left | right; now right].
    + intros [H | H]; [right; now left |].
      destruct (IH H) as [H' | H']; [now left | right; now right].
Qed.

(** Two dictionaries with the same entries, each without a repeated key,
    answer every lookup alike. *)
Lemma get_Permutation k d d' :
  List.NoDup (PyDict.keys d) -> Permutation d d' ->
  PyDict.get k d' = PyDict.get k d.
Proof.
  intros Hnd Hp.
  assert (Hnd' : List.NoDup (PyDict.keys d')).
  { unfold PyDict.keys. eapply Permutation_NoDup; [| exact Hnd].
    now apply Permutation_map. }
  destruct (PyDict.get k d) as [v |] eqn:E.
  - apply In_get_Some; [exact Hnd' |].
    eapply Permutation_in; [exact Hp |]. now apply get_Some_In.
  - apply get_None_keys. apply get_None_keys in E. intros H. apply E.
    unfold PyDict.keys in *. eapply Permutation_in; [| exact H].
    apply Permutation_map. now symmetry.
Qed.

(** Rebuilding a dictionary from its own items gives the same
    dictionary. *)
Lemma rebuild_items d :
  List.NoDup (PyDict.keys d) ->
  forall acc,
    (forall k, In k (PyDict.keys d) -> ~ In k (PyDict.keys acc)) ->
    fold_left (fun a (item : string * V) => PyDict.set (fst item) (snd item) a)
              d acc
    = acc ++ d.
Proof.
  induction d as [| [k v] d IH]; intros Hnd acc Hacc; cbn.
  - now rewrite app_nil_r.
  - cbn in Hnd. apply List.NoDup_cons_iff in Hnd as [Hk Hnd].
    rewrite set_fresh by (apply get_None_keys, Hacc; now left).
    rewrite IH; [now rewrite <- app_assoc | exact Hnd |].
    intros k' Hk' Hin. unfold PyDict.keys in Hin.
    rewrite map_app, in_app_iff in Hin. destruct Hin as [Hin | [<- | []]].
    + apply (Hacc k'); [now right | exact Hin].
    + now apply Hk.
Qed.

End DictFacts.

(* ===================================================================== *)
(** * Parsing one exchange *)
(* ===================================================================== *)

(** [dict.get] with a default, unfolded. *)
Tactic Notation "unfold_default" :=
  cbv beta zeta iota delta [default from_option id].
Tactic Notation "unfold_default" "in" hyp(H) :=
  cbv beta zeta iota delta [default from_option id] in H.
Tactic Notation "unfold_default" "in" "*" :=
  cbv beta zeta iota delta [default from_option id] in *.

Section Parsing.

Context `{lib : PyLib}.

Lemma try_parse_network_request_closed_form request :
  try_parse_network_request request
  = if is_static_asset (request_url request) then Return None
    else
      match urlparse (request_url request) with
      | Raise message => Raise message
      | Return parsed_url =>
          let parts := PyStr.split "/" (url_path parsed_url) in
          match first_failure parts with
          | Some message => Raise message
          | None =>
              request_body <- parse_request_body request ;;
              response_spec <- parse_response request ;;
              Return
                (Some {| base_url := url_scheme parsed_url +:+ "://"
                                     +:+ url_netloc parsed_url;
                         path := PyStr.join "/" (map placeholder parts);
                         method := lower (default "GET" (r_method request));
                         path_params := PyDict.values (last_param [] parts);
                         query_params :=
                           map query_param_spec
                               (PyDict.items
                                  (parse_qs (url_query parsed_url)));
                         request_body := request_body;
                         responses := response_spec |})
          end
      end.
Proof.
  unfold try_parse_network_request, request_url.
  destruct (is_static_asset (default "" (r_url request))); [reflexivity |].
  rewrite normalize_path_closed_form.
  destruct (urlparse (default "" (r_url request))) as [parsed_url | message]
    eqn:Hu; [| reflexivity].
  cbv zeta. destruct (first_failure _); [reflexivity |].
  cbn [bind]. reflexivity.
Qed.

(** The parser returns [None] for a static asset. *)
Lemma parse_network_request_static request :
  is_static_asset (request_url request) = true ->
  parse_network_request request = None
  /\ parse_network_request_stderr request = [].
Proof.
  intros Hs.
  unfold parse_network_request, parse_network_request_stderr.
  rewrite try_parse_network_request_closed_form, Hs. now split.
Qed.

(** The parser returns [None] when an exception reaches its handler. *)
Lemma parse_network_request_raised request message :
  try_parse_network_request request = Raise message ->
  parse_network_request request = None
  /\ parse_network_request_stderr request
     = ["Error parsing request: " +:+ message].
Proof.
  intros H. unfold parse_network_request, parse_network_request_stderr.
  now rewrite H.
Qed.

Lemma parse_network_request_fields request parsed :
  parse_network_request request = Some parsed ->
  parse_request_body request = Return (request_body parsed)
  /\ parse_response request = Return (responses parsed)
  /\ method parsed = lower (default "GET" (r_method request))
  /\ exists parsed_url,
       urlparse (request_url request) = Return parsed_url
       /\ base_url parsed
          = url_scheme parsed_url +:+ "://" +:+ url_netloc parsed_url
       /\ path_params parsed
          = PyDict.values
              (last_param [] (PyStr.split "/" (url_path parsed_url)))
       /\ query_params parsed
          = map query_param_spec
                (PyDict.items (parse_qs (url_query parsed_url)))
       /\ path parsed
          = PyStr.join "/"
              (map placeholder (PyStr.split "/" (url_path parsed_url)))
       /\ first_failure (PyStr.split "/" (url_path parsed_url)) = None.
Proof.
  unfold parse_network_request.
  rewrite try_parse_network_request_closed_form.
  destruct (is_static_asset (request_url request)); [discriminate |].
  destruct (urlparse (request_url request)) as [parsed_url | message];
    [| discriminate].
  cbv zeta.
  destruct (first_failure _) eqn:Hf; [discriminate |].
  destruct (parse_request_body request) as [rb | message]; [| discriminate].
  destruct (parse_response request) as [rs | message]; [| discriminate].
  cbn [bind]. intros [= <-]. cbn. repeat split. now exists parsed_url.
Qed.

(** An exchange is accepted exactly when its URL is not that of a static
    asset and no call of the parser raises. *)
Lemma parse_network_request_accepts request :
  (exists parsed, parse_network_request request = Some parsed)
  <-> is_static_asset (request_url request) = false
      /\ (exists parsed_url,
            urlparse (request_url request) = Return parsed_url
            /\ first_failure (PyStr.split "/" (url_path parsed_url)) = None)
      /\ (exists request_body, parse_request_body request = Return request_body)
      /\ (exists response_spec, parse_response request = Return response_spec).
Proof.
  unfold parse_network_request.
  rewrite try_parse_network_request_closed_form.
  destruct (is_static_asset (request_url request)).
  { split; [intros (? & [=]) | intros ([=] & _)]. }
  destruct (urlparse (request_url request)) as [parsed_url | message].
  2: { split; [intros (? & [=]) | intros (_ & (? & [=] & _) & _)]. }
  cbv zeta. destruct (first_failure _) eqn:Hf.
  { split; [intros (? & [=]) |].
    intros (_ & (? & [= <-] & Hf') & _). congruence. }
  destruct (parse_request_body request) as [rb | message].
  2: { split; [intros (? & [=]) | intros (_ & _ & (? & [=]) & _)]. }
  destruct (parse_response request) as [rs | message].
  2: { split; [intros (? & [=]) | intros (_ & _ & _ & (? & [=]))]. }
  cbn [bind]. split; [intros _ | intros _; eauto].
  repeat split; eauto.
Qed.

Lemma is_static_asset_true url ext :
  In ext static_extensions -> PyStr.contains ext url = true ->
  is_static_asset url = true.
Proof.
  intros Hin Hc. unfold is_static_asset. apply existsb_exists. now exists ext.
Qed.

(** Without a usable JSON body the response part is the generic entry. *)
Lemma parse_response_generic request response body :
  r_response request = Some response ->
  resp_body response = Some body ->
  json_loads body = JSONDecodeError
  \/ PyStr.contains "application/json" (response_content_type response) = false ->
  parse_response request = Return generic_responses.
Proof.
  intros Hr Hb Hfail. unfold parse_response, response_content_type in *.
  rewrite Hr. unfold_default. unfold_default in Hfail. rewrite Hb.
  destruct (PyStr.truthy body); [| reflexivity].
  destruct Hfail as [-> | ->]; [| reflexivity].
  now destruct (PyStr.contains _ _).
Qed.

Lemma parse_response_no_content_type request :
  (forall response,
      r_response request = Some response ->
      ~ In "content-type" (PyDict.keys (default [] (resp_headers response)))) ->
  parse_response request = Return generic_responses.
Proof.
  intros H. unfold parse_response.
  destruct (r_response request) as [response |]; [| reflexivity].
  unfold_default.
  destruct (resp_body response) as [body |]; [| reflexivity].
  destruct (PyStr.truthy body); [| reflexivity].
  specialize (H response eq_refl). apply get_None_keys in H.
  unfold_default in H.
  destruct (resp_headers response); unfold PyDict.empty in *; now rewrite H.
Qed.

(** C7. A non-skipped exchange whose response body is present but does not
    parse as JSON, or whose response content type does not contain
    [application/json], gets exactly the generic responses map: the single
    key ["200"] with the description ["Successful response"], whatever the
    observed status and body. *)
Theorem unparsable_response_is_generic :
  forall (request : Request) (parsed : Parsed)
         (response : Response) (body : string),
    parse_network_request request = Some parsed ->
    r_response request = Some response ->
    resp_body response = Some body ->
    body <> "" ->
    json_loads body = JSONDecodeError
    \/ PyStr.contains "application/json"
         (default "" (PyDict.get "content-type"
                        (default PyDict.empty (resp_headers response))))
       = false ->
    responses parsed
    = [("200", {| ro_description := "Successful response";
                  ro_content := None |})].
Proof.
  intros request parsed response body Hp Hr Hb _ Hfail.
  apply parse_network_request_fields in Hp as (_ & Hresp & _).
  rewrite (parse_response_generic request response body Hr Hb Hfail) in Hresp.
  now injection Hresp as <-.
Qed.

(** C10. The content type is looked up under the exact key
    ["content-type"].  When no request header has exactly that key, the
    request body is omitted whatever [postData] holds, and when no response
    header has exactly that key the responses are the generic entry; a
    header such as ["Content-Type"] does not count.  Under the exact key,
    a JSON content type and a body that parses give the inferred schema. *)
Theorem content_type_lookup_is_exact :
  forall (request : Request) (parsed : Parsed),
    parse_network_request request = Some parsed ->
    (~ In "content-type" (PyDict.keys (default [] (r_requestHeaders request))) ->
     request_body parsed = None)
    /\ ((forall response,
            r_response request = Some response ->
            ~ In "content-type"
                 (PyDict.keys (default [] (resp_headers response)))) ->
        responses parsed
        = [("200", {| ro_description := "Successful response";
                      ro_content := None |})])
    /\ (forall headers content_type post_data body_json,
          r_requestHeaders request = Some headers ->
          PyDict.get "content-type" headers = Some content_type ->
          PyStr.contains "application/json" content_type = true ->
          r_postData request = Some post_data ->
          post_data <> "" ->
          json_loads post_data = Decoded body_json ->
          request_body parsed
          = Some {| rb_content :=
                      [("application/json",
                        {| mt_schema :=
                             infer_schema_from_value body_json false |})] |}).
Proof.
  intros request parsed Hp.
  apply parse_network_request_fields in Hp as (Hrb & Hresp & _).
  split; [| split].
  - intros Hk. apply get_None_keys in Hk. unfold parse_request_body in Hrb.
    unfold_default in Hrb. unfold_default in Hk. unfold PyDict.empty in *.
    destruct (r_postData request) as [d |]; [| congruence].
    destruct (PyStr.truthy d); [| congruence].
    destruct (r_requestHeaders request); rewrite Hk in Hrb; cbn in Hrb;
      congruence.
  - intros H. rewrite (parse_response_no_content_type request H) in Hresp.
    now injection Hresp as <-.
  - intros headers ct d j Hh Hct Hc Hd Hne Hj.
    unfold parse_request_body in Hrb. rewrite Hh, Hd in Hrb.
    unfold_default in Hrb. rewrite Hct, Hc, Hj in Hrb.
    destruct d; [congruence | now injection Hrb as <-].
Qed.

End Parsing.

(* ===================================================================== *)
(** * Merging the parameters of a repeated operation *)
(* ===================================================================== *)

Section Merging.

Lemma keyed_by_name_set p d :
  keyed_by_name d -> keyed_by_name (PyDict.set (p_name p) p d).
Proof.
  intros [Hnd Hk]. split; [now apply NoDup_keys_set |].
  apply List.Forall_forall. intros [k q] Hin.
  apply In_set in Hin as [[-> ->] | Hin]; [reflexivity |].
  rewrite List.Forall_forall in Hk. now apply (Hk (k, q)).
Qed.

Lemma keyed_by_name_index stored :
  forall d, keyed_by_name d ->
    keyed_by_name (fold_left (fun d p => PyDict.set (p_name p) p d) stored d).
Proof.
  induction stored as [| p stored IH]; intros d Hd; cbn; [exact Hd |].
  apply IH. now apply keyed_by_name_set.
Qed.

Lemma keyed_by_name_add_missing parameters :
  forall d, keyed_by_name d -> keyed_by_name (add_missing d parameters).
Proof.
  unfold add_missing.
  induction parameters as [| p ps IH]; intros d Hd; cbn; [exact Hd |].
  apply IH. destruct (PyDict.mem (p_name p) d); [exact Hd |].
  now apply keyed_by_name_set.
Qed.

Lemma keyed_by_name_names d :
  keyed_by_name d -> map p_name (PyDict.values d) = PyDict.keys d.
Proof.
  intros [_ Hk]. unfold PyDict.values, PyDict.keys.
  induction Hk as [| [k p] d Hkp _ IH]; cbn; [reflexivity |].
  cbn in Hkp. now rewrite IH, Hkp.
Qed.

Lemma NoDup_names_keys (ps : list Param) :
  List.NoDup (map p_name ps) -> List.NoDup (map param_key ps).
Proof.
  intros H. apply NoDup_map_inv with (f := fst). now rewrite map_map.
Qed.

(** After a merge that rewrites the list, no name occurs twice in it. *)
Lemma merged_names_distinct stored parameters :
  let d := add_missing (index_by_name (stored_parameters stored)) parameters in
  List.NoDup (map p_name (PyDict.values d)).
Proof.
  cbv zeta. rewrite keyed_by_name_names.
  - apply keyed_by_name_add_missing, keyed_by_name_index.
    split; constructor.
  - apply keyed_by_name_add_missing, keyed_by_name_index.
    split; constructor.
Qed.

(** A merge changes nothing but the parameter list. *)
Lemma merge_parameters_frame stored parameters :
  op_summary (merge_parameters stored parameters) = op_summary stored
  /\ op_responses (merge_parameters stored parameters) = op_responses stored
  /\ op_requestBody (merge_parameters stored parameters)
     = op_requestBody stored.
Proof.
  unfold merge_parameters. now destruct (PyDict.truthy _).
Qed.

(** Indexing a list of parameters with distinct names keeps the list. *)
Lemma index_by_name_distinct stored :
  forall d,
    keyed_by_name d ->
    List.NoDup (PyDict.keys d ++ map p_name stored) ->
    fold_left (fun d p => PyDict.set (p_name p) p d) stored d
    = d ++ map (fun p => (p_name p, p)) stored.
Proof.
  induction stored as [| p stored IH]; intros d Hd Hnd; cbn.
  - now rewrite app_nil_r.
  - assert (Hfresh : PyDict.get (p_name p) d = None).
    { apply get_None_keys. intros Hin.
      apply NoDup_remove_2 in Hnd. apply Hnd, in_or_app. now left. }
    rewrite set_fresh by exact Hfresh.
    rewrite IH.
    + now rewrite <- app_assoc.
    + rewrite <- set_fresh by exact Hfresh. now apply keyed_by_name_set.
    + unfold PyDict.keys in *. rewrite map_app. cbn.
      now rewrite <- app_assoc.
Qed.

Lemma existsb_eqb_In name seen :
  existsb (String.eqb name) seen = true <-> In name seen.
Proof.
  rewrite existsb_exists. split.
  - intros (x & Hin & Heq). apply String.eqb_eq in Heq. now subst.
  - intros Hin. exists name. split; [exact Hin | apply String.eqb_refl].
Qed.

Lemma add_missing_fresh parameters :
  forall d,
    keyed_by_name d ->
    add_missing d parameters
    = d ++ map (fun p => (p_name p, p))
               (fresh_params (PyDict.keys d) parameters).
Proof.
  unfold add_missing.
  induction parameters as [| p ps IH]; intros d Hd; cbn.
  - now rewrite app_nil_r.
  - destruct (PyDict.mem (p_name p) d) eqn:Hmem.
    + apply mem_true_iff, existsb_eqb_In in Hmem. rewrite Hmem. now apply IH.
    + assert (Hnot : existsb (String.eqb (p_name p)) (PyDict.keys d) = false).
      { apply not_true_is_false. intros H. apply existsb_eqb_In in H.
        apply mem_true_iff in H. congruence. }
      rewrite Hnot. cbn [map].
      assert (Hfresh : PyDict.get (p_name p) d = None).
      { unfold PyDict.mem in Hmem. now destruct (PyDict.get (p_name p) d). }
      rewrite IH by now apply keyed_by_name_set.
      rewrite set_fresh by exact Hfresh.
      unfold PyDict.keys. rewrite map_app, <- app_assoc. reflexivity.
Qed.

(** When the stored names are pairwise distinct, a merge appends the
    parameters with a new name, each new name once, and keeps the stored
    entries as they are. *)
Lemma merge_parameters_appends stored parameters :
  List.NoDup (map p_name (stored_parameters stored)) ->
  stored_parameters (merge_parameters stored parameters)
  = stored_parameters stored
    ++ fresh_params (map p_name (stored_parameters stored)) parameters.
Proof.
  intros Hnd. unfold merge_parameters, index_by_name.
  fold (stored_parameters stored).
  rewrite index_by_name_distinct; [| split; constructor | exact Hnd].
  unfold PyDict.empty. cbn [app]. set (sp := stored_parameters stored) in *.
  assert (Hk : keyed_by_name (map (fun p => (p_name p, p)) sp)).
  { split.
    - unfold PyDict.keys. now rewrite map_map.
    - apply List.Forall_forall. intros kv Hin. apply in_map_iff in Hin.
      now destruct Hin as (p & <- & _). }
  rewrite add_missing_fresh by exact Hk.
  assert (Hkeys : PyDict.keys (map (fun p => (p_name p, p)) sp) = map p_name sp).
  { unfold PyDict.keys. now rewrite map_map. }
  rewrite Hkeys.
  set (fresh := fresh_params (map p_name sp) parameters).
  assert (Hvals : PyDict.values (map (fun p => (p_name p, p)) sp
                                 ++ map (fun p => (p_name p, p)) fresh)
                  = sp ++ fresh).
  { unfold PyDict.values. rewrite map_app, !map_map. cbn.
    now rewrite !map_id. }
  destruct (PyDict.truthy _) eqn:Ht.
  - unfold stored_parameters at 1. cbn. exact Hvals.
  - destruct sp as [| p sp'] eqn:Hsp; [| discriminate].
    destruct fresh as [| q fresh']; [| discriminate].
    fold (stored_parameters stored). subst sp. now rewrite Hsp.
Qed.

End Merging.

(* ===================================================================== *)
(** * One step of the aggregation *)
(* ===================================================================== *)

Section Step.

Context `{lib : PyLib}.

Lemma aggregate_step_skip st request :
  parse_network_request request = None -> aggregate_step st request = st.
Proof.
  intros H. destruct st as [paths servers]. unfold aggregate_step.
  now rewrite H.
Qed.

Lemma lookup_op_set_eq p m op methods paths :
  lookup_op p m (PyDict.set p (PyDict.set m op methods) paths) = Some op.
Proof. unfold lookup_op. now rewrite !get_set_eq. Qed.

Lemma lookup_op_set_other_path p p' m' (methods : dict Operation) paths :
  p' <> p ->
  lookup_op p' m' (PyDict.set p methods paths) = lookup_op p' m' paths.
Proof.
  intros Hne. unfold lookup_op. now rewrite get_set_ne by congruence.
Qed.

Lemma lookup_op_set_other_method p m m' op methods paths :
  m' <> m ->
  lookup_op p m' (PyDict.set p (PyDict.set m op methods) paths)
  = PyDict.get m' methods.
Proof.
  intros Hne. unfold lookup_op.
  now rewrite get_set_eq, get_set_ne by congruence.
Qed.

(** What a step does with a parsed exchange: the origin joins the servers,
    the pair of the exchange receives [written], every other pair keeps
    its operation, and the path is the only key that may be new. *)
Lemma aggregate_step_parsed paths servers request parsed :
  parse_network_request request = Some parsed ->
  exists paths',
    aggregate_step (paths, servers) request
    = (paths', {[ base_url parsed ]} ∪ servers)
    /\ lookup_op (path parsed) (method parsed) paths'
       = Some (written paths parsed)
    /\ (forall p m,
          p <> path parsed \/ m <> method parsed ->
          lookup_op p m paths' = lookup_op p m paths)
    /\ (forall p,
          In p (PyDict.keys paths') <-> p = path parsed \/ In p (PyDict.keys paths))
    /\ (List.NoDup (PyDict.keys paths) -> List.NoDup (PyDict.keys paths')).
Proof.
  intros Hp. unfold aggregate_step. rewrite Hp. unfold defaultdict_get, written.
  destruct (PyDict.get (path parsed) paths) as [methods |] eqn:Hget.
  - assert (Hl : forall m, lookup_op (path parsed) m paths = PyDict.get m methods).
    { intros m. unfold lookup_op. now rewrite Hget. }
    rewrite Hl.
    destruct (PyDict.get (method parsed) methods) as [stored |] eqn:Hm;
      eexists; (split; [reflexivity |]);
      (split; [apply lookup_op_set_eq |]);
      (split; [| split;
                 [intros p; apply In_keys_set | apply NoDup_keys_set]]);
      intros p m Hne;
      (destruct (String.eqb_spec p (path parsed)) as [-> | Hpne];
       [| now apply lookup_op_set_other_path]);
      (destruct Hne as [Hne | Hne]; [congruence |]);
      rewrite Hl; now apply lookup_op_set_other_method.
  - assert (Hl : forall m, lookup_op (path parsed) m paths = None).
    { intros m. unfold lookup_op. now rewrite Hget. }
    rewrite Hl. cbn [PyDict.get PyDict.empty].
    eexists. split; [reflexivity |].
    split; [apply lookup_op_set_eq |].
    split; [| split].
    + intros p m Hne.
      destruct (String.eqb_spec p (path parsed)) as [-> | Hpne].
      * destruct Hne as [Hne | Hne]; [congruence |].
        rewrite Hl. now rewrite lookup_op_set_other_method.
      * now rewrite !lookup_op_set_other_path.
    + intros p. rewrite !In_keys_set. tauto.
    + intros Hnd. now apply NoDup_keys_set, NoDup_keys_set.
Qed.

Lemma aggregate_snoc requests request :
  aggregate (requests ++ [request])
  = aggregate_step (aggregate requests) request.
Proof. unfold aggregate. now rewrite fold_left_app. Qed.

(** Induction along the loop of the aggregator. *)
Lemma aggregate_ind (P : list Request -> PathMap -> gset string -> Prop) :
  P [] [] ∅ ->
  (forall requests paths servers request,
      aggregate requests = (paths, servers) ->
      P requests paths servers ->
      parse_network_request request = None ->
      P (requests ++ [request]) paths servers) ->
  (forall requests paths servers request parsed paths',
      aggregate requests = (paths, servers) ->
      P requests paths servers ->
      parse_network_request request = Some parsed ->
      aggregate_step (paths, servers) request
      = (paths', {[ base_url parsed ]} ∪ servers) ->
      lookup_op (path parsed) (method parsed) paths'
      = Some (written paths parsed) ->
      (forall p m,
          p <> path parsed \/ m <> method parsed ->
          lookup_op p m paths' = lookup_op p m paths) ->
      (forall p,
          In p (PyDict.keys paths') <-> p = path parsed \/ In p (PyDict.keys paths)) ->
      (List.NoDup (PyDict.keys paths) -> List.NoDup (PyDict.keys paths')) ->
      P (requests ++ [request]) paths' ({[ base_url parsed ]} ∪ servers)) ->
  forall requests,
    P requests (fst (aggregate requests)) (snd (aggregate requests)).
Proof.
  intros Hnil Hskip Hstep requests.
  induction requests as [| request requests IH] using rev_ind; [exact Hnil |].
  rewrite aggregate_snoc.
  destruct (aggregate requests) as [paths servers] eqn:Hagg. cbn [fst snd] in IH.
  destruct (parse_network_request request) as [parsed |] eqn:Hp.
  - destruct (aggregate_step_parsed paths servers request parsed Hp)
      as (paths' & Heq & H1 & H2 & H3 & H4).
    rewrite Heq. cbn [fst snd]. eapply Hstep; eauto.
  - rewrite aggregate_step_skip by exact Hp. cbn [fst snd].
    now apply Hskip.
Qed.

End Step.

(* ===================================================================== *)
(** * What the parser hands to the aggregator *)
(* ===================================================================== *)

Section ParsedParameters.

Context `{lib : PyLib}.

Lemma parse_qs_keys_distinct qs : List.NoDup (PyDict.keys (parse_qs qs)).
Proof.
  unfold parse_qs, PyDict.empty.
  assert (H : forall pairs (d : dict (list string)),
             List.NoDup (PyDict.keys d) ->
             List.NoDup
               (PyDict.keys
                  (fold_left
                     (fun (parsed_result : dict (list string))
                          (pair : string * string) =>
                        let '(name, value) := pair in
                        match PyDict.get name parsed_result with
                        | Some vs => PyDict.set name (vs ++ [value]) parsed_result
                        | None => PyDict.set name [value] parsed_result
                        end) pairs d))).
  { induction pairs as [| [name value] pairs IH]; intros d Hd; cbn; [exact Hd |].
    apply IH. destruct (PyDict.get name d); now apply NoDup_keys_set. }
  apply H. constructor.
Qed.

Lemma query_param_spec_name item : p_name (query_param_spec item) = fst item.
Proof. now destruct item. Qed.

Lemma query_param_spec_in item : p_in (query_param_spec item) = "query".
Proof. now destruct item. Qed.

Lemma build_parameters_app parsed :
  build_parameters parsed = path_params parsed ++ query_params parsed.
Proof.
  unfold build_parameters.
  destruct (path_params parsed), (query_params parsed); cbn;
    now rewrite ?app_nil_r.
Qed.

Lemma build_operation_fields parsed :
  op_summary (build_operation parsed)
  = upper (method parsed) +:+ " " +:+ path parsed
  /\ op_responses (build_operation parsed) = responses parsed
  /\ op_requestBody (build_operation parsed) = request_body parsed
  /\ stored_parameters (build_operation parsed) = build_parameters parsed.
Proof.
  unfold build_operation, stored_parameters.
  destruct (build_parameters parsed), (request_body parsed); cbn; auto.
Qed.

(** The parser returns at most one path parameter, named ["id"], and query
    parameters with pairwise distinct names. *)
Lemma parsed_parameters request parsed :
  parse_network_request request = Some parsed ->
  (path_params parsed = []
   \/ exists p, path_params parsed = [p]
                /\ p_name p = "id" /\ p_in p = "path")
  /\ List.NoDup (map p_name (query_params parsed))
  /\ Forall (fun p => p_in p = "query") (query_params parsed).
Proof.
  intros Hp.
  apply parse_network_request_fields in Hp
    as (_ & _ & _ & parsed_url & _ & _ & -> & -> & _).
  split; [| split].
  - assert (Hid : id_only (last_param [] (PyStr.split "/" (url_path parsed_url))))
      by (apply last_param_id_only; now left).
    destruct Hid as [-> | (part & p & Hs & ->)]; [now left | right].
    exists p. split; [reflexivity | now apply (segment_param_kind part)].
  - rewrite map_map.
    rewrite (map_ext _ fst) by apply query_param_spec_name.
    apply parse_qs_keys_distinct.
  - apply List.Forall_forall. intros p Hin. apply in_map_iff in Hin.
    destruct Hin as (item & <- & _). apply query_param_spec_in.
Qed.

Lemma parsed_parameters_keys request parsed :
  parse_network_request request = Some parsed ->
  List.NoDup (map param_key (build_parameters parsed))
  /\ Forall (fun p => p_in p = "query" \/ (p_in p = "path" /\ p_name p = "id"))
            (build_parameters parsed).
Proof.
  intros Hp. apply parsed_parameters in Hp as (Hpath & Hnd & Hq).
  rewrite build_parameters_app.
  assert (Hqk : List.NoDup (map param_key (query_params parsed)))
    by now apply NoDup_names_keys.
  assert (Hq' : Forall (fun p => p_in p = "query"
                                 \/ (p_in p = "path" /\ p_name p = "id"))
                       (query_params parsed)).
  { eapply List.Forall_impl; [| exact Hq]. intros p Hpq. now left. }
  destruct Hpath as [-> | (p & -> & Hn & Hi)]; [now split |].
  split.
  - cbn. constructor; [| exact Hqk].
    intros Hin. apply in_map_iff in Hin as (q & Heq & Hin).
    rewrite List.Forall_forall in Hq. apply Hq in Hin.
    unfold param_key in Heq. injection Heq as _ Heq. congruence.
  - cbn. constructor; [now right | exact Hq'].
Qed.

End ParsedParameters.

(* ===================================================================== *)
(** * Invariants of the aggregation *)
(* ===================================================================== *)

Section Invariants.

Context `{lib : PyLib}.

Lemma path_keys_distinct requests :
  List.NoDup (PyDict.keys (fst (aggregate requests))).
Proof.
  apply (aggregate_ind (fun _ paths _ => List.NoDup (PyDict.keys paths)));
    [constructor | auto | auto].
Qed.

(** The servers are the origins of the parsed exchanges. *)
Lemma servers_origins requests :
  forall origin,
    origin ∈ snd (aggregate requests)
    <-> exists request parsed,
          In request requests
          /\ parse_network_request request = Some parsed
          /\ base_url parsed = origin.
Proof.
  apply (aggregate_ind
           (fun requests _ servers =>
              forall origin,
                origin ∈ servers
                <-> exists request parsed,
                      In request requests
                      /\ parse_network_request request = Some parsed
                      /\ base_url parsed = origin)).
  - intros origin. split; [set_solver | intros (? & ? & [] & _)].
  - intros rs paths servers r _ IH Hp origin. rewrite IH. split.
    + intros (r' & parsed & Hin & H). exists r', parsed.
      split; [apply in_or_app; now left | exact H].
    + intros (r' & parsed & Hin & Hp' & Hb).
      apply in_app_or in Hin as [Hin | [<- | []]]; [| congruence].
      now exists r', parsed.
  - intros rs paths servers r parsed paths' _ IH Hp _ _ _ _ _ origin.
    rewrite elem_of_union, elem_of_singleton, IH. split.
    + intros [-> | (r' & parsed' & Hin & H)].
      * exists r, parsed. split; [apply in_or_app; right; now left | auto].
      * exists r', parsed'. split; [apply in_or_app; now left | exact H].
    + intros (r' & parsed' & Hin & Hp' & Hb).
      apply in_app_or in Hin as [Hin | [<- | []]].
      * right. now exists r', parsed'.
      * left. congruence.
Qed.

(** The keys of the path map are the paths of the parsed exchanges. *)
Lemma path_keys_produced requests :
  forall p,
    In p (PyDict.keys (fst (aggregate requests)))
    <-> exists request parsed,
          In request requests
          /\ parse_network_request request = Some parsed
          /\ path parsed = p.
Proof.
  apply (aggregate_ind
           (fun requests paths _ =>
              forall p,
                In p (PyDict.keys paths)
                <-> exists request parsed,
                      In request requests
                      /\ parse_network_request request = Some parsed
                      /\ path parsed = p)).
  - intros p. split; [intros [] | intros (? & ? & [] & _)].
  - intros rs paths servers r _ IH Hp p. rewrite IH. split.
    + intros (r' & parsed & Hin & H). exists r', parsed.
      split; [apply in_or_app; now left | exact H].
    + intros (r' & parsed & Hin & Hp' & Hb).
      apply in_app_or in Hin as [Hin | [<- | []]]; [| congruence].
      now exists r', parsed.
  - intros rs paths servers r parsed paths' _ IH Hp _ _ _ Hkeys _ p.
    rewrite Hkeys, IH. split.
    + intros [-> | (r' & parsed' & Hin & H)].
      * exists r, parsed. split; [apply in_or_app; right; now left | auto].
      * exists r', parsed'. split; [apply in_or_app; now left | exact H].
    + intros (r' & parsed' & Hin & Hp' & Hb).
      apply in_app_or in Hin as [Hin | [<- | []]].
      * right. now exists r', parsed'.
      * left. congruence.
Qed.

(** A pair is stored exactly when some exchange produced it. *)
Lemma stored_iff_produced requests :
  forall p m,
    lookup_op p m (fst (aggregate requests)) <> None
    <-> exists request, In request requests /\ produces p m request.
Proof.
  apply (aggregate_ind
           (fun requests paths _ =>
              forall p m,
                lookup_op p m paths <> None
                <-> exists request, In request requests /\ produces p m request)).
  - intros p m. split; [now intros H | intros (? & [] & _)].
  - intros rs paths servers r _ IH Hp p m. rewrite IH. split.
    + intros (r' & Hin & H). exists r'. split; [apply in_or_app; now left | exact H].
    + intros (r' & Hin & parsed & Hp' & H).
      apply in_app_or in Hin as [Hin | [<- | []]]; [| congruence].
      exists r'. split; [exact Hin | now exists parsed].
  - intros rs paths servers r parsed paths' _ IH Hp _ Hw Hother _ _ p m.
    destruct (String.eqb_spec p (path parsed)) as [-> | Hpne];
      [destruct (String.eqb_spec m (method parsed)) as [-> | Hmne] |].
    + rewrite Hw. split; [intros _ | discriminate].
      exists r. split; [apply in_or_app; right; now left | now exists parsed].
    + rewrite Hother by now right. rewrite IH. split.
      * intros (r' & Hin & H). exists r'. split; [apply in_or_app; now left | exact H].
      * intros (r' & Hin & parsed' & Hp' & Hpath & Hmeth).
        apply in_app_or in Hin as [Hin | [<- | []]]; [| congruence].
        exists r'. split; [exact Hin | now exists parsed'].
    + rewrite Hother by now left. rewrite IH. split.
      * intros (r' & Hin & H). exists r'. split; [apply in_or_app; now left | exact H].
      * intros (r' & Hin & parsed' & Hp' & Hpath & Hmeth).
        apply in_app_or in Hin as [Hin | [<- | []]]; [| congruence].
        exists r'. split; [exact Hin | now exists parsed'].
Qed.

End Invariants.

(* ===================================================================== *)
(** * Sorting strings and items *)
(* ===================================================================== *)

Section Order.

Lemma compare_Lt_trans a b c :
  String.compare a b = Lt -> String.compare b c = Lt ->
  String.compare a c = Lt.
Proof.
  intros Hab Hbc.
  apply OrderedTypeEx.String_as_OT.cmp_lt.
  apply OrderedTypeEx.String_as_OT.lt_trans with b;
    now apply OrderedTypeEx.String_as_OT.cmp_lt.
Qed.

#[global] Instance str_le_transitive : Transitive str_le.
Proof.
  intros a b c. unfold str_le, String.leb.
  destruct (String.compare a b) eqn:Hab; [| | discriminate].
  - apply String.compare_eq_iff in Hab. subst b. now intros _ H.
  - destruct (String.compare b c) eqn:Hbc; [| | discriminate]; intros _ _.
    + apply String.compare_eq_iff in Hbc. subst c. now rewrite Hab.
    + now rewrite (compare_Lt_trans a b c).
Qed.

#[global] Instance str_le_total : Total str_le.
Proof. intros a b. apply String.leb_total. Qed.

#[global] Instance key_le_transitive {V : Type} : Transitive (@key_le V).
Proof. intros a b c. unfold key_le. apply str_le_transitive. Qed.

#[global] Instance key_le_total {V : Type} : Total (@key_le V).
Proof. intros a b. unfold key_le. apply str_le_total. Qed.

Lemma str_le_lt a b : str_le a b -> a <> b -> str_lt a b.
Proof.
  unfold str_le, str_lt, String.leb, String.ltb.
  destruct (String.compare a b) eqn:E; try easy.
  apply String.compare_eq_iff in E. congruence.
Qed.

(** A sorted list without repetition is strictly sorted. *)
Lemma sorted_distinct_strict l :
  StronglySorted str_le l -> List.NoDup l -> StronglySorted str_lt l.
Proof.
  induction 1 as [| a l Hs IH Ha]; intros Hnd; constructor.
  - apply IH. now apply List.NoDup_cons_iff in Hnd.
  - apply List.NoDup_cons_iff in Hnd as [Hin _].
    rewrite List.Forall_forall in *. intros b Hb.
    apply str_le_lt; [now apply Ha | congruence].
Qed.

Lemma sorted_keys {V : Type} (items : list (string * V)) :
  StronglySorted key_le items -> StronglySorted str_le (map fst items).
Proof.
  induction 1 as [| a l Hs IH Ha]; cbn; constructor; [exact IH |].
  rewrite List.Forall_forall in *. intros k Hk.
  apply in_map_iff in Hk as (b & <- & Hb). now apply Ha.
Qed.

Lemma sorted_strings_spec l :
  List.NoDup l ->
  StronglySorted str_lt (sorted_strings l)
  /\ List.NoDup (sorted_strings l)
  /\ forall x, In x (sorted_strings l) <-> In x l.
Proof.
  intros Hnd. unfold sorted_strings.
  assert (Hp : Permutation (merge_sort str_le l) l)
    by apply merge_sort_Permutation.
  assert (Hnd' : List.NoDup (merge_sort str_le l)).
  { eapply Permutation_NoDup; [symmetry; exact Hp | exact Hnd]. }
  split; [| split; [exact Hnd' |]].
  - apply sorted_distinct_strict; [| exact Hnd'].
    apply StronglySorted_merge_sort; apply _.
  - intros x. split; apply Permutation_in; [exact Hp | now symmetry].
Qed.

Lemma sorted_items_spec {V : Type} (d : dict V) :
  List.NoDup (PyDict.keys d) ->
  Permutation (sorted_items d) d
  /\ List.NoDup (PyDict.keys (sorted_items d))
  /\ StronglySorted str_lt (PyDict.keys (sorted_items d)).
Proof.
  intros Hnd. unfold sorted_items, PyDict.items.
  assert (Hp : Permutation (merge_sort key_le d) d)
    by apply merge_sort_Permutation.
  assert (Hnd' : List.NoDup (PyDict.keys (merge_sort key_le d))).
  { unfold PyDict.keys. eapply Permutation_NoDup; [| exact Hnd].
    apply Permutation_map. now symmetry. }
  split; [exact Hp | split; [exact Hnd' |]].
  apply sorted_distinct_strict; [| exact Hnd'].
  apply sorted_keys, StronglySorted_merge_sort; apply _.
Qed.

End Order.

(* ===================================================================== *)
(** * The output document *)
(* ===================================================================== *)

Section Document.

Context `{lib : PyLib}.

Lemma generate_servers requests title version :
  map server_url (servers (generate_openapi_spec requests title version))
  = sorted_strings (elements (snd (aggregate requests))).
Proof.
  unfold generate_openapi_spec.
  destruct (aggregate requests) as [ps ss]. cbn.
  rewrite map_map. cbn. apply map_id.
Qed.

(** The comprehension over the sorted items is the list of sorted items. *)
Lemma generate_paths requests title version :
  paths (generate_openapi_spec requests title version)
  = sorted_items (fst (aggregate requests)).
Proof.
  pose proof (path_keys_distinct requests) as Hnd.
  unfold generate_openapi_spec.
  destruct (aggregate requests) as [ps ss]. cbn [fst paths] in *.
  destruct (sorted_items_spec ps Hnd) as (_ & Hnd' & _).
  rewrite rebuild_items; [reflexivity | exact Hnd' | intros k _ []].
Qed.

Lemma lookup_op_document requests title version p m :
  lookup_op p m (paths (generate_openapi_spec requests title version))
  = lookup_op p m (fst (aggregate requests)).
Proof.
  rewrite generate_paths. unfold lookup_op.
  pose proof (path_keys_distinct requests) as Hnd.
  destruct (sorted_items_spec _ Hnd) as (Hp & _ & _).
  now rewrite (get_Permutation p _ _ Hnd (Permutation_sym Hp)).
Qed.

Lemma document_path_keys requests title version p :
  In p (PyDict.keys (paths (generate_openapi_spec requests title version)))
  <-> In p (PyDict.keys (fst (aggregate requests))).
Proof.
  rewrite generate_paths.
  destruct (sorted_items_spec _ (path_keys_distinct requests)) as (Hp & _ & _).
  unfold PyDict.keys.
  split; apply Permutation_in, Permutation_map; [exact Hp | now symmetry].
Qed.

Lemma document_servers requests title version origin :
  In origin
     (map server_url (servers (generate_openapi_spec requests title version)))
  <-> origin ∈ snd (aggregate requests).
Proof.
  rewrite generate_servers.
  destruct (sorted_strings_spec (elements (snd (aggregate requests))))
    as (_ & _ & Hin).
  { apply NoDup_ListNoDup, NoDup_elements. }
  rewrite Hin, <- list_elem_of_In. apply elem_of_elements.
Qed.

(** The origin and the path of an accepted exchange are those
    [normalize_path] returns on its URL. *)
Lemma parsed_normalized request parsed :
  parse_network_request request = Some parsed ->
  exists params,
    normalize_path (request_url request)
    = Return (base_url parsed, path parsed, params).
Proof.
  intros Hp.
  apply parse_network_request_fields in Hp
    as (_ & _ & _ & parsed_url & Hu & -> & _ & _ & -> & Hf).
  rewrite normalize_path_closed_form, Hu. cbv zeta. rewrite Hf. eauto.
Qed.

(** C9. The server list of the output document is strictly increasing in
    lexicographic order, hence sorted and free of duplicates, and its
    members are exactly the origins [scheme://netloc] of the exchanges the
    parser did not skip.  The paths listed by the path map are strictly
    increasing in lexicographic order as well, and they are exactly the
    normalised paths of the exchanges the parser did not skip; under each
    path the methods are those of these exchanges. *)
Theorem servers_and_paths_sorted :
  forall (requests : list Request) (title version : string),
    let doc := generate_openapi_spec requests title version in
    let origins := map server_url (servers doc) in
    let listed := PyDict.keys (paths doc) in
    StronglySorted str_lt origins
    /\ List.NoDup origins
    /\ (forall origin,
          In origin origins
          <-> exists request parsed parsed_url,
                In request requests
                /\ parse_network_request request = Some parsed
                /\ urlparse (request_url request) = Return parsed_url
                /\ origin = url_scheme parsed_url +:+ "://"
                            +:+ url_netloc parsed_url)
    /\ StronglySorted str_lt listed
    /\ List.NoDup listed
    /\ (forall p,
          In p listed
          <-> exists request parsed origin params,
                In request requests
                /\ parse_network_request request = Some parsed
                /\ normalize_path (request_url request)
                   = Return (origin, p, params))
    /\ (forall p m,
          lookup_op p m (paths doc) <> None
          <-> exists request parsed,
                In request requests
                /\ parse_network_request request = Some parsed
                /\ path parsed = p /\ method parsed = m).
Proof.
  intros requests title version doc origins listed. subst doc origins listed.
  destruct (sorted_strings_spec (elements (snd (aggregate requests))))
    as (Hs & Hnd & _).
  { apply NoDup_ListNoDup, NoDup_elements. }
  destruct (sorted_items_spec _ (path_keys_distinct requests))
    as (_ & Hpnd & Hps).
  split; [now rewrite generate_servers |].
  split; [now rewrite generate_servers |].
  split; [| split; [now rewrite generate_paths |
                    split; [now rewrite generate_paths | split]]].
  - intros origin. rewrite document_servers, servers_origins. split.
    + intros (request & parsed & Hin & Hp & Hb).
      destruct (parse_network_request_fields request parsed Hp)
        as (_ & _ & _ & parsed_url & Hu & Hbase & _).
      exists request, parsed, parsed_url. repeat split; auto. congruence.
    + intros (request & parsed & parsed_url & Hin & Hp & Hu & ->).
      exists request, parsed. repeat split; auto.
      destruct (parse_network_request_fields request parsed Hp)
        as (_ & _ & _ & parsed_url' & Hu' & Hbase & _).
      congruence.
  - intros p. rewrite document_path_keys, path_keys_produced. split.
    + intros (request & parsed & Hin & Hp & <-).
      destruct (parsed_normalized request parsed Hp) as (params & Hn).
      now exists request, parsed, (base_url parsed), params.
    + intros (request & parsed & origin & params & Hin & Hp & Hn).
      exists request, parsed. split; [exact Hin | split; [exact Hp |]].
      destruct (parsed_normalized request parsed Hp) as (params' & Hn').
      congruence.
  - intros p m. rewrite lookup_op_document, stored_iff_produced.
    unfold produces. split.
    + intros (request & Hin & parsed & H). now exists request, parsed.
    + intros (request & parsed & Hin & H). exists request.
      split; [exact Hin | now exists parsed].
Qed.

Lemma aggregate_skip before request after :
  parse_network_request request = None ->
  aggregate (before ++ request :: after) = aggregate (before ++ after).
Proof.
  intros Hp. unfold aggregate. rewrite !fold_left_app. cbn [fold_left].
  now rewrite aggregate_step_skip.
Qed.

(** The loop reads an exchange through the parser only. *)
Lemma aggregate_replace before request request' after :
  parse_network_request request = parse_network_request request' ->
  aggregate (before ++ request :: after)
  = aggregate (before ++ request' :: after).
Proof.
  intros Hp. unfold aggregate. rewrite !fold_left_app. cbn [fold_left].
  f_equal. destruct (fold_left aggregate_step before _) as [ps ss].
  unfold aggregate_step. now rewrite Hp.
Qed.

(** C8. An exchange whose URL contains one of the static extensions
    anywhere is skipped by the parser; the loop leaves its state as it
    was, and the document is the one generated without that exchange:
    no path, method, parameter or server comes from it. *)
Theorem static_asset_leaves_document_unchanged :
  forall (request : Request) (url ext : string),
    r_url request = Some url ->
    In ext [".css"; ".js"; ".png"; ".jpg"; ".gif"; ".svg"; ".woff"; ".ttf"] ->
    PyStr.contains ext url = true ->
    parse_network_request request = None
    /\ (forall st, aggregate_step st request = st)
    /\ (forall before after title version,
          generate_openapi_spec (before ++ request :: after) title version
          = generate_openapi_spec (before ++ after) title version).
Proof.
  intros request url ext Hu Hext Hc.
  assert (Hp : parse_network_request request = None).
  { apply parse_network_request_static.
    unfold request_url. rewrite Hu. now apply (is_static_asset_true url ext). }
  split; [exact Hp | split].
  - intros st. now apply aggregate_step_skip.
  - intros before after title version. unfold generate_openapi_spec.
    now rewrite aggregate_skip.
Qed.

(** An exchange the parser accepts is present in every document built
    from a list that contains it. *)
Lemma parsed_exchange_contributes before request after parsed title version :
  parse_network_request request = Some parsed ->
  let doc := generate_openapi_spec (before ++ request :: after) title version in
  In (base_url parsed) (map server_url (servers doc))
  /\ In (path parsed) (PyDict.keys (paths doc))
  /\ lookup_op (path parsed) (method parsed) (paths doc) <> None.
Proof.
  intros Hp doc. subst doc.
  assert (Hin : In request (before ++ request :: after))
    by (apply in_or_app; right; now left).
  split; [| split].
  - apply document_servers, servers_origins. now exists request, parsed.
  - apply document_path_keys, path_keys_produced. now exists request, parsed.
  - rewrite lookup_op_document. apply stored_iff_produced.
    exists request. split; [exact Hin | now exists parsed].
Qed.

(** A request body that raises [JSONDecodeError] is as good as absent. *)
Lemma try_parse_without_postData request post_data :
  r_postData request = Some post_data ->
  json_loads post_data = JSONDecodeError ->
  try_parse_network_request request
  = try_parse_network_request (without_postData request).
Proof.
  intros Hd Hj. rewrite !try_parse_network_request_closed_form.
  assert (Hb : parse_request_body request
               = parse_request_body (without_postData request)).
  { unfold parse_request_body. cbn [without_postData r_postData].
    rewrite Hd, Hj. destruct (PyStr.truthy post_data); [| reflexivity].
    now destruct (PyStr.contains _ _). }
  now rewrite Hb.
Qed.

(** A response body that raises [JSONDecodeError] is as good as absent. *)
Lemma try_parse_without_response_body request response body :
  r_response request = Some response ->
  resp_body response = Some body ->
  json_loads body = JSONDecodeError ->
  try_parse_network_request request
  = try_parse_network_request (without_response_body request).
Proof.
  intros Hr Hb Hj. rewrite !try_parse_network_request_closed_form.
  assert (Hresp : parse_response request
                  = parse_response (without_response_body request)).
  { rewrite (parse_response_generic request response body Hr Hb)
      by now left.
    unfold parse_response, without_response_body. cbn [r_response].
    now rewrite Hr. }
  now rewrite Hresp.
Qed.

(** An exception of [json.loads] other than [JSONDecodeError], in a body
    that is read, reaches the handler whenever the parser gets that far. *)
Lemma request_body_error_drops request post_data message :
  r_postData request = Some post_data ->
  post_data <> "" ->
  PyStr.contains "application/json" (request_content_type request) = true ->
  json_loads post_data = OtherError message ->
  parse_network_request request = None.
Proof.
  intros Hd Hne Hc Hj.
  assert (Hb : parse_request_body request = Raise message).
  { unfold parse_request_body. unfold request_content_type in Hc.
    rewrite Hd, Hc, Hj. destruct post_data; [congruence | reflexivity]. }
  unfold parse_network_request.
  rewrite try_parse_network_request_closed_form, Hb.
  destruct (is_static_asset _); [reflexivity |].
  destruct (urlparse _); [| reflexivity].
  cbv zeta. now destruct (first_failure _).
Qed.

Lemma response_error_drops request response body message :
  r_response request = Some response ->
  resp_body response = Some body ->
  body <> "" ->
  PyStr.contains "application/json" (response_content_type response) = true ->
  json_loads body = OtherError message ->
  parse_network_request request = None.
Proof.
  intros Hr Hb Hne Hc Hj.
  assert (Hresp : parse_response request = Raise message).
  { unfold parse_response. unfold response_content_type in Hc.
    rewrite Hr. unfold_default. unfold_default in Hc.
    rewrite Hb, Hc, Hj. destruct body; [congruence | reflexivity]. }
  unfold parse_network_request.
  rewrite try_parse_network_request_closed_form, Hresp.
  destruct (is_static_asset _); [reflexivity |].
  destruct (urlparse _); [| reflexivity].
  cbv zeta. destruct (first_failure _); [reflexivity |].
  now destruct (parse_request_body request).
Qed.

(** C3, amended. A body that fails to parse as JSON with [JSONDecodeError]
    does not drop the exchange: the parser, and so the document, treat the
    exchange as the same exchange without that body.  If the parser accepts
    it, the request body is omitted, the responses are the generic entry,
    and the origin, the path and the method are in the document built from
    any list that contains it.  The exchange is dropped, and the document is
    the one generated without it, when [json.loads] raises another exception
    on a body that is read, that is a non-empty body under a JSON content
    type. *)
Theorem json_failure_keeps_exchange :
  forall request : Request,
    (forall post_data,
        r_postData request = Some post_data ->
        json_loads post_data = JSONDecodeError ->
        parse_network_request request
        = parse_network_request (without_postData request)
        /\ forall before after title version,
             generate_openapi_spec (before ++ request :: after) title version
             = generate_openapi_spec
                 (before ++ without_postData request :: after) title version)
    /\ (forall response body,
          r_response request = Some response ->
          resp_body response = Some body ->
          json_loads body = JSONDecodeError ->
          parse_network_request request
          = parse_network_request (without_response_body request)
          /\ forall before after title version,
               generate_openapi_spec (before ++ request :: after) title version
               = generate_openapi_spec
                   (before ++ without_response_body request :: after)
                   title version)
    /\ (forall parsed,
          parse_network_request request = Some parsed ->
          (forall post_data,
              r_postData request = Some post_data ->
              json_loads post_data = JSONDecodeError ->
              request_body parsed = None)
          /\ (forall response body,
                r_response request = Some response ->
                resp_body response = Some body ->
                json_loads body = JSONDecodeError ->
                responses parsed = generic_responses)
          /\ (forall before after title version,
                let doc :=
                  generate_openapi_spec (before ++ request :: after)
                                        title version in
                In (base_url parsed) (map server_url (servers doc))
                /\ In (path parsed) (PyDict.keys (paths doc))
                /\ lookup_op (path parsed) (method parsed) (paths doc)
                   <> None))
    /\ (forall post_data message,
          r_postData request = Some post_data ->
          post_data <> "" ->
          PyStr.contains "application/json"
            (default "" (PyDict.get "content-type"
                           (default PyDict.empty (r_requestHeaders request))))
          = true ->
          json_loads post_data = OtherError message ->
          parse_network_request request = None
          /\ forall before after title version,
               generate_openapi_spec (before ++ request :: after) title version
               = generate_openapi_spec (before ++ after) title version)
    /\ (forall response body message,
          r_response request = Some response ->
          resp_body response = Some body ->
          body <> "" ->
          PyStr.contains "application/json"
            (default "" (PyDict.get "content-type"
                           (default PyDict.empty (resp_headers response))))
          = true ->
          json_loads body = OtherError message ->
          parse_network_request request = None
          /\ forall before after title version,
               generate_openapi_spec (before ++ request :: after) title version
               = generate_openapi_spec (before ++ after) title version).
Proof.
  intros request.
  assert (Hsame : forall request',
             try_parse_network_request request
             = try_parse_network_request request' ->
             parse_network_request request = parse_network_request request'
             /\ forall before after title version,
                  generate_openapi_spec (before ++ request :: after)
                                        title version
                  = generate_openapi_spec (before ++ request' :: after)
                                          title version).
  { intros request' Ht.
    assert (Hp : parse_network_request request
                 = parse_network_request request')
      by (unfold parse_network_request; now rewrite Ht).
    split; [exact Hp |]. intros before after title version.
    unfold generate_openapi_spec.
    now rewrite (aggregate_replace before request request' after Hp). }
  assert (Hdrop : parse_network_request request = None ->
                  parse_network_request request = None
                  /\ forall before after title version,
                       generate_openapi_spec (before ++ request :: after)
                                             title version
                       = generate_openapi_spec (before ++ after) title version).
  { intros Hp. split; [exact Hp |]. intros before after title version.
    unfold generate_openapi_spec. now rewrite aggregate_skip. }
  split; [| split; [| split; [| split]]].
  - intros post_data Hd Hj.
    now apply Hsame, (try_parse_without_postData request post_data).
  - intros response body Hr Hb Hj.
    now apply Hsame, (try_parse_without_response_body request response body).
  - intros parsed Hp.
    destruct (parse_network_request_fields request parsed Hp)
      as (Hrb & Hresp & _).
    split; [| split].
    + intros d Hd Hj. unfold parse_request_body in Hrb.
      rewrite Hd, Hj in Hrb. destruct (PyStr.truthy d); [| congruence].
      destruct (PyStr.contains _ _); congruence.
    + intros response body Hr Hb Hj.
      rewrite (parse_response_generic request response body Hr Hb) in Hresp
        by now left.
      now injection Hresp as <-.
    + intros before after title version.
      now apply parsed_exchange_contributes.
  - intros post_data message Hd Hne Hc Hj.
    apply Hdrop. now apply (request_body_error_drops request post_data message).
  - intros response body message Hr Hb Hne Hc Hj.
    apply Hdrop.
    now apply (response_error_drops request response body message).
Qed.

End Document.

(* ===================================================================== *)
(** * Stored operations *)
(* ===================================================================== *)

Section StoredOperations.

Context `{lib : PyLib}.

Lemma index_values_origin stored :
  forall (d : dict Param) k q,
    In (k, q) (fold_left (fun d p => PyDict.set (p_name p) p d) stored d) ->
    In (k, q) d \/ In q stored.
Proof.
  induction stored as [| p stored IH]; intros d k q Hin; cbn in *; [now left |].
  apply IH in Hin as [Hin | Hin]; [| right; now right].
  apply In_set in Hin as [[_ ->] | Hin]; [right; now left | now left].
Qed.

Lemma add_missing_values_origin parameters :
  forall (d : dict Param) k q,
    In (k, q) (add_missing d parameters) ->
    In (k, q) d \/ In q parameters.
Proof.
  unfold add_missing.
  induction parameters as [| p ps IH]; intros d k q Hin; cbn in *; [now left |].
  apply IH in Hin as [Hin | Hin]; [| right; now right].
  destruct (PyDict.mem (p_name p) d); [now left |].
  apply In_set in Hin as [[_ ->] | Hin]; [right; now left | now left].
Qed.

(** Every parameter of a merged list comes from the stored list or from
    the repeat. *)
Lemma merged_values_origin stored parameters q :
  In q (PyDict.values
          (add_missing (index_by_name (stored_parameters stored)) parameters)) ->
  In q (stored_parameters stored) \/ In q parameters.
Proof.
  unfold PyDict.values. intros Hin.
  apply in_map_iff in Hin as ([k q'] & Heq & Hin). cbn in Heq. subst q'.
  apply add_missing_values_origin in Hin as [Hin | Hin]; [| now right].
  apply index_values_origin in Hin as [[] | Hin]. now left.
Qed.

(** In every stored operation the pairs (name, location) of the parameters
    are pairwise distinct; a path parameter is named ["id"]. *)
Lemma stored_parameter_keys requests :
  forall p m op,
    lookup_op p m (fst (aggregate requests)) = Some op ->
    List.NoDup (map param_key (stored_parameters op))
    /\ Forall (fun q => p_in q = "query" \/ (p_in q = "path" /\ p_name q = "id"))
              (stored_parameters op).
Proof.
  apply (aggregate_ind
           (fun _ paths _ =>
              forall p m op,
                lookup_op p m paths = Some op ->
                List.NoDup (map param_key (stored_parameters op))
                /\ Forall (fun q => p_in q = "query"
                                    \/ (p_in q = "path" /\ p_name q = "id"))
                          (stored_parameters op))).
  - intros p m op. discriminate.
  - auto.
  - intros rs paths servers r parsed paths' _ IH Hp _ Hw Hother _ _ p m op Hl.
    destruct (String.eqb_spec p (path parsed)) as [-> | Hpne];
      [destruct (String.eqb_spec m (method parsed)) as [-> | Hmne] |].
    + rewrite Hw in Hl. injection Hl as <-. unfold written.
      destruct (parsed_parameters_keys r parsed Hp) as [Hnew Hnew'].
      destruct (lookup_op (path parsed) (method parsed) paths)
        as [stored |] eqn:Hs.
      * destruct (IH _ _ _ Hs) as [Hold Hold'].
        unfold merge_parameters. fold (stored_parameters stored).
        destruct (PyDict.truthy _); [| now split].
        unfold stored_parameters at 1 3. cbn. split.
        -- apply NoDup_names_keys, merged_names_distinct.
        -- apply List.Forall_forall. intros q Hq.
           rewrite List.Forall_forall in Hold', Hnew'.
           apply merged_values_origin in Hq as [Hq | Hq]; auto.
      * destruct (build_operation_fields parsed) as (_ & _ & _ & ->).
        now split.
    + rewrite Hother in Hl by now right. eapply IH; eassumption.
    + rewrite Hother in Hl by now left. eapply IH; eassumption.
Qed.

(** C2, amended. In every operation of the output document, no two
    entries of the parameter list share both their name and their
    location, and every entry is a query parameter or the path parameter
    ["id"]; so two entries can share a name only when one is the path
    parameter ["id"] and the other a query parameter called ["id"]. *)
Theorem parameter_keys_distinct :
  forall (requests : list Request) (title version p m : string)
         (op : Operation),
    lookup_op p m (paths (generate_openapi_spec requests title version))
    = Some op ->
    List.NoDup (map (fun q => (p_name q, p_in q)) (stored_parameters op))
    /\ Forall (fun q => p_in q = "query" \/ (p_in q = "path" /\ p_name q = "id"))
              (stored_parameters op).
Proof.
  intros requests title version p m op Hl.
  rewrite lookup_op_document in Hl.
  now apply (stored_parameter_keys requests p m op).
Qed.

(** The summary, the responses and the request body of a stored operation
    are those of the first exchange that produced its pair. *)
Lemma first_exchange_governs requests :
  forall p m op,
    lookup_op p m (fst (aggregate requests)) = Some op ->
    exists before request after parsed,
      requests = before ++ request :: after
      /\ (forall earlier, In earlier before -> ~ produces p m earlier)
      /\ parse_network_request request = Some parsed
      /\ path parsed = p /\ method parsed = m
      /\ op_summary op = upper m +:+ " " +:+ p
      /\ op_responses op = responses parsed
      /\ op_requestBody op = request_body parsed.
Proof.
  apply (aggregate_ind
           (fun requests paths _ =>
              forall p m op,
                lookup_op p m paths = Some op ->
                exists before request after parsed,
                  requests = before ++ request :: after
                  /\ (forall earlier, In earlier before -> ~ produces p m earlier)
                  /\ parse_network_request request = Some parsed
                  /\ path parsed = p /\ method parsed = m
                  /\ op_summary op = upper m +:+ " " +:+ p
                  /\ op_responses op = responses parsed
                  /\ op_requestBody op = request_body parsed)).
  - intros p m op. discriminate.
  - intros rs paths servers r _ IH _ p m op Hl.
    destruct (IH p m op Hl) as (before & request & after & parsed & -> & H).
    exists before, request, (after ++ [r]), parsed.
    split; [now rewrite <- app_assoc | exact H].
  - intros rs paths servers r parsed paths' Hagg IH Hp _ Hw Hother _ _ p m op Hl.
    assert (Hold : forall op',
               lookup_op p m paths = Some op' ->
               op_summary op = op_summary op' ->
               op_responses op = op_responses op' ->
               op_requestBody op = op_requestBody op' ->
               exists before request after parsed0,
                 rs ++ [r] = before ++ request :: after
                 /\ (forall earlier, In earlier before -> ~ produces p m earlier)
                 /\ parse_network_request request = Some parsed0
                 /\ path parsed0 = p /\ method parsed0 = m
                 /\ op_summary op = upper m +:+ " " +:+ p
                 /\ op_responses op = responses parsed0
                 /\ op_requestBody op = request_body parsed0).
    { intros op' Hl' -> -> ->.
      destruct (IH p m op' Hl')
        as (before & request & after & parsed0 & -> & H).
      exists before, request, (after ++ [r]), parsed0.
      split; [now rewrite <- app_assoc | exact H]. }
    destruct (String.eqb_spec p (path parsed)) as [-> | Hpne];
      [destruct (String.eqb_spec m (method parsed)) as [-> | Hmne] |].
    + rewrite Hw in Hl. injection Hl as <-. unfold written in *.
      destruct (lookup_op (path parsed) (method parsed) paths)
        as [stored |] eqn:Hs.
      * destruct (merge_parameters_frame stored (build_parameters parsed))
          as (H1 & H2 & H3).
        now apply (Hold stored).
      * exists rs, r, [], parsed.
        destruct (build_operation_fields parsed) as (H1 & H2 & H3 & _).
        repeat split; auto.
        intros earlier Hin Hprod.
        assert (Hne : lookup_op (path parsed) (method parsed)
                                (fst (aggregate rs)) <> None).
        { apply stored_iff_produced. now exists earlier. }
        rewrite Hagg in Hne. cbn in Hne. congruence.
    + rewrite Hother in Hl by now right. now apply (Hold op).
    + rewrite Hother in Hl by now left. now apply (Hold op).
Qed.

(** On a repeat of a stored pair the step rewrites at most the parameter
    list of that operation and leaves every other operation alone. *)
Lemma repeat_changes_parameters_only paths servers request parsed stored :
  parse_network_request request = Some parsed ->
  lookup_op (path parsed) (method parsed) paths = Some stored ->
  exists merged,
    lookup_op (path parsed) (method parsed)
              (fst (aggregate_step (paths, servers) request))
    = Some merged
    /\ op_summary merged = op_summary stored
    /\ op_responses merged = op_responses stored
    /\ op_requestBody merged = op_requestBody stored
    /\ (List.NoDup (map p_name (stored_parameters stored)) ->
        stored_parameters merged
        = stored_parameters stored
          ++ fresh_params (map p_name (stored_parameters stored))
                          (path_params parsed ++ query_params parsed))
    /\ (forall p m,
          p <> path parsed \/ m <> method parsed ->
          lookup_op p m (fst (aggregate_step (paths, servers) request))
          = lookup_op p m paths).
Proof.
  intros Hp Hs.
  destruct (aggregate_step_parsed paths servers request parsed Hp)
    as (paths' & -> & Hw & Hother & _).
  cbn [fst]. unfold written in Hw. rewrite Hs in Hw.
  exists (merge_parameters stored (build_parameters parsed)).
  destruct (merge_parameters_frame stored (build_parameters parsed))
    as (H1 & H2 & H3).
  repeat split; auto.
  intros Hnd. rewrite <- build_parameters_app.
  now apply merge_parameters_appends.
Qed.

End StoredOperations.


(* ===================================================================== *)
(** * The script on concrete captures *)
(* ===================================================================== *)

Section ConcreteCaptures.

#[local] Existing Instance cpython.


Lemma unparsable_response_is_generic_witness :
  let request :=
    capture_with_response "GET" "https://api.example.com/users/1" 500
      [("content-type", "application/json")] "<html>Internal error</html>" in
  json_loads "<html>Internal error</html>" = JSONDecodeError
  /\ exists parsed,
       parse_network_request request = Some parsed
       /\ responses parsed
          = [("200", {| ro_description := "Successful response";
                        ro_content := None |})].
Proof.
  intros request. split; [vm_compute; reflexivity |].
  destruct (parse_network_request request) as [parsed |] eqn:Hp;
    [| vm_compute in Hp; discriminate Hp].
  exists parsed. split; [reflexivity |].
  apply (@unparsable_response_is_generic cpython request parsed
           {| resp_status := Some 500%Z;
              resp_headers := Some [("content-type", "application/json")];
              resp_body := Some "<html>Internal error</html>" |}
           "<html>Internal error</html>").
  - exact Hp.
  - reflexivity.
  - reflexivity.
  - discriminate.
  - left. vm_compute. reflexivity.
Defined.

Lemma static_asset_leaves_document_unchanged_witness :
  let request := capture "GET" "https://cdn.example.com/logo.png?v=3" in
  parse_network_request request = None
  /\ (forall st, aggregate_step st request = st)
  /\ (forall before after title version,
        generate_openapi_spec (before ++ request :: after) title version
        = generate_openapi_spec (before ++ after) title version).
Proof.
  cbv zeta.
  apply (@static_asset_leaves_document_unchanged cpython
           (capture "GET" "https://cdn.example.com/logo.png?v=3")
           "https://cdn.example.com/logo.png?v=3" ".png").
  - reflexivity.
  - do 2 right. left. reflexivity.
  - vm_compute. reflexivity.
Defined.

(** Both bodies are valid JSON and both content types are JSON, but the
    header key is spelled [Content-Type]. *)
Lemma content_type_lookup_is_exact_witness :
  let request :=
    {| r_url := Some "https://api.example.com/users";
       r_method := Some "POST";
       r_requestHeaders := Some [("Content-Type", "application/json")];
       r_postData := Some "[1, 2, 3]";
       r_response :=
         Some {| resp_status := Some 201%Z;
                 resp_headers := Some [("Content-Type", "application/json")];
                 resp_body := Some "[true]" |} |} in
  json_loads "[1, 2, 3]" = Decoded (JList [JInt 1; JInt 2; JInt 3])
  /\ json_loads "[true]" = Decoded (JList [JBool true])
  /\ exists parsed,
       parse_network_request request = Some parsed
       /\ request_body parsed = None
       /\ responses parsed
          = [("200", {| ro_description := "Successful response";
                        ro_content := None |})].
Proof.
  intros request.
  split; [vm_compute; reflexivity |].
  split; [vm_compute; reflexivity |].
  destruct (parse_network_request request) as [parsed |] eqn:Hp;
    [| vm_compute in Hp; discriminate Hp].
  exists parsed. split; [reflexivity |].
  destruct (@content_type_lookup_is_exact cpython request parsed Hp)
    as (Hreq & Hresp & _).
  split.
  - apply Hreq. cbn. intros [H | []]. discriminate H.
  - apply Hresp. intros response [= <-]. cbn. intros [H | []]. discriminate H.
Defined.

(** C3, as stated, fails: a response body that is not JSON leaves the
    exchange in the document, with its server and its path. *)
Lemma unparsable_body_is_still_aggregated :
  let request :=
    capture_with_response "GET" "https://api.example.com/status" 200
      [("content-type", "application/json")] "<html>busy</html>" in
  let doc := generate_openapi_spec [request] "Generated API" "1.0.0" in
  json_loads "<html>busy</html>" = JSONDecodeError
  /\ map server_url (servers doc) = ["https://api.example.com"]
  /\ PyDict.keys (paths doc) = ["/status"]
  /\ PyDict.get "/status" (paths doc)
     = Some [("get",
              {| op_summary := "GET /status";
                 op_responses :=
                   [("200", {| ro_description := "Successful response";
                               ro_content := None |})];
                 op_parameters := None;
                 op_requestBody := None |})].
Proof.
  cbv zeta. repeat split; vm_compute; reflexivity.
Qed.

(** Both bodies of the first exchange raise [JSONDecodeError]: it is parsed
    as the exchange without them, and it is in the document.  The body of
    the second one is an integer literal of 4301 digits, on which
    [json.loads] raises [ValueError]: the exchange is dropped. *)
Lemma json_failure_keeps_exchange_witness :
  let huge :=
    capture_with_body "PUT" "https://api.example.com/status"
      [("content-type", "application/json")] (repeat_string 4301 "1") in
  let request :=
    {| r_url := Some "https://api.example.com/status";
       r_method := Some "PUT";
       r_requestHeaders := Some [("content-type", "application/json")];
       r_postData := Some "{not json";
       r_response :=
         Some {| resp_status := Some 200%Z;
                 resp_headers := Some [("content-type", "application/json")];
                 resp_body := Some "<html>busy</html>" |} |} in
  parse_network_request huge = None
  /\ parse_network_request request
     = parse_network_request (without_postData request)
  /\ parse_network_request request
     = parse_network_request (without_response_body request)
  /\ exists parsed,
       parse_network_request request = Some parsed
       /\ request_body parsed = None
       /\ responses parsed = generic_responses
       /\ In (base_url parsed)
            (map server_url
                 (servers (generate_openapi_spec [request] "Generated API" "1.0.0")))
       /\ In (path parsed)
            (PyDict.keys
               (paths (generate_openapi_spec [request] "Generated API" "1.0.0"))).
Proof.
  intros huge request.
  split.
  { destruct (@json_failure_keeps_exchange cpython huge)
      as (_ & _ & _ & Hdrop & _).
    apply (Hdrop (repeat_string 4301 "1") (CPython.digit_limit_message 4301)).
    - reflexivity.
    - intros H. vm_compute in H. discriminate H.
    - vm_compute. reflexivity.
    - vm_compute. reflexivity. }
  destruct (@json_failure_keeps_exchange cpython request)
    as (Hbody & Hresp & Hkept & _ & _).
  split; [apply (Hbody "{not json"); [reflexivity | vm_compute; reflexivity] |].
  split.
  { apply (Hresp {| resp_status := Some 200%Z;
                    resp_headers := Some [("content-type", "application/json")];
                    resp_body := Some "<html>busy</html>" |}
                 "<html>busy</html>");
      [reflexivity | reflexivity | vm_compute; reflexivity]. }
  destruct (parse_network_request request) as [parsed |] eqn:Hp;
    [| vm_compute in Hp; discriminate Hp].
  exists parsed. split; [reflexivity |].
  destruct (Hkept parsed eq_refl) as (Hrb & Hrs & Hdoc).
  split; [apply (Hrb "{not json"); [reflexivity | vm_compute; reflexivity] |].
  split.
  - apply (Hrs {| resp_status := Some 200%Z;
                  resp_headers := Some [("content-type", "application/json")];
                  resp_body := Some "<html>busy</html>" |}
               "<html>busy</html>");
      [reflexivity | reflexivity | vm_compute; reflexivity].
  - destruct (Hdoc [] [] "Generated API" "1.0.0") as (Hs & Hk & _).
    split; [exact Hs | exact Hk].
Defined.

(** C2, as stated, fails: a numeric path segment and a query key [id] give
    two parameters with the same name in one operation. *)
Lemma path_and_query_id_share_name :
  let doc :=
    generate_openapi_spec
      [capture "GET" "https://api.example.com/users/3?id=5"]
      "Generated API" "1.0.0" in
  exists op,
    lookup_op "/users/{id}" "get" (paths doc) = Some op
    /\ map p_name (stored_parameters op) = ["id"; "id"]
    /\ map p_in (stored_parameters op) = ["path"; "query"]
    /\ ~ List.NoDup (map p_name (stored_parameters op)).
Proof.
  intros doc.
  destruct (lookup_op "/users/{id}" "get" (paths doc)) as [op |] eqn:Hl;
    [| vm_compute in Hl; discriminate Hl].
  exists op. split; [reflexivity |].
  vm_compute in Hl. injection Hl as <-.
  split; [reflexivity | split; [reflexivity |]].
  cbn. intros H. apply List.NoDup_cons_iff in H as [H _]. apply H. now left.
Qed.

Lemma parameter_keys_distinct_witness :
  let doc :=
    generate_openapi_spec
      [capture "GET" "https://api.example.com/users/3?id=5"]
      "Generated API" "1.0.0" in
  exists op,
    lookup_op "/users/{id}" "get" (paths doc) = Some op
    /\ List.NoDup (map (fun q => (p_name q, p_in q)) (stored_parameters op))
    /\ Forall (fun q => p_in q = "query" \/ (p_in q = "path" /\ p_name q = "id"))
              (stored_parameters op).
Proof.
  intros doc.
  destruct (lookup_op "/users/{id}" "get" (paths doc)) as [op |] eqn:Hl;
    [| vm_compute in Hl; discriminate Hl].
  exists op. split; [reflexivity |].
  exact (@parameter_keys_distinct cpython
           [capture "GET" "https://api.example.com/users/3?id=5"]
           "Generated API" "1.0.0" "/users/{id}" "get" op Hl).
Defined.

(** C1 fails on these exchanges.  The first one stores the path parameter
    [id] followed by the query parameter [id]; the repeat of the pair, which
    only brings a path parameter [id], makes the stored list lose its path
    parameter: the index by name built from the stored list keeps the later
    of the two entries called [id].  The same happens when the first
    exchange is simply seen twice. *)
Theorem repeat_drops_stored_path_parameter :
  let first := capture "GET" "https://api.example.com/users/3?id=5" in
  let again := capture "GET" "https://api.example.com/users/4" in
  let path_id :=
    {| p_name := "id"; p_in := "path"; p_required := Some true;
       p_schema := typed "integer"; p_example := JInt 3 |} in
  let query_id :=
    {| p_name := "id"; p_in := "query"; p_required := None;
       p_schema := typed "string"; p_example := JStr "5" |} in
  let parameters_after requests :=
    option_map op_parameters
      (lookup_op "/users/{id}" "get"
         (paths (generate_openapi_spec requests "Generated API" "1.0.0"))) in
  parameters_after [first] = Some (Some [path_id; query_id])
  /\ parameters_after [first; again] = Some (Some [query_id])
  /\ parameters_after [first; first] = Some (Some [query_id]).
Proof.
  cbv zeta. repeat split; vm_compute; reflexivity.
Qed.

End ConcreteCaptures.

(* ===================================================================== *)
(** * Further properties of schema inference *)
(* ===================================================================== *)

Section InferenceShape.

(** Induction on JSON values, with the elements of a list and the values of
    a dictionary as premises. *)
Lemma json_induction (P : json -> Prop) :
  P JNull ->
  (forall b, P (JBool b)) ->
  (forall n, P (JInt n)) ->
  (forall f, P (JFloat f)) ->
  (forall s, P (JStr s)) ->
  (forall l, Forall P l -> P (JList l)) ->
  (forall d, Forall (fun kv => P (snd kv)) d -> P (JDict d)) ->
  forall v, P v.
Proof.
  intros Hnull Hbool Hint Hfloat Hstr Hlist Hdict.
  fix IH 1.
  intros [| b | n | f | s | l | d];
    [exact Hnull | apply Hbool | apply Hint | apply Hfloat | apply Hstr | |].
  - apply Hlist. induction l as [| v l IHl]; constructor; [apply IH | exact IHl].
  - apply Hdict. induction d as [| [k v] d IHd]; constructor;
      [apply IH | exact IHd].
Qed.

(** The loop over the items of an object, unfolded. *)
Lemma infer_object_unfold kvs example :
  infer_schema_from_value (JDict kvs) example
  = let '(properties, required) :=
      fold_left
        (fun (acc : dict schema * list string) (kv : string * json) =>
           let '(properties, required) := acc in
           let '(key, val) := kv in
           (PyDict.set key (infer_schema_from_value val example) properties,
            if is_None val then required else required ++ [key]))
        kvs (PyDict.empty, []) in
    let schema := set_properties properties (typed "object") in
    let schema :=
      match required with [] => schema | _ => set_required required schema end in
    if example then set_example (JDict kvs) schema else schema.
Proof. reflexivity. Qed.

Lemma infer_object_loop example kvs :
  forall properties required,
    fold_left
      (fun (acc : dict schema * list string) (kv : string * json) =>
         let '(properties, required) := acc in
         let '(key, val) := kv in
         (PyDict.set key (infer_schema_from_value val example) properties,
          if is_None val then required else required ++ [key]))
      kvs (properties, required)
    = (fold_left
         (fun d kv =>
            PyDict.set (fst kv) (infer_schema_from_value (snd kv) example) d)
         kvs properties,
       required
       ++ map fst (filter (fun kv => negb (is_None (snd kv))) kvs)).
Proof.
  induction kvs as [| [k v] kvs IH]; intros properties required; cbn.
  - now rewrite app_nil_r.
  - rewrite IH. f_equal. destruct (is_None v); cbn; [reflexivity |].
    now rewrite <- app_assoc.
Qed.

(** Binding the keys of a list without repeated keys, none of them bound
    yet, appends the bindings in order. *)
Lemma bind_items {A V : Type} (key : A -> string) (value : A -> V) l :
  List.NoDup (map key l) ->
  forall acc : dict V,
    (forall a, In a l -> ~ In (key a) (PyDict.keys acc)) ->
    fold_left (fun d a => PyDict.set (key a) (value a) d) l acc
    = acc ++ map (fun a => (key a, value a)) l.
Proof.
  induction l as [| a l IH]; intros Hnd acc Hacc; cbn.
  - now rewrite app_nil_r.
  - cbn in Hnd. apply List.NoDup_cons_iff in Hnd as [Hk Hnd].
    rewrite set_fresh by (apply get_None_keys, Hacc; now left).
    rewrite IH; [now rewrite <- app_assoc | exact Hnd |].
    intros b Hb Hin. unfold PyDict.keys in Hin.
    rewrite map_app, in_app_iff in Hin. destruct Hin as [Hin | [Heq | []]].
    + apply (Hacc b); [now right | exact Hin].
    + apply Hk. cbn in Heq. rewrite Heq. now apply in_map.
Qed.

Lemma bound_keys {A V : Type} (key : A -> string) (value : A -> V) l :
  forall (acc : dict V) k,
    In k (PyDict.keys
            (fold_left (fun d a => PyDict.set (key a) (value a) d) l acc))
    <-> In k (PyDict.keys acc) \/ In k (map key l).
Proof.
  induction l as [| a l IH]; intros acc k; cbn [fold_left map In]; [tauto |].
  rewrite IH, In_keys_set. intuition congruence.
Qed.

Lemma bound_values {A V : Type} (key : A -> string) (value : A -> V) l :
  forall (acc : dict V) k v,
    In (k, v) (fold_left (fun d a => PyDict.set (key a) (value a) d) l acc) ->
    In (k, v) acc \/ exists a, In a l /\ v = value a.
Proof.
  induction l as [| a l IH]; intros acc k v Hin; cbn in *; [now left |].
  apply IH in Hin as [Hin | (b & Hb & ->)].
  - apply In_set in Hin as [[_ ->] | Hin]; [right | now left].
    exists a. split; [now left | reflexivity].
  - right. exists b. split; [now right | reflexivity].
Qed.

Lemma infer_no_example :
  forall value : json,
    has_example (infer_schema_from_value value false) = false.
Proof.
  induction value as [| b | n | f | s | l IH | d IH] using json_induction;
    try reflexivity.
  - destruct l as [| first rest]; [reflexivity |].
    apply Forall_inv in IH. cbn. now rewrite IH.
  - rewrite infer_object_unfold, infer_object_loop. cbn [app].
    set (properties := fold_left _ d PyDict.empty).
    assert (Hp : existsb (fun kv => has_example (snd kv)) properties = false).
    { apply not_true_is_false. intros H. apply existsb_exists in H
        as ([k sch] & Hin & Hex).
      apply bound_values in Hin as [[] | (kv & Hkv & ->)].
      rewrite List.Forall_forall in IH. cbn in Hex.
      now rewrite (IH kv Hkv) in Hex. }
    destruct (map fst _); cbn; now rewrite Hp.
Qed.

(** With the example flag off, no node of the inferred schema carries an
    example, at any depth.  With the flag on, the schema carries an example
    for every value but the empty array. *)
Theorem infer_without_examples :
  forall (value : json) (example : bool),
    has_example (infer_schema_from_value value example)
    = example && negb (match value with JList [] => true | _ => false end).
Proof.
  intros value [|]; [| apply infer_no_example].
  cbn [andb].
  destruct value as [| b | n | f | s | [| first rest] | d]; try reflexivity.
  rewrite infer_object_unfold, infer_object_loop. cbn [app].
  now destruct (map fst _).
Qed.

(** The schema of an object: the kind is [object]; [required] lists, in
    order, the keys whose value is not null, and is absent when there is
    none; the properties have the keys of the object, and for an object
    without repeated keys each key is bound, in order, to the schema of its
    value; the example is the object itself when the flag is on. *)
Theorem infer_object_schema :
  forall (kvs : list (string * json)) (example : bool),
    let s := infer_schema_from_value (JDict kvs) example in
    s_type s = Some "object"
    /\ s_required s
       = match filter (fun kv => negb (is_None (snd kv))) kvs with
         | [] => None
         | present => Some (map fst present)
         end
    /\ (exists properties,
          s_properties s = Some properties
          /\ (forall k, In k (PyDict.keys properties) <-> In k (map fst kvs))
          /\ (List.NoDup (map fst kvs) ->
              properties
              = map (fun kv =>
                       (fst kv, infer_schema_from_value (snd kv) example))
                    kvs))
    /\ s_example s = (if example then Some (JDict kvs) else None)
    /\ s_items s = None.
Proof.
  intros kvs example s. subst s.
  rewrite infer_object_unfold, infer_object_loop. cbn [app].
  set (properties := fold_left _ kvs PyDict.empty).
  assert (Hkeys : forall k, In k (PyDict.keys properties) <-> In k (map fst kvs)).
  { intros k. subst properties. rewrite bound_keys. cbn. tauto. }
  assert (Hmap : List.NoDup (map fst kvs) ->
                 properties
                 = map (fun kv =>
                          (fst kv, infer_schema_from_value (snd kv) example))
                       kvs).
  { intros Hnd. subst properties.
    rewrite (bind_items fst (fun kv => infer_schema_from_value (snd kv) example))
      by (auto; intros a _ []).
    reflexivity. }
  destruct (filter _ kvs) as [| kv present] eqn:Hf; destruct example; cbn;
    repeat split; try reflexivity; exists properties; auto.
Qed.

(** The schema of an array is of kind [array].  The empty array gets the
    empty item schema and never an example, whatever the flag; every other
    value carries itself as example exactly when the flag is on. *)
Theorem infer_examples_and_empty_array :
  forall (value : json) (example : bool),
    (forall l, value = JList l ->
               s_type (infer_schema_from_value value example) = Some "array")
    /\ infer_schema_from_value (JList []) example
       = Schema (Some "array") None (Some empty_schema) None None None
    /\ (value <> JList [] ->
        s_example (infer_schema_from_value value example)
        = if example then Some value else None).
Proof.
  intros value example. split; [| split].
  - intros l ->. destruct l, example; reflexivity.
  - reflexivity.
  - intros Hne. destruct value as [| b | n | f | s | [| first rest] | d];
      try (destruct example; reflexivity); [congruence |].
    rewrite infer_object_unfold, infer_object_loop. cbn [app].
    destruct (map fst _), example; reflexivity.
Qed.

End InferenceShape.

(* ===================================================================== *)
(** * Splitting and joining paths *)
(* ===================================================================== *)

Section SplitJoin.

Lemma split_not_nil sep s : PyStr.split sep s <> [].
Proof.
  destruct s as [| c s]; cbn; [discriminate |].
  destruct (Ascii.eqb c sep); [discriminate |].
  destruct (PyStr.split sep s); discriminate.
Qed.

Lemma join_cons sep x parts :
  parts <> [] ->
  PyStr.join sep (x :: parts) = x +:+ sep +:+ PyStr.join sep parts.
Proof. destruct parts; [congruence | reflexivity]. Qed.

(** Joining the segments of a path gives the path back. *)
Lemma join_split s : PyStr.join "/" (PyStr.split "/" s) = s.
Proof.
  induction s as [| c s IH]; [reflexivity |].
  cbn [PyStr.split]. destruct (Ascii.eqb_spec c "/") as [-> | Hne].
  - rewrite join_cons by apply split_not_nil. cbn. now rewrite IH.
  - pose proof (split_not_nil "/" s) as Hnil.
    destruct (PyStr.split "/" s) as [| h t]; [congruence |].
    destruct t as [| h' t'].
    + cbn in *. now rewrite IH.
    + rewrite join_cons by discriminate. rewrite join_cons in IH by discriminate.
      rewrite <- IH. reflexivity.
Qed.

Lemma prefix_slash c s :
  String.prefix "/" (String c s) = Ascii.eqb c "/".
Proof.
  cbn [String.prefix]. destruct (ascii_dec "/" c) as [<- | Hne].
  - rewrite Ascii.eqb_refl. now destruct s.
  - symmetry. apply Ascii.eqb_neq. congruence.
Qed.

Lemma no_slash_cons c s :
  no_slash (String c s) = negb (Ascii.eqb c "/") && no_slash s.
Proof.
  unfold no_slash. cbn [PyStr.contains]. rewrite prefix_slash.
  now rewrite negb_orb.
Qed.

(** The segments of a path do not contain the separator. *)
Lemma split_no_slash s : Forall (fun part => no_slash part = true) (PyStr.split "/" s).
Proof.
  induction s as [| c s IH]; cbn [PyStr.split]; [now repeat constructor |].
  destruct (Ascii.eqb c "/") eqn:E; [constructor; [reflexivity | exact IH] |].
  destruct (PyStr.split "/" s) as [| h t]; [repeat constructor |].
  - rewrite no_slash_cons, E. reflexivity.
  - inversion IH as [| ? ? Hh Ht]; subst. constructor; [| exact Ht].
    now rewrite no_slash_cons, E.
Qed.

Lemma split_segment x rest :
  no_slash x = true ->
  PyStr.split "/" (x +:+ String "/" rest) = x :: PyStr.split "/" rest.
Proof.
  induction x as [| c x IH]; intros Hx; [reflexivity |].
  rewrite no_slash_cons in Hx. apply andb_true_iff in Hx as [Hc Hx].
  apply negb_true_iff in Hc.
  change (String c x +:+ String "/" rest)
    with (String c (x +:+ String "/" rest)).
  cbn [PyStr.split]. rewrite Hc. now rewrite IH.
Qed.

Lemma split_single x : no_slash x = true -> PyStr.split "/" x = [x].
Proof.
  induction x as [| c x IH]; intros Hx; [reflexivity |].
  rewrite no_slash_cons in Hx. apply andb_true_iff in Hx as [Hc Hx].
  apply negb_true_iff in Hc. cbn [PyStr.split]. rewrite Hc. now rewrite IH.
Qed.

(** Splitting the join of segments without separator gives the segments
    back. *)
Lemma split_join parts :
  parts <> [] ->
  Forall (fun part => no_slash part = true) parts ->
  PyStr.split "/" (PyStr.join "/" parts) = parts.
Proof.
  induction parts as [| x parts IH]; intros Hne Hall; [congruence |].
  inversion Hall as [| ? ? Hx Hrest]; subst.
  destruct parts as [| y parts'].
  - cbn. now apply split_single.
  - rewrite join_cons by discriminate.
    change (x +:+ "/" +:+ PyStr.join "/" (y :: parts'))
      with (x +:+ String "/" (PyStr.join "/" (y :: parts'))).
    rewrite split_segment by exact Hx. now rewrite IH.
Qed.

Context `{lib : PyLib}.

Lemma placeholder_no_slash part :
  no_slash part = true -> no_slash (placeholder part) = true.
Proof. unfold placeholder. now destruct (qualifies part). Qed.

Lemma placeholder_unqualified part : qualifies (placeholder part) = false.
Proof.
  unfold placeholder.
  destruct (qualifies part) eqn:E; [apply qualifies_placeholder | exact E].
Qed.

Lemma placeholder_fixed part : placeholder (placeholder part) = placeholder part.
Proof.
  unfold placeholder at 1. now rewrite placeholder_unqualified.
Qed.

Lemma placeholder_empty part : placeholder part = "" <-> part = "".
Proof.
  unfold placeholder. destruct (qualifies part) eqn:E.
  - split; [discriminate | intros ->; rewrite qualifies_empty in E; discriminate].
  - tauto.
Qed.

Lemma map_placeholder_unqualified parts :
  Forall (fun q => qualifies q = false) parts -> map placeholder parts = parts.
Proof.
  induction 1 as [| q parts Hq _ IH]; cbn; [reflexivity |].
  unfold placeholder at 1. now rewrite Hq, IH.
Qed.

End SplitJoin.

(* ===================================================================== *)
(** * Further properties of path normalisation *)
(* ===================================================================== *)

Section NormalisationShape.

Context `{lib : PyLib}.

(** When no segment of the path is all digits or uuid-like, the normalised
    path is the path of the URL, character for character, and there is no
    path parameter. *)
Theorem normalize_path_keeps_plain_path :
  forall (url : string) (parsed : ParseResult),
    urlparse url = Return parsed ->
    Forall (fun part => isdigit part || uuid_like part = false)
           (PyStr.split "/" (url_path parsed)) ->
    normalize_path url
    = Return (url_scheme parsed +:+ "://" +:+ url_netloc parsed,
              url_path parsed, []).
Proof.
  intros url parsed Hu Hplain.
  rewrite normalize_path_closed_form, Hu. cbv zeta.
  assert (Hf : first_failure (PyStr.split "/" (url_path parsed)) = None).
  { apply first_failure_None. eapply List.Forall_impl; [| exact Hplain].
    intros part Hq Hd. cbv beta in Hq. rewrite Hd in Hq. discriminate Hq. }
  rewrite Hf, (map_placeholder_unqualified _ Hplain), join_split.
  now rewrite (last_param_unqualified _ Hplain).
Qed.

(** Once [urlparse] has returned, [normalize_path] returns exactly when
    [int] returns on every all-digit segment.  The normalised path it
    returns has the segments of the original path, one for one: a
    qualifying segment is replaced by the placeholder, every other segment,
    the empty ones included, stays where it is. *)
Theorem normalize_path_keeps_segments :
  forall (url : string) (parsed : ParseResult),
    urlparse url = Return parsed ->
    ((exists value, normalize_path url = Return value)
     <-> Forall (fun part =>
                   isdigit part = true -> exists example, int part = Return example)
                (PyStr.split "/" (url_path parsed)))
    /\ forall (origin normalized_path : string) (params : dict Param),
         normalize_path url = Return (origin, normalized_path, params) ->
         origin = url_scheme parsed +:+ "://" +:+ url_netloc parsed
         /\ PyStr.split "/" normalized_path
            = map (fun part =>
                     if isdigit part || uuid_like part then "{id}" else part)
                  (PyStr.split "/" (url_path parsed))
         /\ length (PyStr.split "/" normalized_path)
            = length (PyStr.split "/" (url_path parsed))
         /\ map (String.eqb "") (PyStr.split "/" normalized_path)
            = map (String.eqb "") (PyStr.split "/" (url_path parsed)).
Proof.
  intros url parsed Hu.
  rewrite normalize_path_closed_form, Hu. cbv zeta.
  set (parts := PyStr.split "/" (url_path parsed)).
  assert (Hsplit : PyStr.split "/" (PyStr.join "/" (map placeholder parts))
                   = map placeholder parts).
  { apply split_join.
    - pose proof (split_not_nil "/" (url_path parsed)) as Hnil.
      fold parts in Hnil. now destruct parts.
    - apply Forall_map.
      eapply List.Forall_impl; [| apply split_no_slash].
      intros part. apply placeholder_no_slash. }
  split.
  - pose proof (first_failure_None parts) as Hc. unfold converts in Hc.
    rewrite <- Hc.
    destruct (first_failure parts); split; try discriminate; eauto.
    intros (value & [=]).
  - intros origin normalized_path params.
    destruct (first_failure parts); [discriminate |].
    intros [= <- <- <-]. split; [reflexivity |].
    rewrite Hsplit. split; [reflexivity |].
    split; [apply length_map |].
    rewrite map_map. apply map_ext. intros part.
    destruct (String.eqb_spec "" part) as [<- | Hne].
    + assert (H0 : placeholder "" = "") by now apply placeholder_empty.
      now rewrite H0.
    + apply String.eqb_neq. intros Heq. apply Hne. symmetry.
      now apply placeholder_empty.
Qed.

(** Normalising is idempotent: a URL whose path is already the normalised
    path of some URL keeps that path and yields no path parameter. *)
Theorem normalize_path_idempotent :
  forall (url url' : string) (parsed' : ParseResult)
         (origin normalized_path : string) (params : dict Param),
    normalize_path url = Return (origin, normalized_path, params) ->
    urlparse url' = Return parsed' ->
    url_path parsed' = normalized_path ->
    normalize_path url'
    = Return (url_scheme parsed' +:+ "://" +:+ url_netloc parsed',
              normalized_path, []).
Proof.
  intros url url' parsed' origin npath params Hn Hu' Hpath.
  rewrite normalize_path_closed_form in Hn.
  destruct (urlparse url) as [parsed | message]; [| discriminate].
  cbv zeta in Hn.
  set (parts := PyStr.split "/" (url_path parsed)) in *.
  destruct (first_failure parts); [discriminate |].
  injection Hn as _ Hnp _.
  assert (Hsplit : PyStr.split "/" npath = map placeholder parts).
  { rewrite <- Hnp. apply split_join.
    - pose proof (split_not_nil "/" (url_path parsed)) as Hnil.
      fold parts in Hnil. now destruct parts.
    - apply Forall_map.
      eapply List.Forall_impl; [| apply split_no_slash].
      intros part. apply placeholder_no_slash. }
  assert (Hplain : Forall (fun q => qualifies q = false) (PyStr.split "/" npath)).
  { rewrite Hsplit. apply Forall_map. apply List.Forall_forall.
    intros part _. apply placeholder_unqualified. }
  assert (Hf : first_failure (PyStr.split "/" npath) = None).
  { apply first_failure_None. eapply List.Forall_impl; [| exact Hplain].
    intros part Hq Hd. unfold qualifies in Hq. rewrite Hd in Hq.
    discriminate Hq. }
  rewrite normalize_path_closed_form, Hu', Hpath. cbv zeta.
  rewrite Hf, (map_placeholder_unqualified _ Hplain), join_split.
  now rewrite (last_param_unqualified _ Hplain).
Qed.

End NormalisationShape.

(* ===================================================================== *)
(** * Further properties of the parser *)
(* ===================================================================== *)

Section ParserShape.

Context `{lib : PyLib}.

Lemma existsb_eqb_mem {V : Type} name (d : dict V) :
  existsb (String.eqb name) (PyDict.keys d) = PyDict.mem name d.
Proof.
  destruct (PyDict.mem name d) eqn:E.
  - apply existsb_eqb_In, mem_true_iff, E.
  - apply not_true_is_false. intros H.
    apply existsb_eqb_In, mem_true_iff in H. congruence.
Qed.

Lemma distinct_keys_snoc keys k :
  distinct_keys (keys ++ [k])
  = if existsb (String.eqb k) (distinct_keys keys)
    then distinct_keys keys
    else distinct_keys keys ++ [k].
Proof. unfold distinct_keys. now rewrite fold_left_app. Qed.

Lemma values_for_snoc name pairs n v :
  values_for name (pairs ++ [(n, v)])
  = values_for name pairs ++ (if String.eqb name n then [v] else []).
Proof.
  unfold values_for. rewrite filter_app, map_app. cbn.
  now destruct (String.eqb name n).
Qed.

(** The first value paired with a name is the head of its values. *)
Lemma get_head_values_for name (pairs : list (string * string)) :
  PyDict.get name pairs = head (values_for name pairs).
Proof.
  unfold values_for. induction pairs as [| [k v] pairs IH]; cbn; [reflexivity |].
  destruct (String.eqb name k); [reflexivity | exact IH].
Qed.

(** [parse_qs] binds each name, at the place of its first appearance, to
    the list of its values. *)
Lemma parse_qs_bindings qs :
  PyDict.keys (parse_qs qs) = distinct_keys (map fst (parse_qsl qs))
  /\ forall name,
       PyDict.get name (parse_qs qs)
       = match values_for name (parse_qsl qs) with
         | [] => None
         | vs => Some vs
         end.
Proof.
  unfold parse_qs. generalize (parse_qsl qs) as pairs.
  induction pairs as [| [n v] pairs [IHk IHg]] using rev_ind.
  - split; [reflexivity | intros name; reflexivity].
  - rewrite fold_left_app. cbn [fold_left].
    set (d := fold_left _ pairs PyDict.empty) in *.
    assert (Hset : forall x,
               PyDict.keys (PyDict.set n x d)
               = distinct_keys (map fst (pairs ++ [(n, v)]))).
    { intros x. rewrite keys_set, map_app. cbn [map fst].
      rewrite distinct_keys_snoc, <- IHk, existsb_eqb_mem.
      reflexivity. }
    split.
    + destruct (PyDict.get n d); apply Hset.
    + intros name. rewrite values_for_snoc.
      destruct (String.eqb_spec name n) as [-> | Hne].
      * specialize (IHg n). destruct (PyDict.get n d) as [vs |];
          rewrite get_set_eq; destruct (values_for n pairs); try discriminate.
        -- injection IHg as ->. reflexivity.
        -- reflexivity.
      * rewrite app_nil_r, <- IHg.
        destruct (PyDict.get n d); now rewrite get_set_ne by congruence.
Qed.

(** The query parameters are one per distinct key among the pairs that
    [parse_qsl] gives for the query string, in the order in which these keys
    first appear; each is a string parameter without the key [required],
    and its example is the value of the first pair with its key.  Which
    fields of the query string become pairs is the library's decision: with
    its default arguments a field without a value gives no pair. *)
Theorem query_parameters_first_value :
  forall (request : Request) (parsed : Parsed) (parsed_url : ParseResult),
    parse_network_request request = Some parsed ->
    urlparse (request_url request) = Return parsed_url ->
    let pairs := parse_qsl (url_query parsed_url) in
    query_params parsed
    = map (fun name =>
             {| p_name := name;
                p_in := "query";
                p_required := None;
                p_schema := typed "string";
                p_example := JStr (default "" (PyDict.get name pairs)) |})
          (distinct_keys (map fst pairs)).
Proof.
  intros request parsed parsed_url Hp Hu pairs.
  apply parse_network_request_fields in Hp
    as (_ & _ & _ & parsed_url' & Hu' & _ & _ & -> & _).
  rewrite Hu in Hu'. injection Hu' as <-.
  destruct (parse_qs_bindings (url_query parsed_url)) as [Hk Hg].
  fold pairs in Hk, Hg. rewrite <- Hk.
  unfold PyDict.items, PyDict.keys. rewrite map_map.
  apply map_ext_in. intros [name vs] Hin. cbn [fst].
  pose proof (parse_qs_keys_distinct (url_query parsed_url)) as Hnd.
  apply (In_get_Some name vs _ Hnd) in Hin.
  rewrite Hg in Hin. rewrite get_head_values_for.
  destruct (values_for name pairs) as [| v vs']; [discriminate |].
  injection Hin as <-. reflexivity.
Qed.

(** The responses the parser builds: the generic entry, or one entry under
    the decimal status code with the schema of the parsed body. *)
Lemma parse_response_shape request response_spec :
  parse_response request = Return response_spec ->
  response_spec = generic_responses
  \/ exists status response_json,
       response_spec
       = [(PyStr.str_of_int status,
           {| ro_description := "Successful response";
              ro_content :=
                Some (json_content
                        (infer_schema_from_value response_json false)) |})].
Proof.
  unfold parse_response.
  destruct (resp_body _) as [body |]; [| intros [= <-]; now left].
  destruct (PyStr.truthy body); [| intros [= <-]; now left].
  destruct (PyStr.contains _ _); [| intros [= <-]; now left].
  destruct (json_loads body) as [j | | message];
    [| intros [= <-]; now left | discriminate].
  destruct (str _) as [key | message] eqn:Hkey; [| discriminate].
  apply str_is_decimal in Hkey. cbn. intros [= <-]. right. subst key. eauto.
Qed.

Lemma parse_request_body_shape request body :
  parse_request_body request = Return (Some body) ->
  exists body_json,
    body = {| rb_content :=
                json_content (infer_schema_from_value body_json false) |}.
Proof.
  unfold parse_request_body.
  destruct (r_postData request) as [d |]; [| discriminate].
  destruct (PyStr.truthy d); [| discriminate].
  destruct (PyStr.contains _ _); [| discriminate].
  destruct (json_loads d) as [j | | message]; [| discriminate | discriminate].
  intros [= <-]. eauto.
Qed.

(** What the parser prints.  A call prints nothing, or the single line of
    its handler, and then it returns [None].  A static asset is skipped
    without a line, and so is an accepted exchange.  When the URL is not
    that of a static asset and [urlparse] raises, the line carries the text
    of that exception; the same holds for [int] on the first all-digit
    segment it rejects, once [urlparse] has returned. *)
Theorem parser_reports_exceptions :
  forall request : Request,
    (parse_network_request_stderr request = []
     \/ exists message,
          parse_network_request_stderr request
          = ["Error parsing request: " +:+ message]
          /\ parse_network_request request = None)
    /\ (is_static_asset (request_url request) = true ->
        parse_network_request request = None
        /\ parse_network_request_stderr request = [])
    /\ (forall parsed,
          parse_network_request request = Some parsed ->
          parse_network_request_stderr request = [])
    /\ (forall message,
          is_static_asset (request_url request) = false ->
          urlparse (request_url request) = Raise message ->
          parse_network_request_stderr request
          = ["Error parsing request: " +:+ message])
    /\ (forall parsed_url pre part post message,
          is_static_asset (request_url request) = false ->
          urlparse (request_url request) = Return parsed_url ->
          PyStr.split "/" (url_path parsed_url) = pre ++ part :: post ->
          Forall (fun q => isdigit q = true -> exists n, int q = Return n) pre ->
          isdigit part = true ->
          int part = Raise message ->
          parse_network_request_stderr request
          = ["Error parsing request: " +:+ message]).
Proof.
  intros request. split; [| split; [| split; [| split]]].
  - unfold parse_network_request_stderr, parse_network_request.
    destruct (try_parse_network_request request) as [value | message];
      [now left | right; now exists message].
  - apply parse_network_request_static.
  - intros parsed.
    unfold parse_network_request_stderr, parse_network_request.
    now destruct (try_parse_network_request request).
  - intros message Hs Hu. unfold parse_network_request_stderr.
    now rewrite try_parse_network_request_closed_form, Hs, Hu.
  - intros parsed_url pre part post message Hs Hu Hparts Hpre Hd Hi.
    unfold parse_network_request_stderr.
    rewrite try_parse_network_request_closed_form, Hs, Hu. cbv zeta.
    rewrite Hparts.
    assert (Hf : first_failure (pre ++ part :: post) = Some message).
    { clear Hparts. induction Hpre as [| q pre Hq _ IH]; cbn [app first_failure].
      - now rewrite Hd, Hi.
      - destruct (isdigit q) eqn:Hdq; [| exact IH].
        destruct (Hq eq_refl) as (n & ->). exact IH. }
    now rewrite Hf.
Qed.

End ParserShape.

(* ===================================================================== *)
(** * Further properties of the stored operations *)
(* ===================================================================== *)

Section OperationShape.

Context `{lib : PyLib}.

(** In the output document, the summary, the responses and the request body
    of every operation are those of the first exchange, in input order, that
    the parser turned into that path and method; later exchanges of the pair
    do not change them. *)
Theorem first_exchange_decides_operation :
  forall (requests : list Request) (title version p m : string)
         (op : Operation),
    lookup_op p m (paths (generate_openapi_spec requests title version))
    = Some op ->
    exists before request after parsed,
      requests = before ++ request :: after
      /\ (forall earlier, In earlier before -> ~ produces p m earlier)
      /\ parse_network_request request = Some parsed
      /\ path parsed = p /\ method parsed = m
      /\ op_summary op = upper m +:+ " " +:+ p
      /\ op_responses op = responses parsed
      /\ op_requestBody op = request_body parsed.
Proof.
  intros requests title version p m op Hl.
  rewrite lookup_op_document in Hl.
  now apply first_exchange_governs.
Qed.

(** Every operation of the output document has exactly one response entry,
    described as ["Successful response"] whatever the status: either the
    entry ["200"] without content, or an entry under the decimal status code
    of the first exchange of the pair whose JSON schema carries no example
    at any depth. *)
Theorem operation_has_one_response :
  forall (requests : list Request) (title version p m : string)
         (op : Operation),
    lookup_op p m (paths (generate_openapi_spec requests title version))
    = Some op ->
    exists key response,
      op_responses op = [(key, response)]
      /\ ro_description response = "Successful response"
      /\ ((key = "200" /\ ro_content response = None)
          \/ exists status schema,
               key = PyStr.str_of_int status
               /\ ro_content response
                  = Some [("application/json", {| mt_schema := schema |})]
               /\ has_example schema = false).
Proof.
  intros requests title version p m op Hl.
  rewrite lookup_op_document in Hl.
  apply first_exchange_governs in Hl
    as (_ & request & _ & parsed & _ & _ & Hp & _ & _ & _ & -> & _).
  apply parse_network_request_fields in Hp as (_ & Hresp & _).
  destruct (parse_response_shape request _ Hresp) as [-> | (status & j & ->)].
  - eexists _, _. split; [reflexivity |]. split; [reflexivity |]. now left.
  - eexists _, _. split; [reflexivity |]. split; [reflexivity |]. right.
    exists status, (infer_schema_from_value j false).
    repeat split. apply infer_no_example.
Qed.

(** Every request body of the output document is a single
    [application/json] entry whose schema carries no example at any
    depth. *)
Theorem request_body_without_examples :
  forall (requests : list Request) (title version p m : string)
         (op : Operation) (body : RequestBody),
    lookup_op p m (paths (generate_openapi_spec requests title version))
    = Some op ->
    op_requestBody op = Some body ->
    exists schema,
      rb_content body = [("application/json", {| mt_schema := schema |})]
      /\ has_example schema = false.
Proof.
  intros requests title version p m op body Hl Hb.
  rewrite lookup_op_document in Hl.
  apply first_exchange_governs in Hl
    as (_ & request & _ & parsed & _ & _ & Hp & _ & _ & _ & _ & Hrb).
  apply parse_network_request_fields in Hp as (Hrb' & _).
  rewrite Hrb in Hb. rewrite Hb in Hrb'.
  destruct (parse_request_body_shape request body Hrb') as (j & ->).
  exists (infer_schema_from_value j false).
  split; [reflexivity | apply infer_no_example].
Qed.

End OperationShape.

(* ===================================================================== *)
(** * Further properties of the merge *)
(* ===================================================================== *)

Section MergeShape.

Lemma set_same {V : Type} k (v : V) d :
  PyDict.get k d = Some v -> PyDict.set k v d = d.
Proof.
  induction d as [| [k' v'] d IH]; cbn; [discriminate |].
  destruct (String.eqb k k') eqn:E.
  - now intros [= ->].
  - intros H. now rewrite IH.
Qed.

Lemma Forall_set {V : Type} (Q : V -> Prop) k v (d : dict V) :
  Forall (fun item => Q (snd item)) d -> Q v ->
  Forall (fun item => Q (snd item)) (PyDict.set k v d).
Proof.
  intros Hd Hv. apply List.Forall_forall. intros [k' v'] Hin.
  apply In_set in Hin as [[_ ->] | Hin]; [exact Hv |].
  rewrite List.Forall_forall in Hd. now apply (Hd (k', v')).
Qed.

Lemma add_missing_keys parameters :
  forall (d : dict Param) k,
    In k (PyDict.keys (add_missing d parameters))
    <-> In k (PyDict.keys d) \/ In k (map p_name parameters).
Proof.
  unfold add_missing.
  induction parameters as [| p ps IH]; intros d k; cbn [fold_left map In];
    [tauto |].
  rewrite IH. destruct (PyDict.mem (p_name p) d) eqn:E.
  - apply mem_true_iff in E. intuition congruence.
  - rewrite In_keys_set. intuition congruence.
Qed.

Lemma index_by_name_keys stored k :
  In k (PyDict.keys (index_by_name stored)) <-> In k (map p_name stored).
Proof.
  unfold index_by_name.
  rewrite (bound_keys p_name (fun p => p) stored PyDict.empty k).
  cbn. tauto.
Qed.

Lemma add_missing_absorbed parameters :
  forall d : dict Param,
    (forall q, In q parameters -> In (p_name q) (PyDict.keys d)) ->
    add_missing d parameters = d.
Proof.
  unfold add_missing.
  induction parameters as [| p ps IH]; intros d Hall; cbn; [reflexivity |].
  assert (Hp : PyDict.mem (p_name p) d = true)
    by (apply mem_true_iff, Hall; now left).
  rewrite Hp. apply IH. intros q Hq. apply Hall. now right.
Qed.

Lemma index_of_values d :
  keyed_by_name d -> index_by_name (PyDict.values d) = d.
Proof.
  intros Hd. pose proof (keyed_by_name_names d Hd) as Hn.
  destruct Hd as [Hnd Hk]. unfold index_by_name.
  rewrite index_by_name_distinct.
  - unfold PyDict.empty, PyDict.values. cbn [app]. rewrite map_map.
    rewrite <- (map_id d) at 2. apply map_ext_in. intros [k p] Hin.
    rewrite List.Forall_forall in Hk. specialize (Hk _ Hin). cbn in *.
    now rewrite Hk.
  - split; constructor.
  - unfold PyDict.empty. cbn [PyDict.keys map app]. now rewrite Hn.
Qed.

(** The names of a merged list are the stored names and the names of the
    repeat: no name is lost and none is invented. *)
Lemma merged_names stored parameters name :
  In name (map p_name (stored_parameters (merge_parameters stored parameters)))
  <-> In name (map p_name (stored_parameters stored))
      \/ In name (map p_name parameters).
Proof.
  unfold merge_parameters. fold (stored_parameters stored).
  set (d := add_missing (index_by_name (stored_parameters stored)) parameters).
  assert (Hd : keyed_by_name d).
  { apply keyed_by_name_add_missing, keyed_by_name_index. split; constructor. }
  assert (Hkeys : forall k,
             In k (PyDict.keys d)
             <-> In k (map p_name (stored_parameters stored))
                 \/ In k (map p_name parameters)).
  { intros k. subst d. rewrite add_missing_keys, index_by_name_keys. tauto. }
  destruct (PyDict.truthy d) eqn:Ht.
  - unfold stored_parameters at 1. cbn [op_parameters set_parameters].
    unfold_default. rewrite (keyed_by_name_names d Hd). apply Hkeys.
  - destruct d; [| discriminate]. specialize (Hkeys name). cbn in Hkeys. tauto.
Qed.

(** Merging the same parameters a second time changes nothing. *)
Lemma merge_parameters_idempotent :
  forall (stored : Operation) (parameters : list Param),
    merge_parameters (merge_parameters stored parameters) parameters
    = merge_parameters stored parameters.
Proof.
  intros stored parameters.
  unfold merge_parameters at 2 3. fold (stored_parameters stored).
  set (d := add_missing (index_by_name (stored_parameters stored)) parameters).
  assert (Hd : keyed_by_name d).
  { apply keyed_by_name_add_missing, keyed_by_name_index. split; constructor. }
  destruct (PyDict.truthy d) eqn:Ht.
  - unfold merge_parameters. cbn [op_parameters set_parameters].
    unfold_default. fold index_by_name. rewrite (index_of_values d Hd).
    rewrite add_missing_absorbed.
    + rewrite Ht. reflexivity.
    + intros q Hq. subst d. apply add_missing_keys. right. now apply in_map.
  - unfold merge_parameters. fold (stored_parameters stored). fold d.
    now rewrite Ht.
Qed.

End MergeShape.

(* ===================================================================== *)
(** * Further properties of the aggregation *)
(* ===================================================================== *)

Section AggregationShape.

Context `{lib : PyLib}.

(** In every state of the loop, no method is repeated within a path. *)
Lemma method_keys_distinct requests :
  Forall (fun item => List.NoDup (PyDict.keys (snd item)))
         (fst (aggregate requests)).
Proof.
  induction requests as [| request requests IH] using rev_ind;
    [constructor |].
  rewrite aggregate_snoc.
  destruct (aggregate requests) as [paths servers]. cbn [fst] in IH.
  unfold aggregate_step.
  destruct (parse_network_request request) as [parsed |]; [| exact IH].
  unfold defaultdict_get.
  destruct (PyDict.get (path parsed) paths) as [methods |] eqn:Hget.
  - assert (Hm : List.NoDup (PyDict.keys methods)).
    { apply get_Some_In in Hget. rewrite List.Forall_forall in IH.
      apply (IH _ Hget). }
    destruct (PyDict.get (method parsed) methods); cbn [fst];
      apply (Forall_set (fun ms => List.NoDup (PyDict.keys ms)));
      auto using NoDup_keys_set.
  - cbn [PyDict.get PyDict.empty fst].
    apply (Forall_set (fun ms => List.NoDup (PyDict.keys ms))).
    + apply (Forall_set (fun ms => List.NoDup (PyDict.keys ms)));
        [exact IH | constructor].
    + repeat constructor. intros [].
Qed.

(** The fixed header of the document, and when it is empty: the server list
    is empty exactly when the parser skipped every exchange (in particular
    on the empty input), and so is the path map. *)
Theorem document_header_and_emptiness :
  forall (requests : list Request) (title version : string),
    let doc := generate_openapi_spec requests title version in
    openapi doc = "3.0.0"
    /\ info doc
       = {| info_title := title;
            info_version := version;
            info_description :=
              "API specification generated from Chrome DevTools network requests" |}
    /\ (servers doc = [] <-> Forall skipped requests)
    /\ (paths doc = [] <-> Forall skipped requests).
Proof.
  intros requests title version doc.
  assert (Hhead : openapi doc = "3.0.0"
                  /\ info doc
                     = {| info_title := title;
                          info_version := version;
                          info_description :=
                            "API specification generated from Chrome DevTools network requests" |}).
  { subst doc. unfold generate_openapi_spec.
    destruct (aggregate requests). now split. }
  destruct Hhead as [H1 H2]. split; [exact H1 | split; [exact H2 |]].
  assert (Hnone : Forall skipped requests
                  <-> forall request parsed,
                        In request requests ->
                        parse_network_request request <> Some parsed).
  { rewrite List.Forall_forall. unfold skipped. split.
    - intros H request parsed Hin. rewrite (H request Hin). discriminate.
    - intros H request Hin.
      destruct (parse_network_request request) eqn:E; [| reflexivity].
      exfalso. now apply (H request p). }
  split.
  - rewrite Hnone. split.
    + intros Hs request parsed Hin Hp.
      assert (Ho : In (base_url parsed) (map server_url (servers doc))).
      { apply document_servers, servers_origins. now exists request, parsed. }
      rewrite Hs in Ho. destruct Ho.
    + intros Hall. destruct (servers doc) as [| server rest] eqn:E;
        [reflexivity | exfalso].
      assert (Ho : In (server_url server) (map server_url (servers doc)))
        by (rewrite E; now left).
      apply document_servers, servers_origins in Ho
        as (request & parsed & Hin & Hp & _).
      now apply (Hall request parsed).
  - rewrite Hnone. split.
    + intros Hs request parsed Hin Hp.
      assert (Hk : In (path parsed) (PyDict.keys (paths doc))).
      { apply document_path_keys, path_keys_produced. now exists request, parsed. }
      rewrite Hs in Hk. destruct Hk.
    + intros Hall. destruct (paths doc) as [| [p methods] rest] eqn:E;
        [reflexivity | exfalso].
      assert (Hk : In p (PyDict.keys (paths doc))) by (rewrite E; now left).
      apply document_path_keys, path_keys_produced in Hk
        as (request & parsed & Hin & Hp & _).
      now apply (Hall request parsed).
Qed.

#[global] Instance str_le_antisymmetric : AntiSymm (=) str_le.
Proof. intros a b. apply String.leb_antisym. Qed.

(** The server list and the list of paths of the document do not depend on
    the order of the input exchanges. *)
Theorem servers_and_paths_ignore_input_order :
  forall (requests requests' : list Request) (title version : string),
    Permutation requests requests' ->
    servers (generate_openapi_spec requests title version)
    = servers (generate_openapi_spec requests' title version)
    /\ PyDict.keys (paths (generate_openapi_spec requests title version))
       = PyDict.keys (paths (generate_openapi_spec requests' title version)).
Proof.
  intros requests requests' title version Hperm. split.
  - assert (Hs : snd (aggregate requests) = snd (aggregate requests')).
    { apply set_eq. intros origin. rewrite !servers_origins.
      split; intros (request & parsed & Hin & H);
        exists request, parsed; (split; [| exact H]).
      - eapply Permutation_in; [exact Hperm | exact Hin].
      - eapply Permutation_in; [symmetry; exact Hperm | exact Hin]. }
    unfold generate_openapi_spec.
    destruct (aggregate requests), (aggregate requests'). cbn in *. now subst.
  - rewrite !generate_paths.
    destruct (sorted_items_spec _ (path_keys_distinct requests))
      as (Hp & Hnd & _).
    destruct (sorted_items_spec _ (path_keys_distinct requests'))
      as (Hp' & Hnd' & _).
    apply (StronglySorted_unique str_le).
    + apply sorted_keys, StronglySorted_merge_sort; apply _.
    + apply sorted_keys, StronglySorted_merge_sort; apply _.
    + apply Permutation.NoDup_Permutation; [exact Hnd | exact Hnd' |].
      intros p. fold (sorted_items (fst (aggregate requests))).
      rewrite <- !generate_paths with (title := title) (version := version).
      rewrite !document_path_keys, !path_keys_produced.
      split; intros (request & parsed & Hin & H);
        exists request, parsed; (split; [| exact H]).
      * eapply Permutation_in; [exact Hperm | exact Hin].
      * eapply Permutation_in; [symmetry; exact Hperm | exact Hin].
Qed.

(** No path of the document is left without a method.  The methods of a
    path are pairwise distinct, free of upper-case letters, and each one is
    the method of some accepted exchange with that path. *)
Theorem path_entries_are_populated :
  forall (requests : list Request) (title version p : string)
         (methods : dict Operation),
    PyDict.get p (paths (generate_openapi_spec requests title version))
    = Some methods ->
    methods <> []
    /\ List.NoDup (PyDict.keys methods)
    /\ forall m,
         In m (PyDict.keys methods) ->
         is_lowercase m = true
         /\ exists request, In request requests /\ produces p m request.
Proof.
  intros requests title version p methods Hget.
  assert (Hl : forall m,
             lookup_op p m (fst (aggregate requests)) = PyDict.get m methods).
  { intros m. rewrite <- lookup_op_document with (title := title) (version := version).
    unfold lookup_op. now rewrite Hget. }
  assert (Hprod : forall m,
             In m (PyDict.keys methods) ->
             exists request, In request requests /\ produces p m request).
  { intros m Hm. apply stored_iff_produced. rewrite Hl.
    intros Hn. apply get_None_keys in Hn. now apply Hn. }
  split; [| split].
  - intros ->.
    assert (Hk : In p (PyDict.keys (paths (generate_openapi_spec requests title version)))).
    { apply get_Some_In in Hget. change p with (fst (p, @nil (string * Operation))).
      now apply in_map. }
    apply document_path_keys, path_keys_produced in Hk
      as (request & parsed & Hin & Hp & Hpath).
    assert (Hne : lookup_op p (method parsed) (fst (aggregate requests)) <> None).
    { apply stored_iff_produced. exists request. split; [exact Hin |].
      now exists parsed. }
    now rewrite Hl in Hne.
  - apply get_Some_In in Hget. rewrite generate_paths in Hget.
    destruct (sorted_items_spec _ (path_keys_distinct requests)) as (Hp & _ & _).
    apply (Permutation_in _ Hp) in Hget.
    pose proof (method_keys_distinct requests) as Hall.
    rewrite List.Forall_forall in Hall. apply (Hall _ Hget).
  - intros m Hm. split; [| now apply Hprod].
    destruct (Hprod m Hm) as (request & _ & parsed & Hp & _ & <-).
    apply parse_network_request_fields in Hp as (_ & _ & -> & _).
    apply lower_is_lowercase.
Qed.

(** Appending an exchange to the input changes at most the operation of its
    own path and method: every other operation of the document stays as it
    was. *)
Theorem appended_exchange_touches_one_operation :
  forall (requests : list Request) (request : Request)
         (title version p m : string),
    ~ produces p m request ->
    lookup_op p m
      (paths (generate_openapi_spec (requests ++ [request]) title version))
    = lookup_op p m (paths (generate_openapi_spec requests title version)).
Proof.
  intros requests request title version p m Hnot.
  rewrite !lookup_op_document, aggregate_snoc.
  destruct (aggregate requests) as [ps ss].
  destruct (parse_network_request request) as [parsed |] eqn:Hp.
  - destruct (aggregate_step_parsed ps ss request parsed Hp)
      as (ps' & -> & _ & Hother & _).
    cbn [fst]. apply Hother.
    destruct (String.eqb_spec p (path parsed)) as [-> | Hpne]; [| now left].
    destruct (String.eqb_spec m (method parsed)) as [-> | Hmne]; [| now right].
    exfalso. apply Hnot. now exists parsed.
  - now rewrite aggregate_step_skip.
Qed.

(** A step on an exchange whose pair is stored, whose stored operation is
    left as it is by the merge, and whose origin is known, changes
    nothing. *)
Lemma aggregate_step_absorbed ps ss request parsed stored :
  parse_network_request request = Some parsed ->
  lookup_op (path parsed) (method parsed) ps = Some stored ->
  merge_parameters stored (build_parameters parsed) = stored ->
  base_url parsed ∈ ss ->
  aggregate_step (ps, ss) request = (ps, ss).
Proof.
  intros Hp Hl Hfix Hin. unfold aggregate_step. rewrite Hp.
  unfold defaultdict_get, lookup_op in *.
  destruct (PyDict.get (path parsed) ps) as [methods |] eqn:Hget;
    [| discriminate].
  rewrite Hl, Hfix. rewrite (set_same _ _ _ Hl), (set_same _ _ _ Hget).
  f_equal. apply set_eq. intros x. rewrite elem_of_union, elem_of_singleton.
  intuition congruence.
Qed.

(** From its second occurrence on, a repeated exchange is absorbed: the
    document for an input that ends with the same exchange three times is
    the document for the input that ends with it twice. *)
Theorem third_occurrence_changes_nothing :
  forall (requests : list Request) (request : Request)
         (title version : string),
    generate_openapi_spec (requests ++ [request; request; request]) title version
    = generate_openapi_spec (requests ++ [request; request]) title version.
Proof.
  intros requests request title version.
  assert (Hagg : aggregate (requests ++ [request; request; request])
                 = aggregate (requests ++ [request; request])).
  { change [request; request; request] with ([request; request] ++ [request]).
    rewrite app_assoc, aggregate_snoc.
    change [request; request] with ([request] ++ [request]).
    rewrite app_assoc, aggregate_snoc, aggregate_snoc.
    destruct (aggregate requests) as [ps0 ss0].
    destruct (parse_network_request request) as [parsed |] eqn:Hp;
      [| now rewrite !aggregate_step_skip].
    destruct (aggregate_step_parsed ps0 ss0 request parsed Hp)
      as (ps1 & -> & Hw1 & _).
    destruct (aggregate_step_parsed ps1 ({[base_url parsed]} ∪ ss0)
                request parsed Hp) as (ps2 & -> & Hw2 & _).
    unfold written in Hw2. rewrite Hw1 in Hw2.
    eapply aggregate_step_absorbed; [exact Hp | exact Hw2 | |].
    - apply merge_parameters_idempotent.
    - apply elem_of_union. left. now apply elem_of_singleton. }
  unfold generate_openapi_spec. now rewrite Hagg.
Qed.

(** The parameter names of an operation of the document are exactly the
    parameter names of the exchanges of its path and method: no name that
    was seen is lost, and no name is invented. *)
Theorem parameter_names_are_those_seen :
  forall (requests : list Request) (title version p m : string)
         (op : Operation),
    lookup_op p m (paths (generate_openapi_spec requests title version))
    = Some op ->
    forall name,
      In name (map p_name (stored_parameters op))
      <-> exists request parsed,
            In request requests
            /\ parse_network_request request = Some parsed
            /\ path parsed = p /\ method parsed = m
            /\ In name (map p_name (path_params parsed ++ query_params parsed)).
Proof.
  intros requests title version p m op Hl. rewrite lookup_op_document in Hl.
  revert p m op Hl.
  apply (aggregate_ind
           (fun requests ps _ =>
              forall p m op,
                lookup_op p m ps = Some op ->
                forall name,
                  In name (map p_name (stored_parameters op))
                  <-> exists request parsed,
                        In request requests
                        /\ parse_network_request request = Some parsed
                        /\ path parsed = p /\ method parsed = m
                        /\ In name (map p_name
                                        (path_params parsed ++ query_params parsed)))).
  - intros p m op. discriminate.
  - intros rs ps ss r _ IH Hp p m op Hl name. rewrite (IH p m op Hl). split.
    + intros (r' & parsed & Hin & H). exists r', parsed.
      split; [apply in_or_app; now left | exact H].
    + intros (r' & parsed & Hin & Hp' & H).
      apply in_app_or in Hin as [Hin | [<- | []]]; [| congruence].
      now exists r', parsed.
  - intros rs ps ss r parsed ps' Hagg IH Hp _ Hw Hother _ _ p m op Hl name.
    assert (Hext : (exists request parsed0,
                       In request (rs ++ [r])
                       /\ parse_network_request request = Some parsed0
                       /\ path parsed0 = p /\ method parsed0 = m
                       /\ In name (map p_name
                                       (path_params parsed0 ++ query_params parsed0)))
                   <-> (exists request parsed0,
                          In request rs
                          /\ parse_network_request request = Some parsed0
                          /\ path parsed0 = p /\ method parsed0 = m
                          /\ In name (map p_name
                                          (path_params parsed0 ++ query_params parsed0)))
                       \/ (path parsed = p /\ method parsed = m
                           /\ In name (map p_name (build_parameters parsed)))).
    { rewrite build_parameters_app. split.
      - intros (r' & parsed0 & Hin & Hp' & H).
        apply in_app_or in Hin as [Hin | [<- | []]].
        + left. now exists r', parsed0.
        + right. rewrite Hp in Hp'. injection Hp' as <-. exact H.
      - intros [(r' & parsed0 & Hin & H) | H].
        + exists r', parsed0. split; [apply in_or_app; now left | exact H].
        + exists r, parsed. split; [apply in_or_app; right; now left |].
          split; [exact Hp | exact H]. }
    rewrite Hext.
    destruct (String.eqb_spec p (path parsed)) as [-> | Hpne];
      [destruct (String.eqb_spec m (method parsed)) as [-> | Hmne] |].
    + rewrite Hw in Hl. injection Hl as <-. unfold written.
      destruct (lookup_op (path parsed) (method parsed) ps) as [stored |] eqn:Hs.
      * rewrite merged_names, (IH _ _ _ Hs). tauto.
      * destruct (build_operation_fields parsed) as (_ & _ & _ & ->).
        split; [intros H; right; auto |].
        intros [(r' & parsed0 & Hin & Hp' & Hpath & Hmeth & _) | (_ & _ & H)];
          [exfalso | exact H].
        assert (Hne : lookup_op (path parsed) (method parsed)
                                (fst (aggregate rs)) <> None).
        { apply stored_iff_produced. exists r'. split; [exact Hin |].
          now exists parsed0. }
        rewrite Hagg in Hne. cbn in Hne. congruence.
    + rewrite Hother in Hl by now right.
      rewrite (IH _ _ _ Hl). intuition congruence.
    + rewrite Hother in Hl by now left.
      rewrite (IH _ _ _ Hl). intuition congruence.
Qed.

End AggregationShape.

(* ===================================================================== *)
(** * The command line *)
(* ===================================================================== *)

Section CommandLine.

Lemma endswith_cons suffix c s :
  endswith suffix s = true -> endswith suffix (String c s) = true.
Proof. intros H. cbn [endswith]. rewrite H. apply orb_true_r. Qed.

Lemma endswith_app suffix t s :
  endswith suffix s = true -> endswith suffix (t +:+ s) = true.
Proof.
  intros H. induction t as [| c t IH]; [exact H |].
  change (String c t +:+ s) with (String c (t +:+ s)).
  now apply endswith_cons.
Qed.

Lemma endswith_split suffix s :
  endswith suffix s = true -> exists t, s = t +:+ suffix.
Proof.
  induction s as [| c s IH]; cbn [endswith]; intros H.
  - apply orb_true_iff in H as [H | H]; [| discriminate].
    apply String.eqb_eq in H. subst. now exists "".
  - apply orb_true_iff in H as [H | H].
    + apply String.eqb_eq in H. subst. now exists "".
    + destruct (IH H) as (t & ->). now exists (String c t).
Qed.

Lemma prefix_empty s : String.prefix "" s = true.
Proof. now destruct s. Qed.

(** A match that starts inside [t] and is longer than what is left of [t]
    continues into [suffix]. *)
Lemma prefix_reaches_suffix t :
  forall old suffix,
    String.prefix old (t +:+ suffix) = true ->
    String.prefix (string_drop (String.length t) old) suffix = true.
Proof.
  induction t as [| c t IH]; intros old suffix H.
  - now destruct old.
  - change (String c t +:+ suffix) with (String c (t +:+ suffix)) in H.
    destruct old as [| a old]; [apply prefix_empty |].
    cbn [String.prefix] in H. cbn [String.length string_drop].
    destruct (ascii_dec a c); [now apply IH | discriminate].
Qed.

Lemma no_overlap_spec old suffix t :
  no_overlap old suffix = true ->
  (0 < String.length t < String.length old)%nat ->
  String.prefix old (t +:+ suffix) = false.
Proof.
  intros Hno Hlen. apply not_true_is_false. intros H.
  apply prefix_reaches_suffix in H.
  unfold no_overlap in Hno. rewrite forallb_forall in Hno.
  specialize (Hno (String.length t)). rewrite H in Hno.
  assert (Hin : In (String.length t) (seq 1 (String.length old - 1)))
    by (apply in_seq; lia).
  specialize (Hno Hin). discriminate.
Qed.

(** Replacement keeps the end of a string: when no occurrence of [old] can
    reach into the final [suffix] from the left, the replacement of a string
    that ends with [suffix] ends as the replacement of [suffix] does. *)
Lemma replace_from_end old new suffix suffix' :
  no_overlap old suffix = true ->
  endswith suffix' (replace old new suffix) = true ->
  forall t skip,
    (skip <= String.length t)%nat ->
    endswith suffix' (replace_from old new skip (t +:+ suffix)) = true.
Proof.
  intros Hno Hbase.
  induction t as [| c t IH]; intros skip Hskip.
  - cbn in Hskip. assert (skip = 0)%nat as -> by lia. exact Hbase.
  - change (String c t +:+ suffix) with (String c (t +:+ suffix)).
    cbn [replace_from]. destruct skip as [| k].
    + destruct (String.prefix old (String c (t +:+ suffix))) eqn:Hpre.
      * destruct (String.length old) as [| k] eqn:Hlen.
        -- apply endswith_app, endswith_cons, IH. lia.
        -- apply endswith_app, IH.
           destruct (Nat.le_gt_cases k (String.length t)) as [Hle | Hgt];
             [exact Hle | exfalso].
           assert (Hf : String.prefix old (String c t +:+ suffix) = false)
             by (apply no_overlap_spec; [exact Hno | cbn [String.length]; lia]).
           change (String c t +:+ suffix) with (String c (t +:+ suffix)) in Hf.
           congruence.
      * apply endswith_cons, IH. lia.
    + apply IH. cbn [String.length] in Hskip. lia.
Qed.

Lemma replace_keeps_end old new suffix suffix' s :
  no_overlap old suffix = true ->
  endswith suffix' (replace old new suffix) = true ->
  endswith suffix s = true ->
  endswith suffix' (replace old new s) = true.
Proof.
  intros Hno Hbase Hs. apply endswith_split in Hs as (t & ->).
  apply (replace_from_end old new suffix suffix' Hno Hbase). lia.
Qed.

(** The name of the fallback file ends with [.json] whenever the requested
    name ends with [.yaml] or [.yml]. *)
Lemma fallback_name_is_json output_file :
  endswith ".yaml" output_file || endswith ".yml" output_file = true ->
  endswith ".json" (fallback_name output_file) = true.
Proof.
  intros H. unfold fallback_name. apply orb_true_iff in H as [H | H].
  - apply (replace_keeps_end ".yml" ".json" ".json" ".json");
      [reflexivity | reflexivity |].
    now apply (replace_keeps_end ".yaml" ".json" ".yaml" ".json").
  - apply (replace_keeps_end ".yml" ".json" ".yml" ".json");
      [reflexivity | reflexivity |].
    now apply (replace_keeps_end ".yaml" ".json" ".yml" ".yml").
Qed.

Lemma endswith_truthy suffix s :
  suffix <> "" -> endswith suffix s = true -> PyStr.truthy s = true.
Proof.
  intros Hne H. destruct s; [| reflexivity].
  cbn [endswith] in H. rewrite orb_false_r in H.
  apply String.eqb_eq in H. congruence.
Qed.

Context `{lib : PyLib} `{rt : Runtime}.

Lemma written_files_stderr lines effects :
  written_files (map Stderr lines ++ effects) = written_files effects.
Proof.
  unfold written_files. rewrite flat_map_app.
  induction lines as [| line lines IH]; [reflexivity | exact IH].
Qed.

Lemma printed_stderr lines effects :
  printed (map Stderr lines ++ effects) = printed effects.
Proof.
  unfold printed. rewrite flat_map_app.
  induction lines as [| line lines IH]; [reflexivity | exact IH].
Qed.

Lemma In_stderr effect lines effects :
  (forall text, effect <> Stderr text) ->
  In effect (map Stderr lines ++ effects) <-> In effect effects.
Proof.
  intros Hne. rewrite in_app_iff, in_map_iff. split; [| now right].
  intros [(line & <- & _) | H]; [now destruct (Hne line) | exact H].
Qed.

Lemma last_after {A : Type} (l l' : list A) d :
  l' <> [] -> List.last (l ++ l') d = List.last l' d.
Proof.
  intros Hne. induction l as [| a l IH]; [reflexivity |].
  cbn [app List.last]. rewrite IH.
  destruct (l ++ l') eqn:E; [| reflexivity].
  apply app_eq_nil in E as [_ E]. congruence.
Qed.

Lemma exit_status_stderr lines effects :
  effects <> [] ->
  exit_status (map Stderr lines ++ effects) = exit_status effects.
Proof.
  intros Hne. unfold exit_status. now rewrite last_after by exact Hne.
Qed.

(** The lines printed by the parser come first on the standard error. *)
Lemma main_captures program input_file rest requests :
  read_input input_file = Captures requests ->
  exists effects,
    main (program :: input_file :: rest)
    = map Stderr (generate_openapi_spec_stderr requests) ++ effects
    /\ effects <> []
    /\ effects
       = let spec := generate_openapi_spec requests "Generated API" "1.0.0" in
         match rest with
         | output_file :: _ =>
             if PyStr.truthy output_file then
               if endswith ".yaml" output_file || endswith ".yml" output_file
               then
                 match yaml_dump with
                 | Some dump =>
                     write_file output_file (dump spec)
                       [Stdout ("OpenAPI spec written to " +:+ output_file)]
                 | None =>
                     Stderr "Warning: PyYAML not installed, outputting JSON instead"
                     :: write_file (fallback_name output_file)
                                   (json_dump spec) []
                 end
               else
                 write_file output_file (json_dump spec)
                   [Stdout ("OpenAPI spec written to " +:+ output_file)]
             else print_document spec
         | [] => print_document spec
         end.
Proof.
  intros Hread. eexists. split; [| split; [| reflexivity]].
  - unfold main. rewrite Hread. now destruct rest.
  - cbv zeta. unfold write_file, print_document.
    destruct rest as [| output_file rest];
      [destruct (json_dumps _); discriminate |].
    destruct (PyStr.truthy output_file);
      [| destruct (json_dumps _); discriminate].
    destruct (endswith ".yaml" output_file || endswith ".yml" output_file);
      [destruct yaml_dump as [dump |]; [| discriminate] |];
      (destruct (writable output_file); [| discriminate]);
      match goal with |- context [match ?d with Complete _ => _ | _ => _ end] =>
        destruct d; discriminate end.
Qed.

(** When a YAML file is asked for and PyYAML is not installed, [main]
    prints, after the lines of the parser, a warning on the standard error,
    and opens the requested name with every [.yaml] and then every [.yml]
    replaced by [.json] for the JSON rendering; that name ends with
    [.json]; nothing is printed on the standard output, not even the
    confirmation that the other branches print; the run ends with an
    uncaught exception when the file cannot be opened or the rendering is
    interrupted. *)
Theorem yaml_fallback_writes_json_file :
  forall (argv : list string) (program input_file output_file : string)
         (rest : list string) (requests : list Request),
    argv = program :: input_file :: output_file :: rest ->
    read_input input_file = Captures requests ->
    endswith ".yaml" output_file || endswith ".yml" output_file = true ->
    yaml_dump = None ->
    let spec := generate_openapi_spec requests "Generated API" "1.0.0" in
    main argv
    = map Stderr (flat_map parse_network_request_stderr requests)
      ++ Stderr "Warning: PyYAML not installed, outputting JSON instead"
         :: (if writable (fallback_name output_file) then
               match json_dump spec with
               | Complete text => [WriteFile (fallback_name output_file) text]
               | Interrupted text =>
                   [WriteFile (fallback_name output_file) text; Uncaught]
               end
             else [Uncaught])
    /\ endswith ".json" (fallback_name output_file) = true
    /\ printed (main argv) = []
    /\ (forall name, In name (written_files (main argv)) ->
          name = fallback_name output_file).
Proof.
  intros argv program input_file output_file rest requests -> Hread Hext Hyaml
         spec.
  assert (Hmain :
            main (program :: input_file :: output_file :: rest)
            = map Stderr (flat_map parse_network_request_stderr requests)
              ++ Stderr "Warning: PyYAML not installed, outputting JSON instead"
                 :: write_file (fallback_name output_file) (json_dump spec) []).
  { unfold main. rewrite Hread, Hext, Hyaml.
    assert (Ht : PyStr.truthy output_file = true).
    { apply orb_true_iff in Hext as [H | H];
        eapply endswith_truthy; try exact H; discriminate. }
    now rewrite Ht. }
  rewrite Hmain. unfold write_file.
  split; [reflexivity |].
  split; [now apply fallback_name_is_json |].
  rewrite printed_stderr, written_files_stderr.
  destruct (writable _); [destruct (json_dump spec) |]; cbn;
    (split; [reflexivity | intros name H; intuition]).
Qed.

(** What [main] never does: it never opens more than one file to write; a
    run that ends in [sys.exit(1)] has written no file and printed nothing
    on the standard output; a run that ends with an uncaught exception has
    printed nothing on the standard output, and has left a file only if the
    rendering into that file was interrupted; a run that writes a file
    prints at most the confirmation line.  With fewer than two arguments the
    run ends in [sys.exit(1)].  An empty output name counts as no output
    name, and arguments after the output name are ignored. *)
Theorem main_outcomes :
  forall argv : list string,
    let effects := main argv in
    (length (written_files effects) <= 1)%nat
    /\ (exit_status effects = Some 1%Z ->
        written_files effects = [] /\ printed effects = [])
    /\ (In Uncaught effects ->
        printed effects = []
        /\ forall name,
             In name (written_files effects) ->
             exists text doc,
               In (WriteFile name text) effects
               /\ (json_dump doc = Interrupted text
                   \/ exists dump,
                        yaml_dump = Some dump /\ dump doc = Interrupted text))
    /\ (forall name, In name (written_files effects) ->
        printed effects = []
        \/ exists output_file,
             nth_error argv 2 = Some output_file
             /\ name = output_file
             /\ printed effects = ["OpenAPI spec written to " +:+ output_file])
    /\ ((length argv < 2)%nat -> exit_status effects = Some 1%Z)
    /\ (forall program input_file rest,
          argv = program :: input_file :: "" :: rest ->
          effects = main [program; input_file])
    /\ (forall program input_file output_file rest,
          argv = program :: input_file :: output_file :: rest ->
          effects = main [program; input_file; output_file]).
Proof.
  intros argv effects. subst effects.
  destruct argv as [| program [| input_file rest]].
  1, 2: cbn; repeat split; try discriminate; try lia;
        try (intros H; intuition discriminate); intros name [].
  assert (Hargs :
            (forall program0 input_file0 rest0,
                program :: input_file :: rest
                = program0 :: input_file0 :: "" :: rest0 ->
                main (program :: input_file :: rest)
                = main [program0; input_file0])
            /\ (forall program0 input_file0 output_file rest0,
                   program :: input_file :: rest
                   = program0 :: input_file0 :: output_file :: rest0 ->
                   main (program :: input_file :: rest)
                   = main [program0; input_file0; output_file])).
  { split.
    - intros ? ? ? [= <- <- ->]. unfold main.
      now destruct (read_input input_file).
    - intros ? ? ? ? [= <- <- ->]. reflexivity. }
  destruct Hargs as [Hempty Hrest].
  repeat match goal with |- _ /\ _ => split end;
    [| | | | | exact Hempty | exact Hrest]; clear Hempty Hrest.
  5: intros H; cbn in H; lia.
  all: destruct (read_input input_file) as [| | requests] eqn:Hread;
    [unfold main; rewrite Hread; cbn;
     first [lia | discriminate
            | intros _; split; [reflexivity | intros name []]
            | intros name []]
    | unfold main; rewrite Hread; cbn;
      first [lia | intros _; now split | intros H; intuition discriminate
             | intros name []]
    |].
  all: destruct (main_captures program input_file rest requests Hread)
    as (tail & -> & Hne & Htail).
  all: rewrite ?written_files_stderr, ?printed_stderr,
         ?(exit_status_stderr _ _ Hne).
  all: try rewrite (In_stderr Uncaught) by discriminate.
  all: cbv zeta in Htail; unfold write_file, print_document in Htail.
  all: destruct rest as [| output_file rest];
    [| destruct (PyStr.truthy output_file);
       [destruct (endswith ".yaml" output_file || endswith ".yml" output_file);
        [destruct yaml_dump as [dump |] eqn:Hyaml |] |]].
  all: repeat match type of Htail with
         | context [json_dumps ?d] => destruct (json_dumps d)
         | context [writable ?n] => destruct (writable n)
         | context [match ?d with Complete _ => _ | _ => _ end] =>
             destruct d eqn:?
         end.
  all: subst tail; cbn.
  all: try lia.
  all: try (intros [=]; now split).
  all: try (intros H; intuition discriminate).
  all: try (intros _; (split; [reflexivity |]); intros name Hin;
            destruct Hin as [<- | []];
            eexists _, _;
            (split; [apply in_or_app; right; cbn; eauto |]);
            first [ left; eassumption
                  | right; eexists; split; [reflexivity | eassumption] ]).
  all: intros name Hin; destruct Hin as [<- | []];
    first [ now left | right; eexists; now repeat split ].
Qed.

End CommandLine.

(* ===================================================================== *)
(** * The further properties on concrete captures *)
(* ===================================================================== *)

Section ConcreteRuns.

#[local] Existing Instance cpython.

Lemma normalize_path_keeps_plain_path_witness :
  normalize_path "https://api.example.com/users/me/"
  = Return ("https://api.example.com", "/users/me/", []).
Proof.
  apply (@normalize_path_keeps_plain_path cpython
           "https://api.example.com/users/me/"
           {| url_scheme := "https"; url_netloc := "api.example.com";
              url_path := "/users/me/"; url_params := EmptyString;
              url_query := EmptyString; url_fragment := EmptyString |}).
  - vm_compute. reflexivity.
  - vm_compute. repeat constructor.
Defined.

Lemma normalize_path_keeps_segments_witness :
  exists origin normalized_path params,
    normalize_path "https://api.example.com//users/3/"
    = Return (origin, normalized_path, params)
    /\ origin = "https://api.example.com"
    /\ PyStr.split "/" normalized_path
       = [EmptyString; EmptyString; "users"; "{id}"; EmptyString]
    /\ length (PyStr.split "/" normalized_path) = 5%nat
    /\ map (String.eqb EmptyString) (PyStr.split "/" normalized_path)
       = [true; true; false; false; true].
Proof.
  destruct (@normalize_path_keeps_segments cpython
              "https://api.example.com//users/3/"
              {| url_scheme := "https"; url_netloc := "api.example.com";
                 url_path := "//users/3/"; url_params := EmptyString;
                 url_query := EmptyString; url_fragment := EmptyString |}
              eq_refl) as [Hreturns Hshape].
  destruct Hreturns as [_ Hreturns].
  destruct Hreturns as ([[origin normalized_path] params] & Hn).
  { change (PyStr.split "/" (url_path _))
      with [EmptyString; EmptyString; "users"; "3"; EmptyString].
    repeat apply List.Forall_cons; [| | | | | apply List.Forall_nil];
      intros H; try (vm_compute in H; discriminate H).
    exists 3%Z. vm_compute. reflexivity. }
  exists origin, normalized_path, params. split; [exact Hn |].
  exact (Hshape origin normalized_path params Hn).
Defined.

Lemma normalize_path_idempotent_witness :
  normalize_path "https://api.example.com/users/{id}/orders/{id}"
  = Return ("https://api.example.com", "/users/{id}/orders/{id}", []).
Proof.
  apply (@normalize_path_idempotent cpython
           "https://api.example.com/users/3/orders/77"
           "https://api.example.com/users/{id}/orders/{id}"
           {| url_scheme := "https"; url_netloc := "api.example.com";
              url_path := "/users/{id}/orders/{id}"; url_params := EmptyString;
              url_query := EmptyString; url_fragment := EmptyString |}
           "https://api.example.com" "/users/{id}/orders/{id}"
           [("id", integer_path_param "id" 77)]).
  - vm_compute. reflexivity.
  - vm_compute. reflexivity.
  - reflexivity.
Defined.

(** The fields [a=], [flag] and [c=] give no pair: the pairs of the
    library are [(a, 2)], [(b, 1)], [(a, 3)]. *)
Lemma query_parameters_first_value_witness :
  let request :=
    capture "GET" "https://api.example.com/search?a=&a=2&flag&b=1&c=&a=3" in
  parse_qsl "a=&a=2&flag&b=1&c=&a=3" = [("a", "2"); ("b", "1"); ("a", "3")]
  /\ exists parsed,
       parse_network_request request = Some parsed
       /\ query_params parsed
          = [ {| p_name := "a"; p_in := "query"; p_required := None;
                 p_schema := typed "string"; p_example := JStr "2" |};
              {| p_name := "b"; p_in := "query"; p_required := None;
                 p_schema := typed "string"; p_example := JStr "1" |} ].
Proof.
  intros request. split; [vm_compute; reflexivity |].
  destruct (parse_network_request request) as [parsed |] eqn:Hp;
    [| vm_compute in Hp; discriminate Hp].
  exists parsed. split; [reflexivity |].
  exact (@query_parameters_first_value cpython request parsed
           {| url_scheme := "https"; url_netloc := "api.example.com";
              url_path := "/search"; url_params := EmptyString;
              url_query := "a=&a=2&flag&b=1&c=&a=3";
              url_fragment := EmptyString |}
           Hp eq_refl).
Defined.

Lemma first_exchange_decides_operation_witness :
  let requests := [first_post; second_post] in
  exists op,
    lookup_op "/users/{id}/notes" "post"
      (paths (generate_openapi_spec requests "Generated API" "1.0.0"))
    = Some op
    /\ exists before request after parsed,
         requests = before ++ request :: after
         /\ (forall earlier,
               In earlier before -> ~ produces "/users/{id}/notes" "post" earlier)
         /\ parse_network_request request = Some parsed
         /\ path parsed = "/users/{id}/notes" /\ method parsed = "post"
         /\ op_summary op = "POST /users/{id}/notes"
         /\ op_responses op = responses parsed
         /\ op_requestBody op = request_body parsed.
Proof.
  intros requests.
  destruct (lookup_op "/users/{id}/notes" "post"
              (paths (generate_openapi_spec requests "Generated API" "1.0.0")))
    as [op |] eqn:Hl; [| vm_compute in Hl; discriminate Hl].
  exists op. split; [reflexivity |].
  exact (@first_exchange_decides_operation cpython requests
           "Generated API" "1.0.0" "/users/{id}/notes" "post" op Hl).
Defined.

Lemma operation_has_one_response_witness :
  let requests := [first_post; second_post] in
  exists op,
    lookup_op "/users/{id}/notes" "post"
      (paths (generate_openapi_spec requests "Generated API" "1.0.0"))
    = Some op
    /\ op_responses op
       = [("201",
           {| ro_description := "Successful response";
              ro_content :=
                Some [("application/json",
                       {| mt_schema :=
                            set_items (typed "integer") (typed "array") |})] |})]
    /\ exists key response,
         op_responses op = [(key, response)]
         /\ ro_description response = "Successful response"
         /\ ((key = "200" /\ ro_content response = None)
             \/ exists status schema,
                  key = PyStr.str_of_int status
                  /\ ro_content response
                     = Some [("application/json", {| mt_schema := schema |})]
                  /\ has_example schema = false).
Proof.
  intros requests.
  destruct (lookup_op "/users/{id}/notes" "post"
              (paths (generate_openapi_spec requests "Generated API" "1.0.0")))
    as [op |] eqn:Hl; [| vm_compute in Hl; discriminate Hl].
  exists op. split; [reflexivity |]. split.
  - vm_compute in Hl. injection Hl as <-. reflexivity.
  - exact (@operation_has_one_response cpython requests
             "Generated API" "1.0.0" "/users/{id}/notes" "post" op Hl).
Defined.

Lemma request_body_without_examples_witness :
  let requests := [first_post; second_post] in
  exists op body,
    lookup_op "/users/{id}/notes" "post"
      (paths (generate_openapi_spec requests "Generated API" "1.0.0"))
    = Some op
    /\ op_requestBody op = Some body
    /\ exists schema,
         rb_content body = [("application/json", {| mt_schema := schema |})]
         /\ has_example schema = false.
Proof.
  intros requests.
  destruct (lookup_op "/users/{id}/notes" "post"
              (paths (generate_openapi_spec requests "Generated API" "1.0.0")))
    as [op |] eqn:Hl; [| vm_compute in Hl; discriminate Hl].
  destruct (op_requestBody op) as [body |] eqn:Hb;
    [| vm_compute in Hl; injection Hl as <-; discriminate Hb].
  exists op, body. split; [reflexivity |]. split; [exact Hb |].
  exact (@request_body_without_examples cpython requests
           "Generated API" "1.0.0" "/users/{id}/notes" "post" op body Hl Hb).
Defined.

Lemma servers_and_paths_ignore_input_order_witness :
  let a := capture "GET" "https://b.example.com/zeta" in
  let b := first_post in
  servers (generate_openapi_spec [a; b] "Generated API" "1.0.0")
  = servers (generate_openapi_spec [b; a] "Generated API" "1.0.0")
  /\ PyDict.keys (paths (generate_openapi_spec [a; b] "Generated API" "1.0.0"))
     = PyDict.keys (paths (generate_openapi_spec [b; a] "Generated API" "1.0.0")).
Proof.
  intros a b.
  apply (@servers_and_paths_ignore_input_order cpython [a; b] [b; a]).
  apply perm_swap.
Defined.

Lemma path_entries_are_populated_witness :
  let requests := [first_post; second_post] in
  exists methods,
    PyDict.get "/users/{id}/notes"
      (paths (generate_openapi_spec requests "Generated API" "1.0.0"))
    = Some methods
    /\ PyDict.keys methods = ["post"]
    /\ methods <> []
    /\ List.NoDup (PyDict.keys methods)
    /\ forall m,
         In m (PyDict.keys methods) ->
         is_lowercase m = true
         /\ exists request,
              In request requests /\ produces "/users/{id}/notes" m request.
Proof.
  intros requests.
  destruct (PyDict.get "/users/{id}/notes"
              (paths (generate_openapi_spec requests "Generated API" "1.0.0")))
    as [methods |] eqn:Hg; [| vm_compute in Hg; discriminate Hg].
  exists methods. split; [reflexivity |]. split.
  - vm_compute in Hg. injection Hg as <-. reflexivity.
  - exact (@path_entries_are_populated cpython requests
             "Generated API" "1.0.0" "/users/{id}/notes" methods Hg).
Defined.

Lemma appended_exchange_touches_one_operation_witness :
  let appended := capture "GET" "https://api.example.com/users/3/notes" in
  lookup_op "/users/{id}/notes" "post"
    (paths (generate_openapi_spec ([first_post] ++ [appended])
              "Generated API" "1.0.0"))
  = lookup_op "/users/{id}/notes" "post"
      (paths (generate_openapi_spec [first_post] "Generated API" "1.0.0")).
Proof.
  intros appended.
  apply (@appended_exchange_touches_one_operation cpython).
  intros (parsed & Hp & _ & Hm).
  vm_compute in Hp. injection Hp as <-. discriminate Hm.
Defined.

Lemma parameter_names_are_those_seen_witness :
  let requests := [first_post; second_post] in
  exists op,
    lookup_op "/users/{id}/notes" "post"
      (paths (generate_openapi_spec requests "Generated API" "1.0.0"))
    = Some op
    /\ map p_name (stored_parameters op) = ["id"; "lang"; "page"]
    /\ forall name,
         In name (map p_name (stored_parameters op))
         <-> exists request parsed,
               In request requests
               /\ parse_network_request request = Some parsed
               /\ path parsed = "/users/{id}/notes" /\ method parsed = "post"
               /\ In name (map p_name
                               (path_params parsed ++ query_params parsed)).
Proof.
  intros requests.
  destruct (lookup_op "/users/{id}/notes" "post"
              (paths (generate_openapi_spec requests "Generated API" "1.0.0")))
    as [op |] eqn:Hl; [| vm_compute in Hl; discriminate Hl].
  exists op. split; [reflexivity |]. split.
  - vm_compute in Hl. injection Hl as <-. reflexivity.
  - exact (@parameter_names_are_those_seen cpython requests
             "Generated API" "1.0.0" "/users/{id}/notes" "post" op Hl).
Defined.

(** A URL with an unbalanced bracket, and a segment of 4301 digits. *)
Lemma parser_reports_exceptions_witness :
  parse_network_request_stderr (capture "GET" "http://[::1/x")
  = ["Error parsing request: Invalid IPv6 URL"]
  /\ parse_network_request_stderr
       (capture "GET" ("https://api.example.com/items/3/"
                       +:+ repeat_string 4301 "7"))
     = ["Error parsing request: " +:+ CPython.digit_limit_message 4301].
Proof.
  split.
  - destruct (@parser_reports_exceptions cpython
                (capture "GET" "http://[::1/x")) as (_ & _ & _ & Hu & _).
    apply Hu; vm_compute; reflexivity.
  - destruct (@parser_reports_exceptions cpython
                (capture "GET" ("https://api.example.com/items/3/"
                                +:+ repeat_string 4301 "7")))
      as (_ & _ & _ & _ & Hi).
    apply (Hi {| url_scheme := "https"; url_netloc := "api.example.com";
                 url_path := "/items/3/" +:+ repeat_string 4301 "7";
                 url_params := EmptyString; url_query := EmptyString;
                 url_fragment := EmptyString |}
              [EmptyString; "items"; "3"] (repeat_string 4301 "7") []).
    + vm_compute. reflexivity.
    + vm_compute. reflexivity.
    + vm_compute. reflexivity.
    + repeat apply List.Forall_cons; [| | | apply List.Forall_nil];
        intros H; try (vm_compute in H; discriminate H).
      exists 3%Z. vm_compute. reflexivity.
    + vm_compute. reflexivity.
    + vm_compute. reflexivity.
Defined.

(** The first capture of the input has a URL that [urlparse] rejects: the
    line of the parser comes before the warning. *)
Lemma yaml_fallback_writes_json_file_witness :
  let argv := ["generate_openapi.py"; "capture.json"; "out/api.yaml"] in
  @main cpython runtime_without_yaml argv
  = [Stderr "Error parsing request: Invalid IPv6 URL";
     Stderr "Warning: PyYAML not installed, outputting JSON instead";
     WriteFile "out/api.json" "openapi 3.0.0"]
  /\ endswith ".json" (fallback_name "out/api.yaml") = true
  /\ printed (@main cpython runtime_without_yaml argv) = []
  /\ (forall name,
        In name (written_files (@main cpython runtime_without_yaml argv)) ->
        name = "out/api.json").
Proof.
  intros argv.
  exact (@yaml_fallback_writes_json_file cpython runtime_without_yaml argv
           "generate_openapi.py" "capture.json" "out/api.yaml" []
           [capture "GET" "http://[::1/x";
            capture "GET" "https://api.example.com/users/3"]
           eq_refl eq_refl eq_refl eq_refl).
Defined.

End ConcreteRuns.
